(** * TensileCreateLibrary: library merge and build pipeline

    A shallow embedding of [tensilelite/Tensile/TensileCreateLibrary.py]
    and the properties of its merge engine, kernel extraction, build
    pipeline coordinator, output planner and reconciler.

    Python values are modelled as follows.
    - [str] is [string]; the texts handled here (paths, kernel names,
      generated sources) are ASCII.
    - [list] is [list]; [list.remove] is [list_remove] (first equal
      element), [dict.fromkeys] is [dict_fromkeys].
    - a [set] used for membership only is a [gset]; a [dict] whose
      iteration order is observed is an association list.
    - a function that can raise returns an [Outcome]; a function that also
      prints or touches the file system runs in the monad [M], which
      threads the list of [event]s performed so far. *)

From Stdlib Require Import ZArith Ascii.
From stdpp Require Import base list strings gmap pretty.

Local Open Scope Z_scope.

Set Warnings "-clear-no-such-hyp".

(** ** Python strings *)

Module PyStr.

Definition newline : ascii := "010"%char.

(** [sub in s] on two [str]: [sub] occurs in [s] as a contiguous run. *)
Fixpoint contains (sub s : string) : bool :=
  String.prefix sub s ||
  match s with
  | EmptyString => false
  | String _ s' => contains sub s'
  end.

(** [occurs sub s]: [sub] is a contiguous part of [s]. *)
Definition occurs (sub s : string) : Prop := ∃ a b, s = a +:+ sub +:+ b.

(** [s[n:]] *)
Fixpoint drop (n : nat) (s : string) : string :=
  match n, s with
  | O, _ => s
  | S n', String _ s' => drop n' s'
  | S _, EmptyString => EmptyString
  end.

(** [str.isspace] on the ASCII range: tab, line feed, vertical tab, form
    feed, carriage return, the four separators 0x1c-0x1f and space. *)
Definition isspace (c : ascii) : bool :=
  match c with
  | "009" | "010" | "011" | "012" | "013"
  | "028" | "029" | "030" | "031" | " " => true
  | _ => false
  end%char.

Fixpoint lstrip (s : string) : string :=
  match s with
  | EmptyString => EmptyString
  | String c s' => if isspace c then lstrip s' else s
  end.

Definition rstrip (s : string) : string :=
  String.rev (lstrip (String.rev s)).

(** [s.strip()] *)
Definition strip (s : string) : string := rstrip (lstrip s).

Fixpoint all_space (s : string) : bool :=
  match s with
  | EmptyString => true
  | String c s' => isspace c && all_space s'
  end.

(** [c.lower()] and [c.upper()] on ASCII. *)
Definition lower_ascii (c : ascii) : ascii :=
  let n := nat_of_ascii c in
  if (Nat.leb 65 n && Nat.leb n 90)%bool then ascii_of_nat (n + 32) else c.

Definition upper_ascii (c : ascii) : ascii :=
  let n := nat_of_ascii c in
  if (Nat.leb 97 n && Nat.leb n 122)%bool then ascii_of_nat (n - 32) else c.

(** What [ntpath.normcase] does to a character. *)
Definition nt_char (c : ascii) : ascii :=
  if Ascii.eqb c "/"%char then "\"%char else lower_ascii c.

Fixpoint map_chars (f : ascii → ascii) (s : string) : string :=
  match s with
  | EmptyString => EmptyString
  | String c s' => String (f c) (map_chars f s')
  end.

(** [s.lower()] and [s.upper()] *)
Definition lower (s : string) : string := map_chars lower_ascii s.
Definition upper (s : string) : string := map_chars upper_ascii s.

(** [s.replace(old, new)] for a non-empty [old]: occurrences are found
    left to right and do not overlap; [skip] counts the characters of the
    occurrence being replaced that are still to be passed over. *)
Fixpoint replace_from (old new : string) (skip : nat) (s : string) : string :=
  match s with
  | EmptyString => EmptyString
  | String c s' =>
      match skip with
      | S k => replace_from old new k s'
      | O =>
          if String.prefix old s
          then new +:+ replace_from old new (String.length old - 1) s'
          else String c (replace_from old new 0 s')
      end
  end.

Definition replace (old new s : string) : string := replace_from old new 0 s.

(** The regular expression [.*$] matched at the start of [s]: the run of
    characters up to the first line feed, provided that run ends the
    string or is followed by one final line feed. *)
Fixpoint dot_star_eol (s : string) : option string :=
  match s with
  | EmptyString => Some EmptyString
  | String c s' =>
      if Ascii.eqb c newline
      then match s' with EmptyString => Some EmptyString | _ => None end
      else String c <$> dot_star_eol s'
  end.

(** [re.search(r"gfx.*$", s)]: the leftmost position where the pattern
    matches, [None] when there is none. The result is the matched text
    ([.group()] of the match object). *)
Fixpoint re_search_gfx (s : string) : option string :=
  match s with
  | EmptyString => None
  | String _ s' =>
      match (if String.prefix "gfx" s then dot_star_eol s else None) with
      | Some m => Some m
      | None => re_search_gfx s'
      end
  end.

End PyStr.

(** ** Python exceptions, outcomes and lists *)

Inductive exn : Type :=
  | RuntimeError
  | UnboundLocalError (var : string)
  | TypeError
  | AttributeError
  | IndexError
  | AssertionError (msg : string)
  | SystemExit (msg : string).

Inductive Outcome (A : Type) : Type :=
  | Ok (a : A)
  | Raise (e : exn).
Arguments Ok {A} a.
Arguments Raise {A} e.

Definition obind {A B} (x : Outcome A) (f : A → Outcome B) : Outcome B :=
  match x with
  | Ok a => f a
  | Raise e => Raise e
  end.

(** [l.remove(x)]: drops the first element equal to [x]; Python raises
    [ValueError] when there is none, which no caller below can trigger, so
    the list is returned unchanged there. *)
Fixpoint list_remove `{EqDecision A} (x : A) (l : list A) : list A :=
  match l with
  | [] => []
  | y :: l' => if decide (x = y) then l' else y :: list_remove x l'
  end.

(** [for x in xs: l.remove(x)] *)
Definition list_remove_all `{EqDecision A} (xs l : list A) : list A :=
  foldl (λ acc x, list_remove x acc) l xs.

(** [list(dict.fromkeys(l))] for the equality test [eqb] of the keys
    ([__eq__], with a hash that agrees with it): every element is inserted
    unless a stored key equal to it is present, so the first occurrence of
    every key survives, in order. [seen] holds the stored keys. *)
Fixpoint dict_fromkeys_from {A} (eqb : A → A → bool) (seen l : list A) : list A :=
  match l with
  | [] => []
  | x :: l' =>
      if existsb (λ k, eqb k x) seen
      then dict_fromkeys_from eqb seen l'
      else x :: dict_fromkeys_from eqb (seen ++ [x]) l'
  end.

Definition dict_fromkeys {A} (eqb : A → A → bool) (l : list A) : list A :=
  dict_fromkeys_from eqb [] l.

(** ** Output planner: [addxnack] of [buildObjectFileNames] *)

Module Planner.

(** [addxnack(name, ext)], closed over [sourceArchs]. [re.search] gives
    [None] for a name without [gfx], and [.group()] on it raises. *)
Definition addxnack (sourceArchs : list string) (name ext : string)
  : Outcome (list string) :=
  match PyStr.re_search_gfx name with
  | None => Raise AttributeError
  | Some arch =>
      if bool_decide (arch ∈ sourceArchs)
      then Ok [name +:+ ext]
      else Ok ((λ xnack, name +:+ PyStr.drop (String.length arch) xnack +:+ ext)
                 <$> filter (λ xnack, PyStr.contains arch xnack = true) sourceArchs)
  end.

End Planner.

(** ** Kernel extraction *)

Section Extraction.

(** The classes [Solution] (of which solutions and kernels are both
    instances) and the helper kernel writers live in other modules; the
    extraction uses them through the methods below. [Key] is the type of
    [Solution.getKeyNoInternalArgs], hashable because it is put in a
    [set]; [helper_eqb] is the [__eq__] of helper kernel objects, which
    [dict.fromkeys] consults. *)
Context {Solution Kernel Helper Key : Type} `{Countable Key}.
Variable getKernels : Solution → list Kernel.
Variable getHelperKernelObjects : Solution → list Helper.
Variable getKeyNoInternalArgs : Kernel → Key.
Variable helper_eqb : Helper → Helper → bool.
Variable getKernelName : Helper → string.

(** Two kernels with the same key. *)
Definition sameKey (a b : Kernel) : bool :=
  bool_decide (getKeyNoInternalArgs a = getKeyNoInternalArgs b).

(** The inner loop over [solutionKernels]. *)
Definition addKernels (st : list Kernel * gset Key) (solutionKernels : list Kernel)
  : list Kernel * gset Key :=
  foldl (λ '(kernels, kernelNames) kernel,
           let kName := getKeyNoInternalArgs kernel in
           if decide (kName ∈ kernelNames)
           then (kernels, kernelNames)
           else (kernels ++ [kernel], kernelNames ∪ {[kName]}))
        st solutionKernels.

Record ExtractState := {
  st_kernels : list Kernel;
  st_kernelHelperObjs : list Helper;
  st_kernelNames : gset Key;
  st_kernelHelperNames : gset string
}.

(** One iteration of [for solution in solutions]. *)
Definition extractStep (st : ExtractState) (solution : Solution) : ExtractState :=
  let '(kernels, kernelNames) :=
    addKernels (st_kernels st, st_kernelNames st) (getKernels solution) in
  let solutionHelperKernels := getHelperKernelObjects solution in
  {| st_kernels := kernels;
     st_kernelHelperObjs := st_kernelHelperObjs st ++ solutionHelperKernels;
     st_kernelNames := kernelNames;
     st_kernelHelperNames :=
       foldl (λ names ko, names ∪ {[getKernelName ko]})
             (st_kernelHelperNames st) solutionHelperKernels |}.

Definition generateKernelObjectsFromSolutions (solutions : list Solution)
  : list Kernel * list Helper * gset string :=
  let st := foldl extractStep
              {| st_kernels := []; st_kernelHelperObjs := [];
                 st_kernelNames := ∅; st_kernelHelperNames := ∅ |}
              solutions in
  (st_kernels st,
   dict_fromkeys helper_eqb (st_kernelHelperObjs st),
   st_kernelHelperNames st).

End Extraction.

(** Modelled from the spec: the equality of helper kernel objects, that is
    the [__eq__] and [__hash__] of the helper kernel writers, which are
    defined outside this file. The data model has a helper object
    "deduplicated by its generated name": two helpers are equal when
    their generated names are. *)
Definition helperEq {Helper : Type} (getKernelName : Helper → string)
    (a b : Helper) : bool :=
  bool_decide (getKernelName a = getKernelName b).

(** ** Effects: printing and the file system *)

Inductive open_mode : Type := ModeW | ModeA.

(** What the build does to the outside world, in the order it does it.
    The text written to a file is not tracked. *)
Inductive event : Type :=
  | EvPrint (msg : string)
  | EvPrintList (label : string) (items : list string)
  | EvEnsurePath (path : string)
  | EvOpen (mode : open_mode) (path : string)
  | EvCopy (source dest : string)
  | EvPushWorkingPath (folder : string)
  | EvPopWorkingPath
  | EvBuildSourceCodeObjects (kernelFiles : list string)
  | EvBuildAssemblyCodeObjects (kernelNames : list string)
  | EvLibraryWrite (path : string)
  | EvRmtree (path : string).

(** The events that leave something behind for the user of the library:
    a file opened for writing, a run of the compiler or of the assembler,
    a library written. *)
Definition producesOutput (e : event) : Prop :=
  match e with
  | EvOpen _ _ | EvCopy _ _ | EvBuildSourceCodeObjects _
  | EvBuildAssemblyCodeObjects _ | EvLibraryWrite _ => True
  | _ => False
  end.

(** A computation returns or raises, and extends the log of events. *)
Definition M (A : Type) : Type := list event → Outcome A * list event.

Definition ret {A} (a : A) : M A := λ log, (Ok a, log).

Definition bind {A B} (m : M A) (f : A → M B) : M B :=
  λ log, match m log with
         | (Ok a, log') => f a log'
         | (Raise e, log') => (Raise e, log')
         end.

Definition emit (e : event) : M unit := λ log, (Ok tt, log ++ [e]).

Definition raise {A} (e : exn) : M A := λ log, (Raise e, log).

Definition lift {A} (x : Outcome A) : M A := λ log, (x, log).

(** [Common.printExit]: the message, then the process exits. *)
Definition printExit {A} (msg : string) : M A := raise (SystemExit msg).

Declare Scope build_scope.
Delimit Scope build_scope with build.
Notation "x <~ m ;; k" := (bind m (λ x, k))
  (at level 100, m at next level, right associativity) : build_scope.
Notation "m ;;; k" := (bind m (λ _, k))
  (at level 100, right associativity) : build_scope.

(** [for x in l: body x], with the loop state passed along. *)
Fixpoint forM {A S} (body : S → A → M S) (l : list A) (s : S) : M S :=
  match l with
  | [] => ret s
  | x :: l' => bind (body s x) (forM body l')
  end.

(** The same loop for a body that only returns or raises. *)
Fixpoint foldO {A S} (body : S → A → Outcome S) (l : list A) (s : S) : Outcome S :=
  match l with
  | [] => Ok s
  | x :: l' => obind (body s x) (foldO body l')
  end.

Fixpoint mapO {A B} (f : A → Outcome B) (l : list A) : Outcome (list B) :=
  match l with
  | [] => Ok []
  | x :: l' => obind (f x) (λ y, obind (mapO f l') (λ ys, Ok (y :: ys)))
  end.

(** ** Insertion-ordered dictionaries *)

Module Dict.

Section Dict.
Context {V : Type}.

Definition t := list (string * V).

Definition keys (d : t) : list string := fst <$> d.

Fixpoint get (k : string) (d : t) : option V :=
  match d with
  | [] => None
  | (k', v) :: d' => if decide (k = k') then Some v else get k d'
  end.

(** [d[k] = v]: in place for a present key, at the end for a new one. *)
Fixpoint set (k : string) (v : V) (d : t) : t :=
  match d with
  | [] => [(k, v)]
  | (k', v') :: d' =>
      if decide (k = k') then (k', v) :: d' else (k', v') :: set k v d'
  end.

(** [d.pop(k)] for a present key. *)
Fixpoint pop (k : string) (d : t) : t :=
  match d with
  | [] => []
  | (k', v') :: d' =>
      if decide (k = k') then d' else (k', v') :: pop k d'
  end.

End Dict.

(** [d[k].append(x)] on a [collections.defaultdict(list)]. *)
Definition append {X} (k : string) (x : X) (d : list (string * list X))
  : list (string * list X) :=
  match get k d with
  | Some l => set k (l ++ [x]) d
  | None => set k [x] d
  end.

End Dict.

(** ** Global parameters and the platform *)

Record GlobalParameters : Type := {
  MergeFiles : bool;
  NumMergedFiles : Z;
  LazyLibraryLoading : bool;
  SeparateArchitectures : bool;
  GenerateSourcesAndExit : bool;
  GenerateManifestAndExit : bool;
  PrintCodeCommands : bool;
  KeepBuildTmp : bool;
  WorkingPath : string;
  SourcePath : string
}.

(** The parts of [os], [os.path] and [pathlib] the build relies on, with
    the state of the file system they see. [nt] says whether [os.name] is
    ["nt"]; [path_join] is [os.path.join], [parent] is [Path(p).parent]. *)
Record Platform : Type := {
  nt : bool;
  path_join : string → string → string;
  basename : string → string;
  parent : string → string;
  path_exists : string → bool;
  is_dir : string → bool
}.

(** [os.path.normcase]: lower case and backslashes on Windows, the path
    itself everywhere else. *)
Definition normcase (os : Platform) (p : string) : string :=
  if nt os then PyStr.map_chars PyStr.nt_char p else p.

(** ** Generating one kernel *)

(** [(err, src, header, kernelName, filename)] *)
Record BuildResult : Type := {
  err : Z;
  src : string;
  header : string;
  kernelName : string;
  filename : option string
}.

Global Instance BuildResult_eq_dec : EqDecision BuildResult.
Proof. solve_decision. Defined.

(** The methods of [KernelWriterAssembly] used here; each may raise. *)
Record KernelWriter (Kernel : Type) : Type := {
  setTensileInstructions : Outcome unit;
  getKernelFileBase : Kernel → Outcome string;
  getSourceFileString : Kernel → Outcome (Z * string);
  getHeaderFileString : Kernel → Outcome string;
  getKernelName : Kernel → string
}.
Arguments setTensileInstructions {Kernel} _.
Arguments getKernelFileBase {Kernel} _ _.
Arguments getSourceFileString {Kernel} _ _.
Arguments getHeaderFileString {Kernel} _ _.
Arguments getKernelName {Kernel} _ _.

(** The items of a kernel read by the pipeline. *)
Record KernelOps (Kernel Key : Type) : Type := {
  KernelLanguage : Kernel → string;
  SolutionIndex : Kernel → Z;
  SolutionNameMin : Kernel → string;
  codeObjectFile : Kernel → option string;
  getKeyNoInternalArgs : Kernel → Key
}.
Arguments KernelLanguage {Kernel Key} _ _.
Arguments SolutionIndex {Kernel Key} _ _.
Arguments SolutionNameMin {Kernel Key} _ _.
Arguments codeObjectFile {Kernel Key} _ _.
Arguments getKeyNoInternalArgs {Kernel Key} _ _.

Definition is_RuntimeError (e : exn) : bool :=
  match e with RuntimeError => true | _ => false end.

Section ProcessKernelSource.

Context {Kernel Key : Type}.
Variable ops : KernelOps Kernel Key.
Variable kernelWriter : KernelWriter Kernel.

(** The [except RuntimeError] clause; [bound] is the value of the local
    [kernelName] when the exception arrives, if it has one. Any other
    exception passes through. *)
Definition onException (bound : option string) (e : exn) : Outcome BuildResult :=
  if is_RuntimeError e then
    match bound with
    | Some kernelName =>
        Ok {| err := 1; src := ""; header := ""; kernelName := kernelName;
              filename := None |}
    | None => Raise (UnboundLocalError "kernelName")
    end
  else Raise e.

Definition processKernelSource (kernel : Kernel) : Outcome BuildResult :=
  match setTensileInstructions kernelWriter with
  | Raise e => onException None e
  | Ok _ =>
      match getKernelFileBase kernelWriter kernel with
      | Raise e => onException None e
      | Ok kernelName =>
          match getSourceFileString kernelWriter kernel with
          | Raise e => onException (Some kernelName) e
          | Ok (err, src) =>
              match getHeaderFileString kernelWriter kernel with
              | Raise e => onException (Some kernelName) e
              | Ok header =>
                  Ok {| err := err; src := src; header := header;
                        kernelName := kernelName;
                        filename := codeObjectFile ops kernel |}
              end
          end
      end
  end.

End ProcessKernelSource.

(** ** Writing kernel source and header files *)

(** A value that is a [str] on one path and an [int] on another. *)
Inductive pyval : Type :=
  | PyString (s : string)
  | PyInt (z : Z).

(** [s + v] for a [str] [s]: concatenation, and [TypeError] for an [int]. *)
Definition str_add (s : string) (v : pyval) : Outcome string :=
  match v with
  | PyString t => Ok (s +:+ t)
  | PyInt _ => Raise TypeError
  end.

(** [(err, src, header, kernelName)] *)
Definition Entry : Type := Z * string * string * string.

Record FilesState : Type := {
  kernelsToWrite : list Entry;
  filesToWrite : list (string * list Entry);
  validKernelCount : Z;
  kernelsWithBuildErrs : gmap string Z
}.

(** Two loop states, or two outcomes of the loop, that differ at most in
    the recorded build errors. *)
Definition sameFiles (a b : FilesState) : Prop :=
  kernelsToWrite a = kernelsToWrite b
  ∧ filesToWrite a = filesToWrite b
  ∧ validKernelCount a = validKernelCount b.

Definition sameGrouping (a b : Outcome FilesState) : Prop :=
  match a, b with
  | Ok x, Ok y => sameFiles x y
  | Raise e, Raise e' => e = e'
  | _, _ => False
  end.

Section BuildKernelFiles.

Variable gp : GlobalParameters.
Variable os : Platform.

(** One iteration of the loop over [results]. *)
Definition groupStep (outputPath : string) (st : FilesState) (r : BuildResult)
  : Outcome FilesState :=
  let errs :=
    if decide (err r ≠ 0)
    then <[kernelName r := err r]> (kernelsWithBuildErrs st)
    else kernelsWithBuildErrs st in
  if decide (String.length (PyStr.strip (src r)) = 0%nat) then
    Ok {| kernelsToWrite := kernelsToWrite st;
          filesToWrite := filesToWrite st;
          validKernelCount := validKernelCount st;
          kernelsWithBuildErrs := errs |}
  else
    let entry : Entry := (err r, src r, header r, kernelName r) in
    let dir := normcase os outputPath in
    obind
      (match filename r with
       | Some (String c f) => Ok (path_join os dir (String c f))
       | _ =>
           if MergeFiles gp then
             let kernelSuffix :=
               if decide (NumMergedFiles gp > 1)
               then PyInt (validKernelCount st `mod` NumMergedFiles gp)
               else PyString "" in
             obind (str_add "Kernels" kernelSuffix) (λ n, Ok (path_join os dir n))
           else Ok (path_join os dir (kernelName r))
       end)
      (λ file,
         Ok {| kernelsToWrite := kernelsToWrite st ++ [entry];
               filesToWrite := Dict.append file entry (filesToWrite st);
               validKernelCount := validKernelCount st + 1;
               kernelsWithBuildErrs := errs |}).

(** The entry kept for helper kernels after the loop. *)
Definition ensureHelperFile (outputPath : string) (st : FilesState)
  : list (string * list Entry) :=
  if LazyLibraryLoading gp
     || (MergeFiles gp && bool_decide (kernelsToWrite st = []))
  then
    let kernelSuffix := if decide (NumMergedFiles gp > 1) then "0" else "" in
    Dict.set (path_join os (normcase os outputPath) ("Kernels" +:+ kernelSuffix))
             [] (filesToWrite st)
  else filesToWrite st.

(** Returns [sourceFilenames] and the updated [kernelsWithBuildErrs]. *)
Definition buildKernelSourceAndHeaderFiles (results : list BuildResult)
    (outputPath : string) (kernelsWithBuildErrs0 : gmap string Z)
  : M (list string * gmap string Z) :=
  (st <~ lift (foldO (groupStep outputPath) results
                 {| kernelsToWrite := []; filesToWrite := [];
                    validKernelCount := 0;
                    kernelsWithBuildErrs := kernelsWithBuildErrs0 |}) ;;
   let files := ensureHelperFile outputPath st in
   forM (λ _ filename,
           emit (EvOpen ModeW (filename +:+ ".h")) ;;;
           emit (EvOpen ModeW (filename +:+ ".cpp")))
        (Dict.keys files) tt ;;;
   ret ((λ filePrefix, filePrefix +:+ ".cpp") <$> Dict.keys files,
        kernelsWithBuildErrs st))%build.

End BuildKernelFiles.

(** ** The build pipeline coordinator *)

(** The methods of a helper kernel object. *)
Record HelperOps (Helper : Type) : Type := {
  helperKernelName : Helper → string;
  helperSourceFileString : Helper → Z * string;
  helperHeaderFileString : Helper → string
}.
Arguments helperKernelName {Helper} _ _.
Arguments helperSourceFileString {Helper} _ _.
Arguments helperHeaderFileString {Helper} _ _.

(** [SourceCommands] and [AssemblyCommands]: the compiler and assembler
    behind the pipeline. The assembler also sees which kernels were marked
    as duplicates. *)
Record Toolchain (Kernel : Type) : Type := {
  buildSourceCodeObjectFiles : string → list string → string → Outcome (list string);
  buildAssemblyCodeObjectFiles :
    list Kernel → list (Kernel * option bool) → string → bool → Outcome (list string)
}.
Arguments buildSourceCodeObjectFiles {Kernel} _ _ _ _.
Arguments buildAssemblyCodeObjectFiles {Kernel} _ _ _ _ _.

(** The queues filled while scanning the results. *)
Record Removal (Kernel Key : Type) : Type := {
  removeKernels : list Kernel;
  removeKernelNames : list Key;
  removeResults : list BuildResult
}.
Arguments removeKernels {Kernel Key} _.
Arguments removeKernelNames {Kernel Key} _.
Arguments removeResults {Kernel Key} _.

Section Pipeline.

Context {Solution Kernel Helper Key : Type}.
Context `{EqDecision Solution, EqDecision Kernel, EqDecision Key}.
Variable gp : GlobalParameters.
Variable os : Platform.
Variable ops : KernelOps Kernel Key.
Variable getKernels : Solution → list Kernel.
Variable kernelWriterAssembly : KernelWriter Kernel.
Variable helperOps : HelperOps Helper.
Variable toolchain : Toolchain Kernel.

(** [prepAsm]: the assembly directory and the assembler script in it.
    [workingPath] is [globalParameters["WorkingPath"]] at the call. The
    text of the script, and the calls to the writer that compute its
    command lines, are not tracked. *)
Definition prepAsm (workingPath : string) : M unit :=
  (let asmPath := path_join os workingPath "assembly" in
   emit (EvEnsurePath asmPath) ;;;
   emit (EvOpen ModeW
           (path_join os asmPath ("asm-new." +:+ (if nt os then "bat" else "sh")))))%build.

(** Marks assembly kernels that share an object file name with an
    earlier one. *)
Definition markDuplicates (kernels : list Kernel)
  : Outcome (list (Kernel * option bool)) :=
  obind
    (foldO (λ '(marks, objFilenames) kernel,
              if decide (KernelLanguage ops kernel = "Assembly") then
                obind (getKernelFileBase kernelWriterAssembly kernel) (λ base,
                  if decide (base ∈ (objFilenames : gset string))
                  then Ok (marks ++ [(kernel, Some true)], objFilenames)
                  else Ok (marks ++ [(kernel, Some false)], objFilenames ∪ {[base]}))
              else Ok (marks ++ [(kernel, None)], objFilenames))
           kernels ([], ∅))
    (λ st, Ok st.1).

Definition failureReport (kernel : Kernel) : list event :=
  [EvPrint (String PyStr.newline "Kernel generation failed for kernel: "
              +:+ pretty (SolutionIndex ops kernel));
   EvPrint (SolutionNameMin ops kernel)].

(** One iteration of the scan over [enumerate(results)]; the pair is
    [(kernels[kernIdx], results[kernIdx])]. *)
Definition scanStep (errorTolerant : bool) (rm : Removal Kernel Key)
    (kr : Kernel * BuildResult) : M (Removal Kernel Key) :=
  (if decide (err kr.2 = -2) then
     (if errorTolerant then ret tt
      else forM (λ _ e, emit e) (failureReport kr.1) tt) ;;;
     let kName := getKeyNoInternalArgs ops kr.1 in
     ret {| removeKernels := removeKernels rm ++ [kr.1];
            removeKernelNames :=
              if decide (kName ∈ removeKernelNames rm)
              then removeKernelNames rm
              else removeKernelNames rm ++ [kName];
            removeResults := removeResults rm ++ [kr.2] |}
   else ret rm)%build.

Definition scanResults (errorTolerant : bool) (kernels : list Kernel)
    (results : list BuildResult) : M (Removal Kernel Key) :=
  forM (scanStep errorTolerant) (zip kernels results)
       {| removeKernels := []; removeKernelNames := []; removeResults := [] |}.

(** A kernel paired with a result that carries the fatal code. *)
Definition fatal (kr : Kernel * BuildResult) : Prop := err kr.2 = -2.

Global Instance fatal_dec kr : Decision (fatal kr).
Proof. unfold fatal. apply _. Defined.

(** The pairs [(kernels[i], results[i])] with a fatal result, in order. *)
Definition failing (kernels : list Kernel) (results : list BuildResult)
  : list (Kernel * BuildResult) :=
  filter fatal (zip kernels results).

(** What the scan prints when the mode is not error tolerant. *)
Definition failureReports (errorTolerant : bool) (l : list (Kernel * BuildResult))
  : list event :=
  if errorTolerant then [] else filter fatal l ≫= (λ kr, failureReport kr.1).

(** The events of [writeSolutionsAndKernels] up to the generation of the
    kernels. *)
Definition setupEvents (outputPath : string) : list event :=
  [EvPushWorkingPath "build_tmp";
   EvPushWorkingPath (PyStr.upper (basename os outputPath))]
  ++ (if negb (MergeFiles gp) || bool_decide (NumMergedFiles gp > 1)
         || LazyLibraryLoading gp
      then [EvEnsurePath (path_join os outputPath "Kernels")] else [])
  ++ [EvEnsurePath
        (path_join os
           (path_join os (path_join os (WorkingPath gp) "build_tmp")
              (PyStr.upper (basename os outputPath)))
           "assembly");
      EvOpen ModeW
        (path_join os
           (path_join os
              (path_join os (path_join os (WorkingPath gp) "build_tmp")
                 (PyStr.upper (basename os outputPath)))
              "assembly")
           ("asm-new." +:+ (if nt os then "bat" else "sh")))].

(** A solution is invalid when one of its kernels has a queued key. *)
Definition invalidSolution (rm : Removal Kernel Key) (solution : Solution) : bool :=
  existsb (λ kernel, bool_decide (getKeyNoInternalArgs ops kernel ∈ removeKernelNames rm))
          (getKernels solution).

(** The three removals: surviving kernels, solutions and results. *)
Definition cascade (rm : Removal Kernel Key) (kernels : list Kernel)
    (solutions : list Solution) (results : list BuildResult)
  : list Kernel * list Solution * list BuildResult :=
  let removeSolutions := filter (λ s, invalidSolution rm s = true) solutions in
  (list_remove_all (removeKernels rm) kernels,
   list_remove_all removeSolutions solutions,
   list_remove_all (removeResults rm) results).

(** One iteration of the loop over [kernelHelperObjs]; the state is
    [kernelFiles]. *)
Definition helperStep (outputPath : string) (kernelFiles : list string) (ko : Helper)
  : M (list string) :=
  (let kernelName := helperKernelName helperOps ko in
   kernelFiles <~
     (if MergeFiles gp then ret kernelFiles
      else
        let kernelSourceFilename :=
          path_join os (path_join os outputPath "Kernels") (kernelName +:+ ".cpp") in
        emit (EvOpen ModeW kernelSourceFilename) ;;;
        ret (kernelFiles ++ [kernelSourceFilename])) ;;
   (if decide ((helperSourceFileString helperOps ko).1 ≠ 0)
    then raise TypeError
    else ret tt) ;;;
   (if MergeFiles gp then ret tt
    else emit (EvOpen ModeW
                 (path_join os (path_join os (normcase os outputPath) "Kernels")
                            (kernelName +:+ ".h")))) ;;;
   ret kernelFiles)%build.

(** Returns [codeObjectFiles] and the lists [solutions] and [kernels] as
    the call leaves them: Python removes from the two lists in place.
    [results] are in the order of [kernels], as the scan pairs them by
    index. The call to [print1] and the progress bars of [Utils.tqdm] are
    left out. Formatting a helper's name with [%u] raises [TypeError]. *)
Definition writeSolutionsAndKernels (outputPath CxxCompiler : string)
    (solutions : list Solution) (kernels : list Kernel)
    (kernelHelperObjs : list Helper) (errorTolerant compress : bool)
  : M (list string * list Solution * list Kernel) :=
  (emit (EvPushWorkingPath "build_tmp") ;;;
   emit (EvPushWorkingPath (PyStr.upper (basename os outputPath))) ;;;
   let workingPath :=
     path_join os (path_join os (WorkingPath gp) "build_tmp")
               (PyStr.upper (basename os outputPath)) in
   (if negb (MergeFiles gp) || bool_decide (NumMergedFiles gp > 1)
       || LazyLibraryLoading gp
    then emit (EvEnsurePath (path_join os outputPath "Kernels"))
    else ret tt) ;;;
   prepAsm workingPath ;;;
   marks <~ lift (markDuplicates kernels) ;;
   results <~ lift (mapO (processKernelSource ops kernelWriterAssembly) kernels) ;;
   rm <~ scanResults errorTolerant kernels results ;;
   (if bool_decide (0 < length (removeKernels rm))%nat && negb errorTolerant
    then printExit "** kernel generation failure **"
    else ret tt) ;;;
   let '(kernels, solutions, results) := cascade rm kernels solutions results in
   built <~ buildKernelSourceAndHeaderFiles gp os results outputPath ∅ ;;
   let kernelFiles := built.1 in
   let kernelsWithBuildErrs := built.2 in
   kernelsToBuild <~
     (if errorTolerant then
        ret (filter (λ kernel,
                       kernelsWithBuildErrs !! getKernelName kernelWriterAssembly kernel
                       = None) kernels)
      else if bool_decide (0 < size kernelsWithBuildErrs)%nat then
        emit (EvPrint (String PyStr.newline
                "Kernel compilation failed in one or more subprocesses. May want to set CpuThreads=0 and re-run to make debug easier")) ;;;
        printExit "** kernel compilation failure **"
      else ret kernels) ;;
   (match kernelFiles with
    | first :: _ =>
        if bool_decide (NumMergedFiles gp > 1) then
          let kernelFilename := PyStr.replace ".cpp" "" first in
          emit (EvOpen ModeA (kernelFilename +:+ ".cpp")) ;;;
          emit (EvOpen ModeA (kernelFilename +:+ ".h"))
        else if MergeFiles gp || LazyLibraryLoading gp then
          emit (EvOpen ModeA (path_join os (normcase os outputPath) "Kernels.cpp")) ;;;
          emit (EvOpen ModeA (path_join os (normcase os outputPath) "Kernels.h"))
        else ret tt
    | [] =>
        if MergeFiles gp || LazyLibraryLoading gp then
          emit (EvOpen ModeA (path_join os (normcase os outputPath) "Kernels.cpp")) ;;;
          emit (EvOpen ModeA (path_join os (normcase os outputPath) "Kernels.h"))
        else ret tt
    end) ;;;
   kernelFiles <~ forM (helperStep outputPath) kernelHelperObjs kernelFiles ;;
   codeObjectFiles <~
     (if GenerateSourcesAndExit gp then ret []
      else
        emit (EvBuildSourceCodeObjects kernelFiles) ;;;
        fromSource <~ lift (buildSourceCodeObjectFiles toolchain CxxCompiler
                              kernelFiles outputPath) ;;
        emit (EvBuildAssemblyCodeObjects
                (getKernelName kernelWriterAssembly <$> kernelsToBuild)) ;;;
        fromAssembly <~ lift (buildAssemblyCodeObjectFiles toolchain kernelsToBuild
                                marks outputPath compress) ;;
        ret (fromSource ++ fromAssembly)) ;;
   emit EvPopWorkingPath ;;;
   emit EvPopWorkingPath ;;;
   ret (codeObjectFiles, solutions, kernels))%build.

End Pipeline.

(** ** Reconciling produced and planned code object files *)

Section Reconcile.

Variable os : Platform.

(** [setA] and [setB] of [TensileCreateLibrary]. *)
Definition setA (codeObjectFiles : list string) : gset string :=
  list_to_set (normcase os <$> codeObjectFiles).

Definition setB (sourceLibPaths asmLibPaths : list string) : gset string :=
  list_to_set (normcase os <$> (sourceLibPaths ++ asmLibPaths)).

(** The two assertions on [sanityCheck0] and [sanityCheck1]. *)
Definition reconcile (generateSourcesAndExit : bool)
    (codeObjectFiles sourceLibPaths asmLibPaths : list string) : Outcome unit :=
  let sanityCheck0 := setA codeObjectFiles ∖ setB sourceLibPaths asmLibPaths in
  let sanityCheck1 := setB sourceLibPaths asmLibPaths ∖ setA codeObjectFiles in
  if decide (size sanityCheck0 = 0%nat) then
    if negb generateSourcesAndExit then
      if decide (size sanityCheck1 = 0%nat) then Ok tt
      else Raise (AssertionError "Missing expected code object files")
    else Ok tt
  else Raise (AssertionError "Unexpected code object files").

End Reconcile.

(** ** The build, from the static files to the end *)

Definition libraryStaticFiles : list string :=
  ["TensileTypes.h"; "tensile_bfloat16.h"; "tensile_float8_bfloat8.h";
   "hip_f8_impl.h"; "KernelHeader.h"; "ReductionTemplate.h"; "memory_gfx.h"].

Section Build.

Context {Solution Kernel Helper Key Lib : Type}.
Context `{EqDecision Solution, EqDecision Kernel, EqDecision Key}.
Variable gp : GlobalParameters.
Variable os : Platform.
Variable ops : KernelOps Kernel Key.
Variable getKernels : Solution → list Kernel.
Variable kernelWriterAssembly : KernelWriter Kernel.
Variable helperOps : HelperOps Helper.
Variable toolchain : Toolchain Kernel.
(** The names of [lib.lazyLibraries], in order. *)
Variable lazyLibraryNames : Lib → list string.

(** What copying the static files, writing the manifest and preparing the
    assembler leave in the log. *)
Definition staticCopies (outputPath : string) : list event :=
  (λ fileName, EvCopy (path_join os (SourcePath gp) fileName) outputPath)
    <$> libraryStaticFiles.

Definition manifestFile (outputPath : string) : string :=
  path_join os (path_join os outputPath "library") "TensileManifest.txt".

Definition assemblerScript (outputPath : string) : string :=
  path_join os
    (path_join os
       (path_join os (path_join os (WorkingPath gp) "build_tmp")
          (PyStr.upper (basename os outputPath)))
       "assembly")
    ("asm-new." +:+ (if nt os then "bat" else "sh")).

Definition copyStaticFilesTo (outputPath : string) : M unit :=
  forM (λ _ fileName,
          emit (EvCopy (path_join os (SourcePath gp) fileName) outputPath))
       libraryStaticFiles tt.

(** [copyStaticFiles(outputPath)] *)
Definition copyStaticFiles (outputPath : string) : M (list string) :=
  (copyStaticFilesTo outputPath ;;; ret libraryStaticFiles)%build.

Definition writeManifest (outputPath : string)
    (libMetadataPaths sourceLibPaths asmLibPaths : list string) : M unit :=
  (let libraryPath := path_join os outputPath "library" in
   emit (EvEnsurePath libraryPath) ;;;
   emit (EvOpen ModeW (path_join os libraryPath "TensileManifest.txt")))%build.

Definition writeMasterLibraries (newLibraryDir : string) (archs : list string)
    (masterLibraries : list (string * Lib)) (fullMasterLibrary : option Lib) : M unit :=
  if SeparateArchitectures gp || LazyLibraryLoading gp then
    forM (λ _ '(archName, newMasterLibrary),
            if decide (archName ∈ archs) then
              (emit (EvLibraryWrite
                       (path_join os newLibraryDir
                          ((if LazyLibraryLoading gp then "TensileLibrary_lazy_"
                            else "TensileLibrary_") +:+ archName))) ;;;
               forM (λ _ name, emit (EvLibraryWrite (path_join os newLibraryDir name)))
                    (lazyLibraryNames newMasterLibrary) tt)%build
            else ret tt)
         masterLibraries tt
  else
    match fullMasterLibrary with
    | Some _ => emit (EvLibraryWrite (path_join os newLibraryDir "TensileLibrary"))
    | None => raise AttributeError
    end.

Definition checkFileExistence (files : list string) : M unit :=
  forM (λ _ filePath,
          if path_exists os filePath then ret tt
          else printExit ("File " +:+ filePath +:+ " is missing."))
       files tt.

(** [TensileCreateLibrary] once the logic files are merged, the kernels
    extracted and the expected files planned: [archs] are the names of
    the supported ISAs. The calls to [print1] and [print2] are left out. *)
Definition TensileCreateLibrary (outputPath CxxCompiler : string)
    (solutions : list Solution) (kernels : list Kernel)
    (kernelHelperObjs : list Helper)
    (masterLibraries : list (string * Lib)) (fullMasterLibrary : option Lib)
    (sourceLibPaths asmLibPaths libMetadataPaths archs : list string)
    (useCompression : bool) : M unit :=
  (staticFiles <~ copyStaticFiles outputPath ;;
   writeManifest outputPath libMetadataPaths sourceLibPaths asmLibPaths ;;;
   if GenerateManifestAndExit gp then ret tt
   else
     copyStaticFilesTo outputPath ;;;
     written <~ writeSolutionsAndKernels gp os ops getKernels kernelWriterAssembly
                  helperOps toolchain outputPath CxxCompiler solutions kernels
                  kernelHelperObjs false useCompression ;;
     let codeObjectFiles := written.1.1 in
     (if PrintCodeCommands gp then
        emit (EvPrintList "codeObjectFiles:" codeObjectFiles) ;;;
        emit (EvPrintList "sourceLibPaths + asmLibPaths:" (sourceLibPaths ++ asmLibPaths))
      else ret tt) ;;;
     lift (reconcile os (GenerateSourcesAndExit gp) codeObjectFiles
             sourceLibPaths asmLibPaths) ;;;
     let newLibraryDir := path_join os outputPath "library" in
     emit (EvEnsurePath newLibraryDir) ;;;
     writeMasterLibraries newLibraryDir archs masterLibraries fullMasterLibrary ;;;
     (if SeparateArchitectures gp then
        match masterLibraries with
        | [] => raise IndexError
        | _ => ret tt
        end
      else ret tt) ;;;
     checkFileExistence (libMetadataPaths ++ sourceLibPaths ++ asmLibPaths) ;;;
     (if KeepBuildTmp gp then ret tt
      else
        let buildTmp :=
          path_join os (path_join os (parent os outputPath) "library") "build_tmp" in
        if path_exists os buildTmp && is_dir os buildTmp
        then emit (EvRmtree buildTmp)
        else emit (EvPrint ("Cannot remove " +:+ buildTmp))))%build.

End Build.

(** ** The library merge engine *)

(** What [LibraryIO.parseLibraryLogicFile] yields for one logic file, as
    far as it is used: the architecture name, the library and the file. *)
Record ParsedLogic (Lib : Type) : Type := {
  architectureName : string;
  newLibrary : Lib;
  srcFile : string
}.
Arguments architectureName {Lib} _.
Arguments newLibrary {Lib} _.
Arguments srcFile {Lib} _.

Record MergeState (Lib : Type) : Type := {
  masterLibraries : list (string * Lib);
  fullMasterLibrary : option Lib;
  nextSolIndex : Z
}.
Arguments masterLibraries {Lib} _.
Arguments fullMasterLibrary {Lib} _.
Arguments nextSolIndex {Lib} _.

Section Merge.

Context {Lib : Type}.
Variable gp : GlobalParameters.
(** [self.merge(other, startIndex)] of [MasterSolutionLibrary] changes
    [self], may change [other] (its solutions are re-indexed and moved)
    and returns the next free index: [merge self other startIndex] is
    [(self', other', index)]. [None] stands for a call without
    [startIndex]. *)
Variable merge : Lib → Lib → option Z → Lib * Lib * Z.
(** [lib.version = version] *)
Variable setVersion : string → Lib → Lib.

(** One iteration of the loop over the parsed logic files. *)
Definition loadStep (version : string) (st : MergeState Lib) (library : ParsedLogic Lib)
  : MergeState Lib :=
  if decide (architectureName library = "") then st
  else if SeparateArchitectures gp || LazyLibraryLoading gp then
    match Dict.get (architectureName library) (masterLibraries st) with
    | Some master =>
        let merged := merge master (newLibrary library) (Some (nextSolIndex st)) in
        {| masterLibraries :=
             Dict.set (architectureName library) merged.1.1 (masterLibraries st);
           fullMasterLibrary := fullMasterLibrary st;
           nextSolIndex := merged.2 |}
    | None =>
        {| masterLibraries :=
             Dict.set (architectureName library)
                      (setVersion version (newLibrary library)) (masterLibraries st);
           fullMasterLibrary := fullMasterLibrary st;
           nextSolIndex := nextSolIndex st |}
    end
  else
    match fullMasterLibrary st with
    | None =>
        {| masterLibraries := masterLibraries st;
           fullMasterLibrary := Some (setVersion version (newLibrary library));
           nextSolIndex := nextSolIndex st |}
    | Some full =>
        {| masterLibraries := masterLibraries st;
           fullMasterLibrary := Some (merge full (newLibrary library) None).1.1;
           nextSolIndex := nextSolIndex st |}
    end.

(** One iteration of [for key, value in masterLibraries.items()]: the
    merge changes the library under [key] and the one under
    ["fallback"], both held by the dictionary. *)
Definition fallbackStep (libs : list (string * Lib)) (key : string)
  : list (string * Lib) :=
  if decide (key = "fallback") then libs
  else
    match Dict.get key libs, Dict.get "fallback" libs with
    | Some value, Some fallback =>
        let merged := merge value fallback None in
        Dict.set "fallback" merged.1.2 (Dict.set key merged.1.1 libs)
    | _, _ => libs
    end.

Definition mergeFallback (libs : list (string * Lib)) : list (string * Lib) :=
  if decide ("fallback" ∈ Dict.keys libs)
  then Dict.pop "fallback" (foldl fallbackStep libs (Dict.keys libs))
  else libs.

(** [generateLogicDataAndSolutions], for the libraries it returns:
    [masterLibraries] and [fullMasterLibrary]. [libraries] are the parsed
    logic files in the order the loader yields them. Without separate
    architectures the solutions are read from [fullMasterLibrary], which
    is [None] when no file was merged. *)
Definition generateLogicDataAndSolutions (libraries : list (ParsedLogic Lib))
    (version : string) : Outcome (list (string * Lib) * option Lib) :=
  let st := foldl (loadStep version)
              {| masterLibraries := []; fullMasterLibrary := None; nextSolIndex := 0 |}
              libraries in
  if SeparateArchitectures gp || LazyLibraryLoading gp then
    Ok (mergeFallback (masterLibraries st), fullMasterLibrary st)
  else
    match fullMasterLibrary st with
    | Some full => Ok (masterLibraries st, Some full)
    | None => Raise AttributeError
    end.

End Merge.

(** ** Selecting architectures *)

Module PySplit.

(** [s.split(sep)] for a separator of one character: the pieces between
    the occurrences of [sep], at least one. *)
Fixpoint split (sep : ascii) (s : string) : list string :=
  match s with
  | EmptyString => [EmptyString]
  | String c s' =>
      if Ascii.eqb c sep then EmptyString :: split sep s'
      else
        match split sep s' with
        | piece :: pieces => String c piece :: pieces
        | [] => [String c EmptyString]
        end
  end.

(** [sep.join(pieces)] *)
Fixpoint join (sep : ascii) (pieces : list string) : string :=
  match pieces with
  | [] => EmptyString
  | [piece] => piece
  | piece :: rest => piece +:+ String sep (join sep rest)
  end.

Fixpoint has_char (c : ascii) (s : string) : bool :=
  match s with
  | EmptyString => false
  | String d s' => Ascii.eqb d c || has_char c s'
  end.

End PySplit.

(** The list of architectures of [--architecture]: separated by [;] when
    there is one, by [_] otherwise. *)
Definition splitArchitecture (architecture : string) : list string :=
  if PyStr.contains ";" architecture
  then PySplit.split ";" architecture
  else PySplit.split "_" architecture.

(** [archMatch(arch, archs)] *)
Definition archMatch (arch : string) (archs : list string) : bool :=
  bool_decide (arch ∈ archs) || existsb (λ a, String.prefix arch a) archs.

(** [validLogicFile(p)]: [suffix] is [p.suffix] and [gfxArch] what
    [load_logic_gfx_arch(p)] reads from the file. *)
Definition validLogicFile (logicExtFormat : string) (archs : list string)
    (suffix gfxArch : string) : bool :=
  bool_decide (suffix = logicExtFormat)
  && (bool_decide ("all" ∈ archs) || archMatch gfxArch archs).

(** The checks [TensileCreateLibrary] makes on its arguments before it
    looks for logic files: every architecture is a key of
    [architectureMap], and lazy loading comes with merged files and
    separate architectures. Returns [logicArchs]. *)
Definition checkArchitectures (gp : GlobalParameters)
    (architectureMap : gmap string string) (architecture : string)
  : Outcome (gset string) :=
  obind
    (foldO (λ (logicArchs : gset string) arch,
              match architectureMap !! arch with
              | Some logicArch => Ok (logicArchs ∪ {[logicArch]})
              | None => Raise (SystemExit ("Architecture " +:+ arch +:+ " not supported"))
              end)
           (splitArchitecture architecture) ∅)
    (λ logicArchs,
       if LazyLibraryLoading gp && negb (MergeFiles gp && SeparateArchitectures gp)
       then Raise (SystemExit
              "--lazy-library-loading requires --merge-files and --separate-architectures enabled")
       else Ok logicArchs).

(** ** The output planner *)

(** The five lists [buildObjectFileNames] returns. *)
Record PlannedNames : Type := {
  solutionFiles : list string;
  sourceKernelFiles : list string;
  asmKernelFiles : list string;
  sourceLibFiles : list string;
  asmLibFiles : list string
}.

(** The six lists [buildObjectFilePaths] returns. *)
Record PlannedPaths : Type := {
  solutionPaths : list string;
  sourceKernelPaths : list string;
  asmKernelPaths : list string;
  sourceLibPaths : list string;
  asmLibPaths : list string;
  libMetadataPaths : list string
}.

(** [list(set(l))]: the distinct elements of [l]. Python leaves their
    order open; the order chosen here is not meant, and the properties
    below speak of membership only. *)
Definition list_of_set (l : list string) : list string :=
  elements (list_to_set l : gset string).

(** The pairs of a key and one of the values listed under it in a
    [defaultdict(list)]. *)
Definition listed {X} (d : list (string * list X)) : list (string * X) :=
  d ≫= (λ '(k, l), (λ x, (k, x)) <$> l).

Section PlanFiles.

Context {Kernel Helper Key Lib : Type}.
Variable gp : GlobalParameters.
Variable os : Platform.
Variable ops : KernelOps Kernel Key.
Variable kernelWriterAssembly : KernelWriter Kernel.
Variable helperOps : HelperOps Helper.
(** [getGfxName(kernel['ISA'])] *)
Variable gfxName : Kernel → string.
(** [supportedCompiler] and the source architectures of [splitArchs()],
    both of [Common]. *)
Variable supportedCompiler : string → bool.
Variable sourceArchs : list string.
(** The names of [lib.lazyLibraries], in order. *)
Variable lazyLibraryNames : Lib → list string.

(** One iteration of the loop over the assembly kernels; the state is
    [asmKernelNames] and [asmArchs]. *)
Definition asmStep (st : list string * list (string * list string)) (kernel : Kernel)
  : Outcome (list string * list (string * list string)) :=
  obind (getKernelFileBase kernelWriterAssembly kernel) (λ kernelName,
    Ok (st.1 ++ [kernelName], Dict.append kernelName (gfxName kernel) st.2)).

(** The code object file of a kernel when it names a fallback library. *)
Definition fallbackLib (kernel : Kernel) : option string :=
  match codeObjectFile ops kernel with
  | Some c => if PyStr.contains "fallback" c then Some c else None
  | None => None
  end.

(** The code object file of a kernel of the given language when it does
    not name a fallback library: the two [cond] of the source. *)
Definition archLib (language : string) (kernel : Kernel) : option string :=
  match codeObjectFile ops kernel with
  | Some c =>
      if negb (PyStr.contains "fallback" c)
         && bool_decide (KernelLanguage ops kernel = language)
      then Some c else None
  | None => None
  end.

Definition headerAndSource (kernelName : string) : list string :=
  [kernelName +:+ ".h"; kernelName +:+ ".cpp"].

(** [CxxCompiler] is [globalParameters["CxxCompiler"]]. *)
Definition buildObjectFileNames (CxxCompiler : string) (kernels : list Kernel)
    (kernelHelperObjs : list Helper) : Outcome PlannedNames :=
  obind
    (foldO asmStep (filter (λ k, KernelLanguage ops k = "Assembly") kernels) ([], []))
    (λ asm,
       let asmKernelNames := asm.1 in
       let asmArchs := asm.2 in
       let kernelHelperObjNames := helperKernelName helperOps <$> kernelHelperObjs in
       if negb (supportedCompiler CxxCompiler) then Raise RuntimeError
       else
         let sourceKernelFiles :=
           if negb (MergeFiles gp) then
             (asmKernelNames ++ kernelHelperObjNames) ≫= headerAndSource
           else if decide (NumMergedFiles gp > 1) then
             (seqZ 0 (NumMergedFiles gp)
                ≫= (λ kernelIndex, headerAndSource ("Kernels" +:+ pretty kernelIndex)))
             ++ (kernelHelperObjNames ≫= headerAndSource)
           else ["Kernels.h"; "Kernels.cpp"] in
         let asmKernelFiles :=
           asmKernelNames
             ≫= (λ n, [n +:+ ".s"; n +:+ ".o"; n +:+ ".co"]) in
         let sourceLibFiles :=
           if negb (MergeFiles gp) then
             kernelHelperObjNames
               ≫= (λ kernelName,
                     (λ arch, kernelName +:+ ".so-000-" +:+ arch +:+ ".hsaco")
                       <$> sourceArchs)
           else if decide (NumMergedFiles gp > 1) then
             seqZ 0 (NumMergedFiles gp)
               ≫= (λ kernelIndex,
                     (λ arch, "Kernels" +:+ pretty kernelIndex +:+ ".so-000-"
                                +:+ arch +:+ ".hsaco") <$> sourceArchs)
           else if LazyLibraryLoading gp then
             (list_of_set (omap fallbackLib kernels)
                ≫= (λ name, (λ arch, name +:+ "_" +:+ arch +:+ ".hsaco") <$> sourceArchs))
             ++ ((λ arch, "Kernels.so-000-" +:+ arch +:+ ".hsaco") <$> sourceArchs)
           else (λ arch, "Kernels.so-000-" +:+ arch +:+ ".hsaco") <$> sourceArchs in
         if LazyLibraryLoading gp then
           obind
             (mapO (λ c, Planner.addxnack sourceArchs c ".hsaco")
                   (omap (archLib "Source") kernels))
             (λ variants,
                Ok {| solutionFiles := [];
                      sourceKernelFiles := sourceKernelFiles;
                      asmKernelFiles := asmKernelFiles;
                      sourceLibFiles := sourceLibFiles ++ list_of_set (concat variants);
                      asmLibFiles :=
                        list_of_set ((λ c, c +:+ ".co")
                                       <$> omap (archLib "Assembly") kernels) |})
         else if MergeFiles gp then
           Ok {| solutionFiles := [];
                 sourceKernelFiles := sourceKernelFiles;
                 asmKernelFiles := asmKernelFiles;
                 sourceLibFiles := sourceLibFiles;
                 asmLibFiles :=
                   (λ arch, "TensileLibrary_" +:+ arch +:+ ".co")
                     <$> list_of_set (concat (snd <$> asmArchs)) |}
         else
           Ok {| solutionFiles := [];
                 sourceKernelFiles := sourceKernelFiles;
                 asmKernelFiles := asmKernelFiles;
                 sourceLibFiles := sourceLibFiles;
                 asmLibFiles :=
                   asmArchs
                     ≫= (λ '(asmKernelName, archs),
                           (λ arch, asmKernelName +:+ "_" +:+ arch +:+ ".co")
                             <$> archs) |}).

(** [libraryFormat] is [globalParameters["LibraryFormat"]]. *)
Definition buildObjectFilePaths (libraryFormat prefixDir : string)
    (names : PlannedNames) (masterLibraries : list (string * Lib)) : PlannedPaths :=
  let sourceKernelDir :=
    if negb (MergeFiles gp) || bool_decide (NumMergedFiles gp > 1)
    then path_join os prefixDir "Kernels" else prefixDir in
  let asmKernelDir := path_join os prefixDir "assembly" in
  let libDir := path_join os prefixDir "library" in
  let libraryExt := if decide (libraryFormat = "yaml") then ".yaml" else ".dat" in
  let newMetadataPaths :=
    masterLibraries
      ≫= (λ '(arch, lib),
            path_join os libDir
              ((if LazyLibraryLoading gp then "TensileLibrary_lazy_" else "TensileLibrary_")
                 +:+ arch +:+ libraryExt)
            :: ((λ name, path_join os libDir (name +:+ libraryExt))
                  <$> lazyLibraryNames lib)) in
  {| solutionPaths := [];
     sourceKernelPaths := path_join os sourceKernelDir <$> sourceKernelFiles names;
     asmKernelPaths := path_join os asmKernelDir <$> asmKernelFiles names;
     sourceLibPaths := path_join os libDir <$> sourceLibFiles names;
     asmLibPaths := path_join os libDir <$> asmLibFiles names;
     libMetadataPaths :=
       (if negb (SeparateArchitectures gp) && negb (LazyLibraryLoading gp)
        then [path_join os libDir ("TensileLibrary" +:+ libraryExt)] else [])
       ++ list_of_set newMetadataPaths |}.

End PlanFiles.

(** ** Validating the lazy libraries *)

(** How [validateLibrary] can fail: a key that is not there, or the
    assertion at its end. *)
Inductive ValidationError : Type :=
  | KeyError (key : string)
  | InconsistentSizes.

(** [itertools.groupby(l, key)]: the maximal runs of neighbours with the
    same key, each with its key. *)
Fixpoint groupby {A} (key : A → string) (l : list A) : list (string * list A) :=
  match l with
  | [] => []
  | x :: l' =>
      match groupby key l' with
      | (k, g) :: rest =>
          if decide (key x = k) then (k, x :: g) :: rest
          else (key x, [x]) :: (k, g) :: rest
      | [] => [(key x, [x])]
      end
  end.

(** [{k: v for k, v in pairs}]: a later pair replaces an earlier one with
    the same key. *)
Definition dict_of_pairs {V} (pairs : list (string * V)) : list (string * V) :=
  foldl (λ d '(k, v), Dict.set k v d) [] pairs.

Section ValidateLibrary.

Context {Kernel Key Lib : Type}.
Variable ops : KernelOps Kernel Key.
Variable kernelWriterAssembly : KernelWriter Kernel.
(** [lib.lazyLibraries]: the name of every lazy library with the
    [originalSolution] of each of its solutions. *)
Variable lazyLibraries : Lib → list (string * list Kernel).

Definition sizeMessage (name : string) (inLib inFile : nat) : string :=
  name +:+ " library and co has inconsistent kernel size "
       +:+ pretty inLib +:+ " vs " +:+ pretty inFile.

(** The loop over the lazy libraries; [ok] and [printed] are the flag and
    the lines printed so far. *)
Fixpoint checkLazyLibraries (kernelsByCodeObjectFiles : list (string * list Kernel))
    (libs : list (string * list Kernel)) (ok : bool) (printed : list string)
  : list string * option ValidationError :=
  match libs with
  | [] => (printed, if ok then None else Some InconsistentSizes)
  | (name, solutions) :: libs' =>
      match Dict.get name kernelsByCodeObjectFiles with
      | None => (printed, Some (KeyError name))
      | Some inFile =>
          let uniqueKernelsInLib : gset string :=
            list_to_set (getKernelName kernelWriterAssembly <$> solutions) in
          if decide (size uniqueKernelsInLib ≠ length inFile)
          then checkLazyLibraries kernelsByCodeObjectFiles libs' false
                 (printed ++ [sizeMessage name (size uniqueKernelsInLib) (length inFile)])
          else checkLazyLibraries kernelsByCodeObjectFiles libs' ok printed
      end
  end.

(** Every kernel with its [k["codeObjectFile"]], when each has one. *)
Fixpoint keyedKernels (kernels : list Kernel) : option (list (string * Kernel)) :=
  match kernels with
  | [] => Some []
  | k :: kernels' =>
      match codeObjectFile ops k, keyedKernels kernels' with
      | Some c, Some keyed => Some ((c, k) :: keyed)
      | _, _ => None
      end
  end.

(** [{k: list(g) for k, g in itertools.groupby(kernels, ...)}] *)
Definition kernelsByCodeObjectFiles (keyed : list (string * Kernel))
  : list (string * list Kernel) :=
  dict_of_pairs
    ((λ kg : string * list (string * Kernel), (kg.1, snd <$> kg.2))
       <$> groupby fst keyed).

(** Returns the lines printed and the exception raised, if any. A kernel
    without [codeObjectFile] makes the grouping raise. *)
Definition validateLibrary (masterLibraries : list (string * Lib)) (kernels : list Kernel)
  : list string * option ValidationError :=
  match keyedKernels kernels with
  | None => ([], Some (KeyError "codeObjectFile"))
  | Some keyed =>
      checkLazyLibraries (kernelsByCodeObjectFiles keyed)
        (masterLibraries ≫= (λ '(_, lib), lazyLibraries lib)) true []
  end.

End ValidateLibrary.

(** * A concrete build *)

(** A POSIX platform on which every path exists. *)
Definition posix_join (a b : string) : string :=
  match b, a with
  | String "/"%char _, _ => b
  | _, EmptyString => b
  | _, _ =>
      match String.rev a with
      | String "/"%char _ => a +:+ b
      | _ => a +:+ "/" +:+ b
      end
  end.

Fixpoint after_last_slash (acc s : string) : string :=
  match s with
  | EmptyString => acc
  | String c s' =>
      if Ascii.eqb c "/"%char then after_last_slash "" s'
      else after_last_slash (acc +:+ String c "") s'
  end.

Fixpoint before_last_slash (s : string) : string :=
  match s with
  | EmptyString => ""
  | String c s' =>
      if PyStr.contains "/" s' then String c (before_last_slash s') else ""
  end.

Definition posix : Platform := {|
  nt := false;
  path_join := posix_join;
  basename := after_last_slash "";
  parent := λ p, match before_last_slash p with EmptyString => "/" | d => d end;
  path_exists := λ _, true;
  is_dir := λ _, true
|}.

Definition lazyParameters : GlobalParameters := {|
  MergeFiles := true;
  NumMergedFiles := 1;
  LazyLibraryLoading := true;
  SeparateArchitectures := true;
  GenerateSourcesAndExit := false;
  GenerateManifestAndExit := false;
  PrintCodeCommands := false;
  KeepBuildTmp := false;
  WorkingPath := "/work";
  SourcePath := "/src"
|}.

(** Kernels are numbers: kernel 7 cannot be generated, kernel 5 comes
    with error code 1, kernel 3 has an empty source, the others are fine. *)
Definition demoWriter : KernelWriter nat := {|
  setTensileInstructions := Ok tt;
  getKernelFileBase := λ k, Ok ("Cijk_" +:+ pretty k);
  getSourceFileString := λ k,
    match k with
    | 7%nat => Ok (-2, "")
    | 5%nat => Ok (1, "kernel text")
    | 3%nat => Ok (0, "  ")
    | _ => Ok (0, "kernel text")
    end;
  getHeaderFileString := λ _, Ok "header text";
  getKernelName := λ k, "Cijk_" +:+ pretty k
|}.

Definition demoHelpers : HelperOps string := {|
  helperKernelName := λ name, name;
  helperSourceFileString := λ _, (0, "helper text");
  helperHeaderFileString := λ _, "helper header"
|}.

Definition demoToolchain : Toolchain nat := {|
  buildSourceCodeObjectFiles := λ _ _ _, Ok [];
  buildAssemblyCodeObjectFiles := λ _ _ _ _, Ok []
|}.

Definition demoResult (k : nat) (code : Z) (text : string) : BuildResult :=
  {| err := code; src := text; header := "header text";
     kernelName := "Cijk_" +:+ pretty k; filename := None |}.

(** A library is the list of its solution indices; merging appends. *)
Definition demoMerge (self other : list nat) (startIndex : option Z)
  : list nat * list nat * Z :=
  (self ++ other, other, Z.of_nat (length (self ++ other))).

Definition demoLogic (arch : string) (lib : list nat) : ParsedLogic (list nat) :=
  {| architectureName := arch; newLibrary := lib; srcFile := arch +:+ ".yaml" |}.

(** A writer that cannot name a kernel. *)
Definition failingWriter : KernelWriter nat := {|
  setTensileInstructions := Ok tt;
  getKernelFileBase := λ _, Raise RuntimeError;
  getSourceFileString := λ _, Ok (0, "source");
  getHeaderFileString := λ _, Ok "header";
  getKernelName := λ _, "Cijk"
|}.

Definition plainOps : KernelOps nat nat := {|
  KernelLanguage := λ _, "Assembly";
  SolutionIndex := λ k, Z.of_nat k;
  SolutionNameMin := λ _, "Cijk";
  codeObjectFile := λ _, None;
  getKeyNoInternalArgs := λ k, k
|}.

(** Kernels for the planner: the even ones are assembly kernels, the odd
    ones source kernels; kernel 0 and 1 belong to a library of gfx90a,
    kernel 2 to a fallback library, kernel 3 to a library whose name has
    no architecture, the others to none. *)
Definition plannerOps : KernelOps nat nat := {|
  KernelLanguage := λ k, if Nat.even k then "Assembly" else "Source";
  SolutionIndex := λ k, Z.of_nat k;
  SolutionNameMin := λ _, "Cijk";
  codeObjectFile := λ k,
    match k with
    | 0%nat | 1%nat => Some "TensileLibrary_Type_HH_gfx90a"
    | 2%nat => Some "TensileLibrary_Type_HH_fallback"
    | 3%nat => Some "TensileLibrary_Type_HH"
    | _ => None
    end;
  getKeyNoInternalArgs := λ k, k
|}.

Definition mergeParameters : GlobalParameters := {|
  MergeFiles := true;
  NumMergedFiles := 1;
  LazyLibraryLoading := false;
  SeparateArchitectures := false;
  GenerateSourcesAndExit := false;
  GenerateManifestAndExit := false;
  PrintCodeCommands := false;
  KeepBuildTmp := false;
  WorkingPath := "/work";
  SourcePath := "/src"
|}.

(** Two merged files. *)
Definition numberedParameters : GlobalParameters := {|
  MergeFiles := true;
  NumMergedFiles := 2;
  LazyLibraryLoading := false;
  SeparateArchitectures := false;
  GenerateSourcesAndExit := false;
  GenerateManifestAndExit := false;
  PrintCodeCommands := false;
  KeepBuildTmp := false;
  WorkingPath := "/work";
  SourcePath := "/src"
|}.


(** * Properties *)

(** ** Strings *)

Module PyStrFacts.
Import PyStr.

Lemma app_nil_l (s : string) : "" +:+ s = s.
Proof. reflexivity. Qed.

Lemma app_cons (c : ascii) (a b : string) :
  String c a +:+ b = String c (a +:+ b).
Proof. reflexivity. Qed.

Lemma app_nil_r (s : string) : s +:+ "" = s.
Proof. induction s as [|c s IH]; [done|]. by rewrite app_cons, IH. Qed.

Lemma app_assoc (a b c : string) : (a +:+ b) +:+ c = a +:+ b +:+ c.
Proof. induction a as [|x a IH]; [done|]. by rewrite !app_cons, IH. Qed.

Lemma prefix_spec (p s : string) :
  String.prefix p s = true ↔ ∃ b, s = p +:+ b.
Proof.
  revert s. induction p as [|c p IH]; intros s; simpl.
  - split; [intros _; by exists s|by destruct s].
  - destruct s as [|d s]; simpl; [split; [done|intros [b Hb]; discriminate]|].
    destruct (ascii_dec c d) as [->|Hne].
    + rewrite IH. split; intros [b Hb]; exists b.
      * by rewrite app_cons, <- Hb.
      * rewrite app_cons in Hb. by simplify_eq.
    + split; [done|]. intros [b Hb]. rewrite app_cons in Hb. by simplify_eq.
Qed.

Lemma contains_spec (sub s : string) : contains sub s = true ↔ occurs sub s.
Proof.
  induction s as [|c s IH]; cbn [contains].
  - rewrite orb_false_r, prefix_spec. split.
    + intros [b Hb]. by exists "", b.
    + intros ([|x a] & b & Hab); [by exists b|discriminate].
  - rewrite orb_true_iff, prefix_spec, IH. split.
    + intros [[b Hb]|(a & b & Hab)].
      * by exists "", b.
      * exists (String c a), b. by rewrite app_cons, Hab.
    + intros ([|x a] & b & Hab).
      * left. by exists b.
      * right. rewrite app_cons in Hab. simplify_eq. by exists a, b.
Qed.

Global Instance occurs_dec (sub s : string) : Decision (occurs sub s).
Proof.
  destruct (contains sub s) eqn:E.
  - left. by apply contains_spec.
  - right. intros Ho%contains_spec. congruence.
Defined.

Lemma drop_app (a b : string) : drop (String.length a) (a +:+ b) = b.
Proof. induction a as [|c a IH]; [by destruct b|]. by rewrite app_cons. Qed.

(** The match of [.*$] is a prefix of the text, and what follows it is
    nothing or one line feed. *)
Lemma dot_star_eol_spec (s m : string) :
  dot_star_eol s = Some m → s = m ∨ s = m +:+ String newline "".
Proof.
  revert m. induction s as [|c s IH]; intros m; simpl.
  - intros [= <-]. by left.
  - destruct (Ascii.eqb_spec c newline) as [->|Hc].
    + destruct s; [|done]. intros [= <-]. by right.
    + destruct (dot_star_eol s) as [m'|]; [|done]. intros [= <-].
      destruct (IH m' eq_refl) as [->| ->]; [by left|right].
      by rewrite app_cons.
Qed.

Lemma dot_star_eol_prefix (p s m : string) :
  String.prefix p s = true → dot_star_eol s = Some m →
  (∀ c, c ∈ String.list_ascii_of_string p → c ≠ newline) →
  String.prefix p m = true.
Proof.
  revert s m. induction p as [|c p IH]; intros s m; [by destruct m|].
  destruct s as [|d s]; [done|]. simpl.
  destruct (ascii_dec c d) as [<-|]; [|done]. intros Hp Hm Hnl.
  destruct (Ascii.eqb_spec c newline) as [->|Hc].
  { exfalso. eapply Hnl; [|done]. simpl. left. }
  destruct (dot_star_eol s) as [m'|] eqn:E; [|done]. simplify_eq/=.
  destruct (ascii_dec c c); [|done]. eapply IH; [done..|].
  intros x Hx. apply Hnl. simpl. by right.
Qed.

(** What [re.search(r"gfx.*$", name)] returns is the tail of the name
    from some occurrence of [gfx] on, up to a final line feed. *)
Lemma re_search_gfx_spec (name arch : string) :
  re_search_gfx name = Some arch →
  String.prefix "gfx" arch = true ∧
  ∃ pre, name = pre +:+ arch ∨ name = pre +:+ arch +:+ String newline "".
Proof.
  induction name as [|c name IH]; [done|].
  cbn [re_search_gfx].
  destruct (String.prefix "gfx" (String c name)) eqn:Hp.
  - destruct (dot_star_eol (String c name)) as [m|] eqn:Hm.
    + intros [= <-]. split.
      * eapply dot_star_eol_prefix; [done..|].
        intros x Hx. cbv in Hx.
        repeat (apply elem_of_cons in Hx as [->|Hx]; [done|]).
        by apply elem_of_nil in Hx.
      * exists "". by apply dot_star_eol_spec.
    + intros [Hg [pre Hpre]]%IH. split; [done|]. exists (String c pre).
      rewrite !app_cons. destruct Hpre as [->| ->]; auto.
  - intros [Hg [pre Hpre]]%IH. split; [done|]. exists (String c pre).
    rewrite !app_cons. destruct Hpre as [->| ->]; auto.
Qed.

End PyStrFacts.

(** ** Output planner *)

(** C6, as the code has it. The architecture of a name is its tail from
    an occurrence of [gfx] on. A name whose architecture is a supported
    target expands to that one name plus extension; any other name
    expands to one variant for each supported target in which the
    architecture occurs, the variant being the name followed by what the
    target has beyond the length of the architecture. So [Kernel_gfx900]
    with targets [gfx900] and [gfx906] yields [Kernel_gfx900.hsaco] alone,
    and it is [Kernel_gfx9] that yields both. *)
Theorem addxnack_expansion (sourceArchs : list string) (name ext arch : string) :
  PyStr.re_search_gfx name = Some arch →
  (String.prefix "gfx" arch = true
   ∧ ∃ pre, name = pre +:+ arch ∨ name = pre +:+ arch +:+ String PyStr.newline "")
  ∧ Planner.addxnack sourceArchs name ext =
      Ok (if decide (arch ∈ sourceArchs) then [name +:+ ext]
          else (λ xnack, name +:+ PyStr.drop (String.length arch) xnack +:+ ext)
                 <$> filter (PyStr.occurs arch) sourceArchs)
  ∧ Planner.addxnack ["gfx900"; "gfx906"] "Kernel_gfx900" ".hsaco"
    = Ok ["Kernel_gfx900.hsaco"]
  ∧ Planner.addxnack ["gfx900"; "gfx906"] "Kernel_gfx9" ".hsaco"
    = Ok ["Kernel_gfx900.hsaco"; "Kernel_gfx906.hsaco"].
Proof.
  intros Harch. split; [by apply PyStrFacts.re_search_gfx_spec|].
  split; [|split; reflexivity].
  unfold Planner.addxnack. rewrite Harch.
  destruct (decide (arch ∈ sourceArchs)) as [Hin|Hin].
  - by rewrite bool_decide_eq_true_2.
  - rewrite bool_decide_eq_false_2 by done. do 2 f_equal.
    apply list_filter_iff. intros x. apply PyStrFacts.contains_spec.
Qed.

Lemma addxnack_expansion_witness :
  PyStr.re_search_gfx "Kernel_gfx90a" = Some "gfx90a"
  ∧ Planner.addxnack ["gfx90a-xnack+"; "gfx90a-xnack-"; "gfx1100"] "Kernel_gfx90a" ".hsaco"
    = Ok ["Kernel_gfx90a-xnack+.hsaco"; "Kernel_gfx90a-xnack-.hsaco"].
Proof.
  split; [reflexivity|].
  exact (proj1 (proj2 (addxnack_expansion ["gfx90a-xnack+"; "gfx90a-xnack-"; "gfx1100"]
                         "Kernel_gfx90a" ".hsaco" "gfx90a" eq_refl))).
Defined.

(** C6 as stated fails: with targets [gfx900] and [gfx906] the name
    [Kernel_gfx900] does not expand to the two files. *)
Lemma addxnack_gfx900_not_family :
  ¬ ∃ variants,
      Planner.addxnack ["gfx900"; "gfx906"] "Kernel_gfx900" ".hsaco" = Ok variants
      ∧ ∀ file, file ∈ variants
                ↔ file ∈ ["Kernel_gfx900.hsaco"; "Kernel_gfx906.hsaco"].
Proof.
  intros (variants & Hrun & Hset).
  assert (variants = ["Kernel_gfx900.hsaco"]) as -> by (vm_compute in Hrun; congruence).
  assert (Hin : "Kernel_gfx906.hsaco" ∈ ["Kernel_gfx900.hsaco"]).
  { apply Hset. repeat constructor. }
  apply list_elem_of_singleton in Hin. discriminate.
Qed.

(** ** First occurrences *)

Section FromKeys.

Context {A K : Type} `{EqDecision K}.
Variable f : A → K.
Variable eqb : A → A → bool.
Hypothesis eqb_key : ∀ a b, eqb a b = true ↔ f a = f b.

Lemma stored_key (seen : list A) (x : A) :
  existsb (λ k, eqb k x) seen = true ↔ f x ∈ f <$> seen.
Proof.
  rewrite existsb_exists, list_elem_of_fmap. split.
  - intros (k & Hk%list_elem_of_In & He%eqb_key). eauto.
  - intros (k & He & Hk%list_elem_of_In). exists k. split; [done|].
    by apply eqb_key.
Qed.

Lemma fromkeys_elem (seen l : list A) (x : A) :
  x ∈ dict_fromkeys_from eqb seen l → x ∈ l ∧ f x ∉ f <$> seen.
Proof.
  revert seen. induction l as [|y l IH]; intros seen; simpl.
  - by intros ?%elem_of_nil.
  - destruct (existsb _ seen) eqn:E.
    + intros [? ?]%IH. split; [by right|done].
    + intros [->|[Hx Hs]%IH]%elem_of_cons.
      * split; [by left|]. rewrite <- stored_key. congruence.
      * split; [by right|]. rewrite fmap_app in Hs. set_solver.
Qed.

Lemma fromkeys_NoDup (seen l : list A) :
  NoDup (f <$> dict_fromkeys_from eqb seen l).
Proof.
  revert seen. induction l as [|y l IH]; intros seen; simpl.
  - constructor.
  - destruct (existsb _ seen); [done|]. rewrite fmap_cons. constructor; [|done].
    intros (x & Hfx & [_ Hs]%fromkeys_elem)%list_elem_of_fmap.
    apply Hs. rewrite fmap_app, <- Hfx. set_solver.
Qed.

Lemma fromkeys_sublist (seen l : list A) :
  dict_fromkeys_from eqb seen l `sublist_of` l.
Proof.
  revert seen. induction l as [|y l IH]; intros seen; simpl; [done|].
  destruct (existsb _ seen); [by apply sublist_cons|by apply sublist_skip].
Qed.

(** An element whose key is new where it stands is kept. *)
Lemma fromkeys_first (seen l1 l2 : list A) (x : A) :
  f x ∉ f <$> (seen ++ l1) → x ∈ dict_fromkeys_from eqb seen (l1 ++ x :: l2).
Proof.
  revert seen. induction l1 as [|y l1 IH]; intros seen Hnew; simpl.
  - rewrite app_nil_r in Hnew.
    destruct (existsb _ seen) eqn:E; [by apply stored_key in E|left].
  - destruct (existsb _ seen) eqn:E.
    + apply IH. rewrite fmap_app in *. set_solver.
    + right. apply IH. rewrite !fmap_app in *. set_solver.
Qed.

(** Every key met is the key of a kept element. *)
Lemma fromkeys_cover (seen l : list A) (x : A) :
  x ∈ l → f x ∈ f <$> (seen ++ dict_fromkeys_from eqb seen l).
Proof.
  revert seen. induction l as [|y l IH]; intros seen; [by intros ?%elem_of_nil|].
  simpl. destruct (existsb _ seen) eqn:E.
  - intros [->|Hx]%elem_of_cons; [|by apply IH].
    apply stored_key in E. rewrite fmap_app. set_solver.
  - intros [->|Hx]%elem_of_cons.
    + rewrite fmap_app, fmap_cons. set_solver.
    + specialize (IH (seen ++ [y]) Hx). by rewrite <- app_assoc in IH.
Qed.

Lemma fromkeys_app (seen l1 l2 : list A) :
  dict_fromkeys_from eqb seen (l1 ++ l2)
  = dict_fromkeys_from eqb seen l1
      ++ dict_fromkeys_from eqb (seen ++ dict_fromkeys_from eqb seen l1) l2.
Proof.
  revert seen. induction l1 as [|y l1 IH]; intros seen; simpl.
  - by rewrite app_nil_r.
  - destruct (existsb _ seen); [done|]. rewrite IH. simpl.
    by rewrite <- app_assoc.
Qed.

(** Keeping first occurrences commutes with taking keys. *)
Lemma fromkeys_fmap (seen l : list A) :
  f <$> dict_fromkeys_from eqb seen l
  = dict_fromkeys_from (λ a b, bool_decide (a = b)) (f <$> seen) (f <$> l).
Proof.
  revert seen. induction l as [|y l IH]; intros seen; simpl; [done|].
  assert (existsb (λ k, eqb k y) seen
          = existsb (λ k, bool_decide (k = f y)) (f <$> seen)) as ->.
  { induction seen as [|z seen IHs]; simpl; [done|]. rewrite IHs. f_equal.
    apply eq_true_iff_eq. by rewrite eqb_key, bool_decide_eq_true. }
  destruct (existsb _ (f <$> seen)); [done|].
  by rewrite fmap_cons, IH, fmap_app.
Qed.

End FromKeys.

(** ** Kernel extraction *)

Section ExtractionFacts.

Context {Solution Kernel Helper Key : Type} `{Countable Key}.
Variable getKernels : Solution → list Kernel.
Variable getHelperKernelObjects : Solution → list Helper.
Variable getKeyNoInternalArgs : Kernel → Key.
Variable helper_eqb : Helper → Helper → bool.
Variable getKernelName : Helper → string.

Local Abbreviation sameK := (sameKey getKeyNoInternalArgs).

Lemma sameKey_key (a b : Kernel) :
  sameK a b = true ↔ getKeyNoInternalArgs a = getKeyNoInternalArgs b.
Proof. apply bool_decide_eq_true. Qed.

Local Abbreviation key := getKeyNoInternalArgs.

(** The inner loop appends the first occurrences of the new keys, and
    [kernelNames] stays the set of keys of [kernels]. *)
Lemma addKernels_fromkeys (l kernels : list Kernel) (names : gset Key) :
  (∀ k, k ∈ names ↔ k ∈ key <$> kernels) →
  (addKernels key (kernels, names) l).1
    = kernels ++ dict_fromkeys_from sameK kernels l
  ∧ ∀ k, k ∈ (addKernels key (kernels, names) l).2
         ↔ k ∈ key <$> (addKernels key (kernels, names) l).1.
Proof.
  revert kernels names. induction l as [|x l IH]; intros kernels names Hnames.
  - simpl. by rewrite app_nil_r.
  - unfold addKernels in *. cbn [foldl dict_fromkeys_from].
    destruct (decide (key x ∈ names)) as [Hin|Hin].
    + apply Hnames, (stored_key key sameK sameKey_key) in Hin as ->.
      by apply IH.
    + assert (existsb (λ k, sameK k x) kernels = false) as ->.
      { apply not_true_iff_false. rewrite (stored_key key sameK sameKey_key).
        by rewrite <- Hnames. }
      destruct (IH (kernels ++ [x]) (names ∪ {[key x]})) as [-> Hinv].
      { intros k. rewrite fmap_app, elem_of_union, elem_of_app, Hnames.
        rewrite elem_of_singleton. simpl. by rewrite list_elem_of_singleton. }
      split; [by rewrite <- app_assoc|done].
Qed.

Lemma extract_fold (solutions : list Solution) (st : ExtractState) :
  (∀ k, k ∈ st_kernelNames st ↔ k ∈ key <$> st_kernels st) →
  let st' := foldl (extractStep getKernels getHelperKernelObjects key getKernelName)
                   st solutions in
  st_kernels st'
    = st_kernels st
        ++ dict_fromkeys_from sameK (st_kernels st) (solutions ≫= getKernels)
  ∧ st_kernelHelperObjs st'
    = st_kernelHelperObjs st ++ (solutions ≫= getHelperKernelObjects).
Proof.
  revert st. induction solutions as [|s solutions IH]; intros st Hnames.
  - simpl. by rewrite !app_nil_r.
  - cbn [foldl]. unfold extractStep at 2 4.
    destruct (addKernels key (st_kernels st, st_kernelNames st) (getKernels s))
      as [kernels names] eqn:E.
    destruct (addKernels_fromkeys (getKernels s) _ _ Hnames) as [Hk Hn].
    rewrite E in Hk, Hn. simpl in Hk, Hn.
    match goal with
    | |- context [foldl _ ?st1 solutions] => destruct (IH st1 Hn) as [-> ->]
    end.
    cbn [st_kernels st_kernelHelperObjs]. rewrite !bind_cons.
    rewrite (fromkeys_app sameK), Hk, <- !app_assoc. done.
Qed.

Lemma extracted_kernels (solutions : list Solution) :
  (generateKernelObjectsFromSolutions getKernels getHelperKernelObjects key
     helper_eqb getKernelName solutions).1.1
  = dict_fromkeys sameK (solutions ≫= getKernels).
Proof.
  unfold generateKernelObjectsFromSolutions. cbn [fst].
  by destruct (extract_fold solutions
                 {| st_kernels := []; st_kernelHelperObjs := [];
                    st_kernelNames := ∅; st_kernelHelperNames := ∅ |})
    as [-> _]; [set_solver|].
Qed.

Lemma extracted_helpers (solutions : list Solution) :
  (generateKernelObjectsFromSolutions getKernels getHelperKernelObjects key
     helper_eqb getKernelName solutions).1.2
  = dict_fromkeys helper_eqb (solutions ≫= getHelperKernelObjects).
Proof.
  unfold generateKernelObjectsFromSolutions. cbn [fst snd].
  by destruct (extract_fold solutions
                 {| st_kernels := []; st_kernelHelperObjs := [];
                    st_kernelNames := ∅; st_kernelHelperNames := ∅ |})
    as [_ ->]; [set_solver|].
Qed.

(** C8. Walking the kernels of every solution in order, the kernel list
    takes a kernel the first time its key is met and only then: its keys
    are pairwise different, it keeps the order of the walk, a kernel
    whose key did not occur before it is in the list, and every key met
    is the key of a listed kernel. *)
Theorem kernel_extraction_first_seen (solutions : list Solution) :
  NoDup (key <$> (generateKernelObjectsFromSolutions getKernels getHelperKernelObjects
                     key helper_eqb getKernelName solutions).1.1)
  ∧ (generateKernelObjectsFromSolutions getKernels getHelperKernelObjects
       key helper_eqb getKernelName solutions).1.1
      `sublist_of` (solutions ≫= getKernels)
  ∧ (∀ l1 kernel l2,
       solutions ≫= getKernels = l1 ++ kernel :: l2 →
       key kernel ∉ key <$> l1 →
       kernel ∈ (generateKernelObjectsFromSolutions getKernels getHelperKernelObjects
                   key helper_eqb getKernelName solutions).1.1)
  ∧ (∀ kernel,
       kernel ∈ solutions ≫= getKernels →
       ∃ kept,
         kept ∈ (generateKernelObjectsFromSolutions getKernels getHelperKernelObjects
                   key helper_eqb getKernelName solutions).1.1
         ∧ key kept = key kernel).
Proof.
  rewrite extracted_kernels. unfold dict_fromkeys. repeat split.
  - apply (fromkeys_NoDup key sameK sameKey_key).
  - apply fromkeys_sublist.
  - intros l1 kernel l2 -> Hnew.
    by apply (fromkeys_first key sameK sameKey_key).
  - intros kernel Hin.
    apply (fromkeys_cover key sameK sameKey_key []) in Hin.
    apply list_elem_of_fmap in Hin as (kept & Hkey & Hkept). eauto.
Qed.

End ExtractionFacts.

Section HelperExtraction.

Context {Solution Kernel Helper Key : Type} `{Countable Key}.
Variable getKernels : Solution → list Kernel.
Variable getHelperKernelObjects : Solution → list Helper.
Variable getKeyNoInternalArgs : Kernel → Key.
Variable helper_eqb : Helper → Helper → bool.
Variable getKernelName : Helper → string.

(** C7. The helper objects are deduplicated with [dict.fromkeys], that
    is by their own equality, which the data model takes to be equality
    of the generated name ([helperEq]). Under it the names of the
    extracted helpers are the first occurrences of the names met, in
    order; they are pairwise different, the helpers keep the order of the
    walk, and helpers met with names [A, B, A, C] come out as [A, B, C]. *)
Theorem helper_extraction_first_seen (solutions : list Solution) :
  (∀ a b, helper_eqb a b = true ↔ getKernelName a = getKernelName b) →
  getKernelName <$> (generateKernelObjectsFromSolutions getKernels
                       getHelperKernelObjects getKeyNoInternalArgs helper_eqb
                       getKernelName solutions).1.2
    = dict_fromkeys (λ a b, bool_decide (a = b))
        (getKernelName <$> (solutions ≫= getHelperKernelObjects))
  ∧ NoDup (getKernelName <$> (generateKernelObjectsFromSolutions getKernels
                                getHelperKernelObjects getKeyNoInternalArgs helper_eqb
                                getKernelName solutions).1.2)
  ∧ (generateKernelObjectsFromSolutions getKernels getHelperKernelObjects
       getKeyNoInternalArgs helper_eqb getKernelName solutions).1.2
      `sublist_of` (solutions ≫= getHelperKernelObjects)
  ∧ (∀ A B C : string,
       A ≠ B → A ≠ C → B ≠ C →
       getKernelName <$> (solutions ≫= getHelperKernelObjects) = [A; B; A; C] →
       getKernelName <$> (generateKernelObjectsFromSolutions getKernels
                            getHelperKernelObjects getKeyNoInternalArgs helper_eqb
                            getKernelName solutions).1.2
         = [A; B; C]).
Proof.
  intros Hname. rewrite extracted_helpers. unfold dict_fromkeys.
  assert (Hnames :
    getKernelName <$> dict_fromkeys_from helper_eqb []
                        (solutions ≫= getHelperKernelObjects)
    = dict_fromkeys_from (λ a b, bool_decide (a = b)) []
        (getKernelName <$> (solutions ≫= getHelperKernelObjects))).
  { apply (fromkeys_fmap getKernelName helper_eqb Hname []). }
  repeat split.
  - exact Hnames.
  - apply (fromkeys_NoDup getKernelName helper_eqb Hname).
  - apply fromkeys_sublist.
  - intros A B C HAB HAC HBC Hwalk. rewrite Hnames, Hwalk. simpl.
    rewrite !(bool_decide_eq_false_2 (A = B)) by done.
    rewrite !(bool_decide_eq_true_2 (A = A)) by done.
    rewrite !(bool_decide_eq_false_2 (A = C)) by done.
    rewrite !(bool_decide_eq_false_2 (B = C)) by done.
    rewrite ?(bool_decide_eq_false_2 (B = A)) by done.
    done.
Qed.

End HelperExtraction.

Lemma helper_extraction_first_seen_witness :
  (∀ a b : string * nat, helperEq fst a b = true ↔ a.1 = b.1)
  ∧ fst <$> (generateKernelObjectsFromSolutions (Key := nat)
               (λ _ : list (string * nat), [])
               (λ s, s) (λ k : nat, k) (helperEq fst) fst
               [[("A", 1%nat); ("B", 1%nat)]; [("A", 2%nat); ("C", 2%nat)]]).1.2
    = ["A"; "B"; "C"].
Proof.
  split; [intros a b; apply bool_decide_eq_true|].
  exact (proj1 (helper_extraction_first_seen (Key := nat)
                  (λ _ : list (string * nat), [])
                  (λ s, s) (λ k : nat, k) (helperEq fst) fst
                  [[("A", 1%nat); ("B", 1%nat)]; [("A", 2%nat); ("C", 2%nat)]]
                  (λ a b, bool_decide_eq_true (a.1 = b.1)))).
Defined.

(** ** Generating one kernel *)

(** C10. Once [setTensileInstructions] has returned, a [RuntimeError]
    raised by [getKernelFileBase] reaches the handler before [kernelName]
    is bound, and the call raises [UnboundLocalError] instead of returning
    a tuple; a [RuntimeError] raised after the name is computed gives the
    tuple with error code 1, empty texts, the name and no file. *)
Theorem processKernelSource_RuntimeError {Kernel Key : Type}
    (ops : KernelOps Kernel Key) (writer : KernelWriter Kernel) (kernel : Kernel) :
  setTensileInstructions writer = Ok tt →
  (getKernelFileBase writer kernel = Raise RuntimeError →
   processKernelSource ops writer kernel = Raise (UnboundLocalError "kernelName"))
  ∧ (∀ name,
       getKernelFileBase writer kernel = Ok name →
       getSourceFileString writer kernel = Raise RuntimeError
       ∨ ((∃ es, getSourceFileString writer kernel = Ok es)
          ∧ getHeaderFileString writer kernel = Raise RuntimeError) →
       processKernelSource ops writer kernel
       = Ok {| err := 1; src := ""; header := ""; kernelName := name;
               filename := None |}).
Proof.
  intros Hset. unfold processKernelSource. rewrite Hset. split.
  - by intros ->.
  - intros name -> [-> | [[[e s] ->] ->]]; done.
Qed.

Lemma processKernelSource_RuntimeError_witness :
  setTensileInstructions failingWriter = Ok tt
  ∧ getKernelFileBase failingWriter 0%nat = Raise RuntimeError
  ∧ processKernelSource plainOps failingWriter 0%nat
    = Raise (UnboundLocalError "kernelName").
Proof.
  split; [reflexivity|]. split; [reflexivity|].
  exact (proj1 (processKernelSource_RuntimeError plainOps failingWriter 0%nat eq_refl)
               eq_refl).
Defined.

(** ** Writing kernel source and header files *)

Module StripFacts.
Import PyStr.

Lemma all_space_rev_app (s acc : string) :
  all_space (String.rev_app s acc) = all_space s && all_space acc.
Proof.
  revert acc. induction s as [|c s IH]; intros acc; simpl; [done|].
  rewrite IH. simpl. destruct (isspace c), (all_space s); simpl; by rewrite ?andb_false_r.
Qed.

Lemma all_space_rev (s : string) : all_space (String.rev s) = all_space s.
Proof. unfold String.rev. rewrite all_space_rev_app. simpl. by rewrite andb_true_r. Qed.

Lemma rev_app_empty (s acc : string) :
  String.rev_app s acc = "" → s = "" ∧ acc = "".
Proof.
  revert acc. induction s as [|c s IH]; intros acc; simpl; [done|].
  intros [_ ?]%IH. discriminate.
Qed.

Lemma lstrip_empty (s : string) : lstrip s = "" ↔ all_space s = true.
Proof.
  induction s as [|c s IH]; simpl; [done|].
  destruct (isspace c); simpl; [done|]. split; discriminate.
Qed.

Lemma lstrip_all_space (s : string) :
  all_space (lstrip s) = true → all_space s = true.
Proof.
  induction s as [|c s IH]; simpl; [done|].
  destruct (isspace c) eqn:E; simpl; [done|]. by rewrite E.
Qed.

(** [len(s.strip()) == 0] holds for the empty and the whitespace-only
    texts and for no other. *)
Lemma strip_empty (s : string) :
  String.length (strip s) = 0%nat ↔ all_space s = true.
Proof.
  unfold strip, rstrip. split.
  - intros Hlen.
    assert (String.rev (lstrip (String.rev (lstrip s))) = "") as Hrev
      by (by destruct (String.rev _)).
    apply rev_app_empty in Hrev as [Hl _].
    apply lstrip_empty in Hl. rewrite all_space_rev in Hl.
    by apply lstrip_all_space.
  - intros Hs. apply lstrip_empty in Hs. by rewrite Hs.
Qed.

End StripFacts.

Lemma foldO_app {A S} (body : S → A → Outcome S) (l1 l2 : list A) (s : S) :
  foldO body (l1 ++ l2) s = obind (foldO body l1 s) (foldO body l2).
Proof.
  revert s. induction l1 as [|x l1 IH]; intros s; simpl; [done|].
  destruct (body s x); simpl; [apply IH|done].
Qed.

Section BuildKernelFilesFacts.

Variable gp : GlobalParameters.
Variable os : Platform.
Variable outputPath : string.

Lemma groupStep_sameFiles (a b : FilesState) (r : BuildResult) :
  sameFiles a b →
  sameGrouping (groupStep gp os outputPath a r) (groupStep gp os outputPath b r).
Proof.
  intros (Hk & Hf & Hc). unfold groupStep. rewrite Hk, Hf, Hc.
  destruct (decide (String.length _ = 0%nat)); [done|].
  destruct (filename r) as [[|c f]|]; simpl;
    repeat (match goal with
            | |- context [if ?b then _ else _] => destruct b; simpl
            end); done.
Qed.

Lemma foldO_sameFiles (l : list BuildResult) (a b : FilesState) :
  sameFiles a b →
  sameGrouping (foldO (groupStep gp os outputPath) l a)
               (foldO (groupStep gp os outputPath) l b).
Proof.
  revert a b. induction l as [|r l IH]; intros a b Hab; simpl; [done|].
  pose proof (groupStep_sameFiles a b r Hab) as Hstep.
  destruct (groupStep gp os outputPath a r), (groupStep gp os outputPath b r);
    simpl in *; try done. by apply IH.
Qed.

Lemma sameGrouping_refl (a : Outcome FilesState) : sameGrouping a a.
Proof. by destruct a. Qed.

(** A result with a blank source leaves the loop state as it is, but for
    the error it may carry. *)
Lemma groupStep_blank (st : FilesState) (r : BuildResult) :
  PyStr.all_space (src r) = true →
  groupStep gp os outputPath st r
  = Ok {| kernelsToWrite := kernelsToWrite st;
          filesToWrite := filesToWrite st;
          validKernelCount := validKernelCount st;
          kernelsWithBuildErrs :=
            if decide (err r ≠ 0)
            then <[kernelName r := err r]> (kernelsWithBuildErrs st)
            else kernelsWithBuildErrs st |}.
Proof.
  intros Hblank%StripFacts.strip_empty. unfold groupStep.
  by destruct (decide (String.length _ = 0%nat)).
Qed.

Lemma foldO_blank (l1 l2 : list BuildResult) (r : BuildResult) (st : FilesState) :
  PyStr.all_space (src r) = true →
  sameGrouping (foldO (groupStep gp os outputPath) (l1 ++ r :: l2) st)
               (foldO (groupStep gp os outputPath) (l1 ++ l2) st)
  ∧ (err r = 0 →
     foldO (groupStep gp os outputPath) (l1 ++ r :: l2) st
     = foldO (groupStep gp os outputPath) (l1 ++ l2) st).
Proof.
  intros Hblank. rewrite !foldO_app.
  destruct (foldO (groupStep gp os outputPath) l1 st) as [st1|e]; simpl; [|done].
  rewrite (groupStep_blank st1 r Hblank). simpl. split.
  - by apply foldO_sameFiles.
  - intros ->. destruct st1. simpl. by destruct (decide (0 ≠ 0)).
Qed.

(** C9. A result whose source is empty or whitespace-only passes through
    the loop without a file entry and without advancing
    [validKernelCount]: the state changes only by the error recorded when
    [err] is not zero. So the files opened and the file names returned are
    those of the results without it, and when its [err] is zero the whole
    call, recorded errors included, is the call without it. *)
Theorem blank_source_writes_no_file (l1 l2 : list BuildResult) (r : BuildResult)
    (errs : gmap string Z) (log : list event) :
  PyStr.all_space (src r) = true →
  (∀ st, ∃ st',
     groupStep gp os outputPath st r = Ok st'
     ∧ sameFiles st' st
     ∧ kernelsWithBuildErrs st'
       = if decide (err r = 0) then kernelsWithBuildErrs st
         else <[kernelName r := err r]> (kernelsWithBuildErrs st))
  ∧ (buildKernelSourceAndHeaderFiles gp os (l1 ++ r :: l2) outputPath errs log).2
    = (buildKernelSourceAndHeaderFiles gp os (l1 ++ l2) outputPath errs log).2
  ∧ (∀ files errs1,
       (buildKernelSourceAndHeaderFiles gp os (l1 ++ r :: l2) outputPath errs log).1
       = Ok (files, errs1) →
       ∃ errs2,
         (buildKernelSourceAndHeaderFiles gp os (l1 ++ l2) outputPath errs log).1
         = Ok (files, errs2))
  ∧ (err r = 0 →
     buildKernelSourceAndHeaderFiles gp os (l1 ++ r :: l2) outputPath errs log
     = buildKernelSourceAndHeaderFiles gp os (l1 ++ l2) outputPath errs log).
Proof.
  intros Hblank. split; [|].
  { intros st. eexists. split; [by apply groupStep_blank|]. split; [done|].
    simpl. by destruct (decide (err r = 0)), (decide (err r ≠ 0)). }
  unfold buildKernelSourceAndHeaderFiles, bind, lift, ret.
  match goal with
  | |- context [foldO _ (l1 ++ r :: l2) ?st0] =>
      destruct (foldO_blank l1 l2 r st0 Hblank) as [Hsame Hzero];
      destruct (foldO (groupStep gp os outputPath) (l1 ++ r :: l2) st0) as [a|e];
      destruct (foldO (groupStep gp os outputPath) (l1 ++ l2) st0) as [b|e'];
      simpl in Hsame; try done
  end.
  - destruct Hsame as (Hk & Hf & Hc).
    assert (ensureHelperFile gp os outputPath a = ensureHelperFile gp os outputPath b)
      as -> by (unfold ensureHelperFile; by rewrite Hk, Hf).
    destruct (forM _ (Dict.keys (ensureHelperFile gp os outputPath b)) () log)
      as [[[]|?] log']; simpl.
    + split; [done|]. split; [|intros Hz; by injection (Hzero Hz) as ->].
      intros files errs1 [= <- <-]. eauto.
    + split; [done|]. split; [done|]. intros Hz. by injection (Hzero Hz) as ->.
  - subst e'. simpl. split; [done|]. split; [done|]. done.
Qed.

End BuildKernelFilesFacts.

(** ** Removing from lists *)

Section ListRemove.

Context {A : Type} `{EqDecision A}.

Lemma list_remove_all_cons (x : A) (xs l : list A) :
  list_remove_all (x :: xs) l = list_remove_all xs (list_remove x l).
Proof. reflexivity. Qed.

(** Removals of other values pass over the head of the list. *)
Lemma list_remove_all_head (xs l : list A) (y : A) :
  y ∉ xs → list_remove_all xs (y :: l) = y :: list_remove_all xs l.
Proof.
  revert l. induction xs as [|x xs IH]; intros l Hy; [done|].
  rewrite !list_remove_all_cons. simpl.
  destruct (decide (x = y)) as [->|Hne]; [set_solver|].
  apply IH. set_solver.
Qed.

(** Removing, one by one, every occurrence of the values that satisfy
    [P] leaves the elements that do not. *)
Lemma list_remove_all_filter (P : A → Prop) `{∀ x, Decision (P x)} (l : list A) :
  list_remove_all (filter P l) l = filter (λ x, ¬ P x) l.
Proof.
  induction l as [|y l IH]; [done|].
  rewrite !filter_cons. destruct (decide (P y)) as [Hy|Hy].
  - rewrite decide_False by tauto. rewrite list_remove_all_cons. simpl.
    by rewrite decide_True.
  - rewrite decide_True by done. rewrite list_remove_all_head, IH; [done|].
    intros [Hp _]%list_elem_of_filter. done.
Qed.

(** The same for marks carried beside the values, when no value occurs
    twice. *)
Lemma list_remove_all_marked {B} (P : A * B → Prop) `{∀ x, Decision (P x)}
    (l : list (A * B)) :
  NoDup (fst <$> l) →
  list_remove_all (fst <$> filter P l) (fst <$> l) = fst <$> filter (λ x, ¬ P x) l.
Proof.
  induction l as [|y l IH]; [done|]. rewrite fmap_cons. intros [Hy Hnd]%NoDup_cons.
  rewrite !filter_cons. destruct (decide (P y)) as [Hp|Hp].
  - rewrite decide_False by tauto. rewrite fmap_cons, list_remove_all_cons. simpl.
    rewrite decide_True by done. by apply IH.
  - rewrite decide_True by done. rewrite fmap_cons, list_remove_all_head, IH; [done..|].
    intros (z & Hz & [_ Hin]%list_elem_of_filter)%list_elem_of_fmap.
    apply Hy. rewrite Hz. apply list_elem_of_fmap. eauto.
Qed.

End ListRemove.

(** ** The build pipeline coordinator *)

Lemma bind_Ok {A B} (m : M A) (f : A → M B) (log log' : list event) (b : B) :
  bind m f log = (Ok b, log') →
  ∃ a log1, m log = (Ok a, log1) ∧ f a log1 = (Ok b, log').
Proof.
  unfold bind. destruct (m log) as [[a|e] log1]; [eauto|done].
Qed.

Lemma forM_emit (events log : list event) :
  forM (λ _ e, emit e) events tt log = (Ok tt, log ++ events).
Proof.
  revert log. induction events as [|e events IH]; intros log; simpl.
  - by rewrite app_nil_r.
  - unfold bind, emit. rewrite IH. by rewrite <- app_assoc.
Qed.

Lemma bind_emit {B} (e : event) (k : unit → M B) (log : list event) :
  bind (emit e) k log = k tt (log ++ [e]).
Proof. reflexivity. Qed.

Lemma bind_ret {A B} (a : A) (k : A → M B) (log : list event) :
  bind (ret a) k log = k a log.
Proof. reflexivity. Qed.

Lemma bind_if_emit {B} (b : bool) (e : event) (k : unit → M B) (log : list event) :
  bind (if b then emit e else ret tt) k log = k tt (log ++ if b then [e] else []).
Proof. destruct b; [done|]. by rewrite bind_ret, app_nil_r. Qed.

Lemma bind_lift {A B} (a : A) (k : A → M B) (log : list event) :
  bind (lift (Ok a)) k log = k a log.
Proof. reflexivity. Qed.

Lemma bind_assoc {A B C} (m : M A) (f : A → M B) (g : B → M C) (log : list event) :
  bind (bind m f) g log = bind m (λ a, bind (f a) g) log.
Proof. unfold bind. by destruct (m log) as [[a|e] log1]. Qed.

Section PipelineFacts.

Context {Solution Kernel Helper Key : Type}.
Context `{EqDecision Solution, EqDecision Kernel, EqDecision Key}.
Variable gp : GlobalParameters.
Variable os : Platform.
Variable ops : KernelOps Kernel Key.
Variable getKernels : Solution → list Kernel.
Variable kernelWriterAssembly : KernelWriter Kernel.
Variable helperOps : HelperOps Helper.
Variable toolchain : Toolchain Kernel.

Local Abbreviation key := (getKeyNoInternalArgs ops).

Lemma scan_spec (errorTolerant : bool) (l : list (Kernel * BuildResult))
    (rm : Removal Kernel Key) (log : list event) :
  ∃ names,
    forM (scanStep ops errorTolerant) l rm log
    = (Ok {| removeKernels := removeKernels rm ++ (fst <$> filter fatal l);
             removeKernelNames := names;
             removeResults := removeResults rm ++ (snd <$> filter fatal l) |},
       log ++ failureReports ops errorTolerant l)
    ∧ ∀ k, k ∈ names
           ↔ k ∈ removeKernelNames rm ∨ k ∈ (λ kr, key kr.1) <$> filter fatal l.
Proof.
  revert rm log. induction l as [|kr l IH]; intros rm log.
  - exists (removeKernelNames rm). simpl. unfold ret, failureReports.
    rewrite !app_nil_r. destruct rm, errorTolerant; simpl; rewrite ?app_nil_r;
      (split; [done|]); intros k; rewrite elem_of_nil; tauto.
  - cbn [forM]. unfold scanStep at 1. unfold failureReports.
    rewrite !filter_cons. destruct (decide (fatal kr)) as [Hf|Hf].
    + unfold fatal in Hf. rewrite decide_True by done.
      unfold bind at 1 2.
      assert ((if errorTolerant then ret ()
               else forM (λ _ e, emit e) (failureReport ops kr.1) ()) log
              = (Ok tt, log ++ (if errorTolerant then [] else failureReport ops kr.1)))
        as ->.
      { destruct errorTolerant; [unfold ret; by rewrite app_nil_r|apply forM_emit]. }
      unfold ret at 1.
      match goal with
      | |- context [forM _ l ?rm1 ?log1] =>
          destruct (IH rm1 log1) as (names & -> & Hnames)
      end.
      exists names. cbn [removeKernels removeResults removeKernelNames] in *.
      split.
      * rewrite !fmap_cons, <- !app_assoc. simpl. do 2 f_equal.
        unfold failureReports. destruct errorTolerant; [done|].
        by rewrite ?bind_cons.
      * intros k. rewrite Hnames, fmap_cons, elem_of_cons.
        destruct (decide (key kr.1 ∈ removeKernelNames rm)) as [Hin|Hin].
        -- split; [tauto|]. intros [?|[->|?]]; tauto.
        -- rewrite elem_of_app, list_elem_of_singleton. tauto.
    + unfold fatal in Hf. rewrite decide_False by done. unfold bind, ret.
      destruct (IH rm log) as (names & -> & Hnames). by exists names.
Qed.

(** The scan queues the kernels and results of the fatal pairs, and the
    keys of those kernels; it prints the two report lines of each failing
    kernel unless the mode is error tolerant. *)
Lemma scanResults_spec (errorTolerant : bool) (kernels : list Kernel)
    (results : list BuildResult) (log : list event) :
  ∃ rm,
    scanResults ops errorTolerant kernels results log
    = (Ok rm, log ++ failureReports ops errorTolerant (zip kernels results))
    ∧ removeKernels rm = fst <$> failing kernels results
    ∧ removeResults rm = snd <$> failing kernels results
    ∧ ∀ k, k ∈ removeKernelNames rm ↔ k ∈ (λ kr, key kr.1) <$> failing kernels results.
Proof.
  unfold scanResults.
  destruct (scan_spec errorTolerant (zip kernels results)
              {| removeKernels := []; removeKernelNames := []; removeResults := [] |}
              log) as (names & -> & Hnames).
  eexists. split; [done|]. simpl. repeat split; try done.
  - intros Hk. apply Hnames in Hk as [Hk|Hk]; [by apply elem_of_nil in Hk|done].
  - intros Hk. apply Hnames. by right.
Qed.

Lemma failing_lookup (kernels : list Kernel) (results : list BuildResult)
    (i : nat) (kernel : Kernel) (res : BuildResult) :
  kernels !! i = Some kernel → results !! i = Some res → err res = -2 →
  (kernel, res) ∈ failing kernels results.
Proof.
  intros Hk Hr Herr. apply list_elem_of_filter. split; [done|].
  apply list_elem_of_lookup. exists i. by apply lookup_zip_Some.
Qed.

Lemma failing_results (kernels : list Kernel) (results : list BuildResult) :
  length kernels = length results →
  snd <$> failing kernels results = filter (λ r, err r = -2) results.
Proof.
  unfold failing. revert results.
  induction kernels as [|x l IH]; intros [|y k] Hlen; simplify_eq/=; [done|].
  rewrite !filter_cons. unfold fatal at 1. simpl.
  destruct (decide (err y = -2)); simpl; by rewrite IH.
Qed.

Lemma invalidSolution_spec (rm : Removal Kernel Key) (s : Solution) :
  invalidSolution ops getKernels rm s = true
  ↔ ∃ k, k ∈ getKernels s ∧ key k ∈ removeKernelNames rm.
Proof.
  unfold invalidSolution. rewrite existsb_exists.
  split; intros (k & Hk & Hin); exists k.
  - apply bool_decide_eq_true in Hin. by rewrite list_elem_of_In.
  - rewrite <- list_elem_of_In. split; [done|]. by apply bool_decide_eq_true.
Qed.

(** The surviving solutions are those none of whose kernels has a
    queued key. *)
Lemma cascade_solutions (rm : Removal Kernel Key) (kernels : list Kernel)
    (solutions : list Solution) (results : list BuildResult) :
  (cascade ops getKernels rm kernels solutions results).1.2
  = filter (λ s, ¬ invalidSolution ops getKernels rm s = true) solutions.
Proof. unfold cascade. cbn [fst snd]. apply list_remove_all_filter. Qed.

(** What the scan and the three removals do, in either mode. *)
Lemma cascade_spec (errorTolerant : bool) (kernels : list Kernel)
    (solutions : list Solution) (results : list BuildResult) (log : list event) :
  length kernels = length results →
  ∃ rm,
    scanResults ops errorTolerant kernels results log
    = (Ok rm, log ++ failureReports ops errorTolerant (zip kernels results))
    ∧ removeKernels rm = fst <$> failing kernels results
    ∧ (∀ s,
         s ∈ (cascade ops getKernels rm kernels solutions results).1.2
         ↔ s ∈ solutions
           ∧ ∀ k kr, k ∈ getKernels s → kr ∈ failing kernels results →
                     key k ≠ key kr.1)
    ∧ (cascade ops getKernels rm kernels solutions results).2
      = filter (λ r, err r ≠ -2) results
    ∧ (NoDup kernels →
       (cascade ops getKernels rm kernels solutions results).1.1
       = fst <$> filter (λ kr, ¬ fatal kr) (zip kernels results)).
Proof.
  intros Hlen.
  destruct (scanResults_spec errorTolerant kernels results log)
    as (rm & Hscan & Hrk & Hrr & Hnames).
  exists rm. split; [done|]. split; [done|]. split; [|split].
  - intros s. rewrite cascade_solutions, list_elem_of_filter, invalidSolution_spec.
    split.
    + intros [Hvalid Hs]. split; [done|]. intros k kr Hk Hkr Heq. apply Hvalid.
      exists k. split; [done|]. apply Hnames, list_elem_of_fmap. eauto.
    + intros [Hs Hkeys]. split; [|done]. intros (k & Hk & Hin).
      apply Hnames, list_elem_of_fmap in Hin as (kr & Heq & Hkr). by eapply Hkeys.
  - unfold cascade. cbn [snd]. rewrite Hrr, failing_results by done.
    apply list_remove_all_filter.
  - intros Hnd. unfold cascade. cbn [fst]. rewrite Hrk. unfold failing.
    rewrite <- (fst_zip kernels results) at 2 by lia.
    apply list_remove_all_marked. rewrite fst_zip by lia. done.
Qed.


Lemma mapO_length {X Y} (f : X → Outcome Y) (l : list X) (ys : list Y) :
  mapO f l = Ok ys → length l = length ys.
Proof.
  revert ys. induction l as [|x l IH]; intros ys; simpl; [by intros [= <-]|].
  destruct (f x) as [y|]; simpl; [|done].
  destruct (mapO f l) as [ys'|]; simpl; [|done].
  intros [= <-]. simpl. f_equal. by apply IH.
Qed.

Lemma groupStep_errs (outputPath : string) (st st' : FilesState) (r : BuildResult) :
  groupStep gp os outputPath st r = Ok st' →
  kernelsWithBuildErrs st'
  = if decide (err r ≠ 0)
    then <[kernelName r := err r]> (kernelsWithBuildErrs st)
    else kernelsWithBuildErrs st.
Proof.
  unfold groupStep. destruct (decide (String.length _ = 0%nat)); [by intros [= <-]|].
  match goal with |- obind ?m _ = _ → _ => destruct m; simpl; [|done] end.
  by intros [= <-].
Qed.

(** A loop that ends without a recorded error met no error. *)
Lemma foldO_no_errs (outputPath : string) (l : list BuildResult) (st st' : FilesState) :
  foldO (groupStep gp os outputPath) l st = Ok st' →
  kernelsWithBuildErrs st' = ∅ →
  kernelsWithBuildErrs st = ∅ ∧ ∀ r, r ∈ l → err r = 0.
Proof.
  revert st. induction l as [|r l IH]; intros st; simpl.
  - intros [= <-] Hempty. split; [done|]. by intros r ?%elem_of_nil.
  - destruct (groupStep gp os outputPath st r) as [st1|] eqn:Hstep; simpl; [|done].
    intros Hfold Hempty. destruct (IH st1 Hfold Hempty) as [Hst1 Hl].
    rewrite (groupStep_errs _ _ _ _ Hstep) in Hst1.
    destruct (decide (err r ≠ 0)) as [Hne|Heq].
    + by apply insert_non_empty in Hst1.
    + split; [done|]. intros r' [->|Hin]%elem_of_cons; [|by apply Hl].
      destruct (decide (err r = 0)) as [|Hn]; [done|by destruct (Heq Hn)].
Qed.

Lemma buildKernelSourceAndHeaderFiles_no_errs (results : list BuildResult)
    (outputPath : string) (log log' : list event) (built : list string * gmap string Z) :
  buildKernelSourceAndHeaderFiles gp os results outputPath ∅ log = (Ok built, log') →
  built.2 = ∅ → ∀ r, r ∈ results → err r = 0.
Proof.
  unfold buildKernelSourceAndHeaderFiles.
  intros (st & log1 & Hfold & Hrest)%bind_Ok Hempty.
  apply bind_Ok in Hrest as (? & log2 & _ & Hret).
  unfold ret in Hret. injection Hret as <- _. simpl in Hempty.
  unfold lift in Hfold. injection Hfold as Hfold _.
  by destruct (foldO_no_errs _ _ _ _ Hfold Hempty).
Qed.

(** With a fatal result and no error tolerance, the call exits after the
    reports of the failing kernels; before them it has only set up the
    working directory and the assembler script. *)
Lemma writeSolutionsAndKernels_abort (outputPath CxxCompiler : string)
    (solutions : list Solution) (kernels : list Kernel) (kernelHelperObjs : list Helper)
    (marks : list (Kernel * option bool)) (results : list BuildResult)
    (compress : bool) (log : list event) :
  markDuplicates ops kernelWriterAssembly kernels = Ok marks →
  mapO (processKernelSource ops kernelWriterAssembly) kernels = Ok results →
  (∃ r, r ∈ results ∧ err r = -2) →
  writeSolutionsAndKernels gp os ops getKernels kernelWriterAssembly helperOps
    toolchain outputPath CxxCompiler solutions kernels kernelHelperObjs false compress log
  = (Raise (SystemExit "** kernel generation failure **"),
     log ++ setupEvents gp os outputPath
         ++ (failing kernels results ≫= (λ kr, failureReport ops kr.1))).
Proof.
  intros Hmarks Hresults (r & Hr & Herr).
  pose proof (mapO_length _ _ _ Hresults) as Hlen.
  unfold writeSolutionsAndKernels, prepAsm, setupEvents.
  rewrite !bind_emit, bind_if_emit, !bind_assoc, !bind_emit, Hmarks, Hresults,
    !bind_lift.
  match goal with
  | |- bind _ _ ?log0 = _ =>
      destruct (cascade_spec false kernels solutions results log0 Hlen)
        as (rm & Hscan & Hrk & _)
  end.
  unfold bind at 1. rewrite Hscan.
  assert (0 < length (removeKernels rm))%nat as Hpos.
  { rewrite Hrk, length_fmap.
    apply list_elem_of_lookup in Hr as [i Hi].
    destruct (lookup_lt_is_Some_2 kernels i) as [kernel Hk].
    { rewrite Hlen. by eapply lookup_lt_Some. }
    pose proof (failing_lookup _ _ _ _ _ Hk Hi Herr) as Hin.
    destruct (failing kernels results); [by apply elem_of_nil in Hin|simpl; lia]. }
  rewrite bool_decide_eq_true_2 by done. simpl. unfold bind, printExit, raise.
  f_equal. unfold failureReports, failing. simpl. by rewrite <- !app_assoc.
Qed.

(** C2, as the code has it. When [writeSolutionsAndKernels] returns, every
    kernel was generated, and for every solution still in [solutions] and
    every kernel it owns, the result of the generated kernel with that key
    does not carry the fatal code -2; without error tolerance that result
    carries no error at all. The solutions dropped are those that own a
    kernel with the key of a kernel whose result was fatal, and no other:
    a result with another error code leaves its solutions in place. *)
Theorem retained_solutions_results (outputPath CxxCompiler : string)
    (solutions : list Solution) (kernels : list Kernel) (kernelHelperObjs : list Helper)
    (errorTolerant compress : bool) (log log' : list event)
    (codeObjectFiles : list string) (solutions' : list Solution)
    (kernels' : list Kernel) :
  writeSolutionsAndKernels gp os ops getKernels kernelWriterAssembly helperOps
    toolchain outputPath CxxCompiler solutions kernels kernelHelperObjs
    errorTolerant compress log
  = (Ok (codeObjectFiles, solutions', kernels'), log') →
  ∃ results,
    mapO (processKernelSource ops kernelWriterAssembly) kernels = Ok results
    ∧ (∀ s k i kernel res,
         s ∈ solutions' → k ∈ getKernels s →
         kernels !! i = Some kernel → results !! i = Some res →
         key kernel = key k →
         err res ≠ -2 ∧ (errorTolerant = false → err res = 0))
    ∧ (∀ s,
         s ∈ solutions'
         ↔ s ∈ solutions
           ∧ ∀ k kr, k ∈ getKernels s → kr ∈ failing kernels results →
                     key k ≠ key kr.1).
Proof.
  intros Hrun. unfold writeSolutionsAndKernels, prepAsm in Hrun.
  rewrite !bind_emit, bind_if_emit, !bind_assoc, !bind_emit in Hrun.
  apply bind_Ok in Hrun as (marks & log1 & _ & Hrun).
  apply bind_Ok in Hrun as (results & log2 & Hresults & Hrun).
  unfold lift in Hresults. injection Hresults as Hresults _.
  pose proof (mapO_length _ _ _ Hresults) as Hlen.
  apply bind_Ok in Hrun as (rm & log3 & Hscan & Hrun).
  destruct (cascade_spec errorTolerant kernels solutions results log2 Hlen)
    as (rm' & Hscan' & Hrk & Hsolutions & Hsurvive & _).
  rewrite Hscan in Hscan'. injection Hscan' as <- _.
  apply bind_Ok in Hrun as ([] & log4 & Hgate & Hrun).
  destruct (cascade ops getKernels rm kernels solutions results)
    as [[kernels1 solutions1] results1] eqn:Hcascade.
  cbn [fst snd] in Hsolutions, Hsurvive.
  apply bind_Ok in Hrun as (built & log5 & Hbuilt & Hrun).
  apply bind_Ok in Hrun as (kernelsToBuild & log6 & Hbuild & Hrun).
  apply bind_Ok in Hrun as ([] & log7 & _ & Hrun).
  apply bind_Ok in Hrun as (kernelFiles & log8 & _ & Hrun).
  apply bind_Ok in Hrun as (cof & log9 & _ & Hrun).
  rewrite !bind_emit in Hrun. unfold ret in Hrun. injection Hrun as _ <- _ _.
  exists results. split; [done|]. split; [|done].
  intros s k i kernel res Hs Hk Hi Hr Hkey.
  assert (Hnotfatal : err res ≠ -2).
  { intros Herr. apply Hsolutions in Hs as [_ Hkeys].
    by apply (Hkeys k (kernel, res) Hk (failing_lookup _ _ _ _ _ Hi Hr Herr)). }
  split; [done|]. intros ->.
  apply (buildKernelSourceAndHeaderFiles_no_errs _ _ _ _ _ Hbuilt).
  - destruct (bool_decide (0 < size built.2)%nat) eqn:Hsize.
    + rewrite bind_emit in Hbuild. discriminate.
    + apply bool_decide_eq_false in Hsize. apply map_size_empty_iff. lia.
  - rewrite Hsurvive. apply list_elem_of_filter. split; [done|].
    by eapply list_elem_of_lookup_2.
Qed.

End PipelineFacts.

(** ** The build *)

Lemma forM_emit_each {X} (g : X → event) (l : list X) (log : list event) :
  forM (λ _ x, emit (g x)) l tt log = (Ok tt, log ++ (g <$> l)).
Proof.
  revert log. induction l as [|x l IH]; intros log; simpl.
  - by rewrite app_nil_r.
  - rewrite bind_emit, IH. by rewrite <- app_assoc.
Qed.

Section BuildFacts.

Context {Solution Kernel Helper Key Lib : Type}.
Context `{EqDecision Solution, EqDecision Kernel, EqDecision Key}.
Variable gp : GlobalParameters.
Variable os : Platform.
Variable ops : KernelOps Kernel Key.
Variable getKernels : Solution → list Kernel.
Variable kernelWriterAssembly : KernelWriter Kernel.
Variable helperOps : HelperOps Helper.
Variable toolchain : Toolchain Kernel.
Variable lazyLibraryNames : Lib → list string.

(** C4, as the code has it. The build runs without error tolerance. When
    a result carries the fatal code, it exits with the message of the
    generation failure right after printing, for every failing kernel in
    order, its solution index and its name. By then it has copied the
    static files, written the manifest and the assembler script and set up
    directories, and nothing else: no kernel source or header file, no
    code object, no library. *)
Theorem fail_fast_abort (outputPath CxxCompiler : string)
    (solutions : list Solution) (kernels : list Kernel) (kernelHelperObjs : list Helper)
    (masterLibraries : list (string * Lib)) (fullMasterLibrary : option Lib)
    (sourceLibPaths asmLibPaths libMetadataPaths archs : list string)
    (useCompression : bool)
    (marks : list (Kernel * option bool)) (results : list BuildResult)
    (log : list event) :
  GenerateManifestAndExit gp = false →
  markDuplicates ops kernelWriterAssembly kernels = Ok marks →
  mapO (processKernelSource ops kernelWriterAssembly) kernels = Ok results →
  (∃ r, r ∈ results ∧ err r = -2) →
  ∃ before,
    TensileCreateLibrary gp os ops getKernels kernelWriterAssembly helperOps toolchain
      lazyLibraryNames outputPath CxxCompiler solutions kernels kernelHelperObjs
      masterLibraries fullMasterLibrary sourceLibPaths asmLibPaths libMetadataPaths
      archs useCompression log
    = (Raise (SystemExit "** kernel generation failure **"),
       log ++ before
           ++ (failing kernels results
                 ≫= (λ kr, [EvPrint (String PyStr.newline
                                       "Kernel generation failed for kernel: "
                                     +:+ pretty (SolutionIndex ops kr.1));
                            EvPrint (SolutionNameMin ops kr.1)])))
    ∧ before = staticCopies gp os outputPath
                 ++ [EvEnsurePath (path_join os outputPath "library");
                     EvOpen ModeW (manifestFile os outputPath)]
                 ++ staticCopies gp os outputPath
                 ++ setupEvents gp os outputPath
    ∧ ∀ e, e ∈ before ++ (failing kernels results ≫= (λ kr, failureReport ops kr.1)) →
           producesOutput e →
           e ∈ staticCopies gp os outputPath
           ∨ e = EvOpen ModeW (manifestFile os outputPath)
           ∨ e = EvOpen ModeW (assemblerScript gp os outputPath).
Proof.
  intros Hmanifest Hmarks Hresults Hfatal. eexists. split; [|split; [reflexivity|]].
  - unfold TensileCreateLibrary, copyStaticFiles, copyStaticFilesTo, writeManifest.
    rewrite !bind_assoc. unfold bind at 1. rewrite forM_emit_each.
    rewrite bind_ret, bind_assoc, !bind_emit, Hmanifest.
    unfold bind at 1. rewrite forM_emit_each. unfold bind at 1.
    rewrite (writeSolutionsAndKernels_abort gp os ops getKernels kernelWriterAssembly
               helperOps toolchain _ _ _ _ _ marks results) by done.
    f_equal. unfold staticCopies, manifestFile. by rewrite <- !app_assoc.
  - intros e Hin Hout. unfold setupEvents in Hin.
    repeat rewrite elem_of_app in Hin.
    destruct Hin as [[Hin|[Hin|[Hin|Hin]]]|Hin]; try tauto.
    + apply elem_of_cons in Hin as [->|Hin]; [done|].
      apply list_elem_of_singleton in Hin. tauto.
    + destruct Hin as [Hin|[Hin|Hin]].
      * apply elem_of_cons in Hin as [->|Hin]; [done|].
        apply list_elem_of_singleton in Hin as ->. done.
      * destruct (_ || _); [|by apply elem_of_nil in Hin].
        apply list_elem_of_singleton in Hin as ->. done.
      * apply elem_of_cons in Hin as [->|Hin]; [done|].
        apply list_elem_of_singleton in Hin. tauto.
    + apply list_elem_of_bind in Hin as (kr & Hin & _). unfold failureReport in Hin.
      apply elem_of_cons in Hin as [->|Hin]; [done|].
      apply list_elem_of_singleton in Hin as ->. done.
Qed.

End BuildFacts.

(** ** Reconciling *)

Lemma normcase_posix (os : Platform) (p : string) : nt os = false → normcase os p = p.
Proof. unfold normcase. by intros ->. Qed.

Lemma nt_char_lower (c : ascii) : PyStr.nt_char (PyStr.lower_ascii c) = PyStr.nt_char c.
Proof. by destruct c as [[] [] [] [] [] [] [] []]. Qed.

Lemma nt_char_slash : PyStr.nt_char "/"%char = PyStr.nt_char "\"%char.
Proof. reflexivity. Qed.

(** On Windows [normcase] does not tell upper from lower case. *)
Lemma normcase_nt_lower (os : Platform) (p : string) :
  nt os = true → normcase os (PyStr.lower p) = normcase os p.
Proof.
  unfold normcase, PyStr.lower. intros ->.
  induction p as [|c p IH]; simpl; [done|]. by rewrite nt_char_lower, IH.
Qed.

Lemma size_difference_0 (X Y : gset string) : size (X ∖ Y) = 0%nat ↔ X ⊆ Y.
Proof.
  rewrite size_empty_iff. split.
  - intros Hempty x Hx. destruct (decide (x ∈ Y)); [done|].
    exfalso. apply (not_elem_of_empty (C := gset string) x). rewrite <- Hempty.
    by apply elem_of_difference.
  - intros Hsub x. rewrite elem_of_difference. split; [|by intros ?%not_elem_of_empty].
    intros [Hx Hy]. by apply Hsub in Hx.
Qed.

Lemma subset_normcase (os : Platform) (l k : list string) :
  (list_to_set (normcase os <$> l) : gset string) ⊆ list_to_set (normcase os <$> k)
  ↔ ∀ p, p ∈ l → normcase os p ∈ normcase os <$> k.
Proof.
  split.
  - intros Hsub p Hp.
    apply (elem_of_list_to_set (C := gset string)), Hsub.
    apply (elem_of_list_to_set (C := gset string)). by apply list_elem_of_fmap_2.
  - intros Hall x Hx. apply (elem_of_list_to_set (C := gset string)) in Hx.
    apply list_elem_of_fmap in Hx as (p & -> & Hp).
    apply (elem_of_list_to_set (C := gset string)). by apply Hall.
Qed.

(** C5, as the code has it. The produced and the planned paths are
    compared after [os.path.normcase]: as they are written on POSIX, and
    without regard to case or to the direction of slashes on Windows. A
    produced path that is not planned fails the first assertion in every
    mode; failing that, a planned path that was not produced fails the
    second one unless the build only generates sources; otherwise the
    check passes. *)
Theorem reconcile_outcome (os : Platform) (generateSourcesAndExit : bool)
    (codeObjectFiles sourceLibPaths asmLibPaths : list string) :
  ((∃ p, p ∈ codeObjectFiles
         ∧ normcase os p ∉ normcase os <$> (sourceLibPaths ++ asmLibPaths)) →
   reconcile os generateSourcesAndExit codeObjectFiles sourceLibPaths asmLibPaths
   = Raise (AssertionError "Unexpected code object files"))
  ∧ ((∀ p, p ∈ codeObjectFiles →
           normcase os p ∈ normcase os <$> (sourceLibPaths ++ asmLibPaths)) →
     (generateSourcesAndExit = false
      ∧ ∃ q, q ∈ sourceLibPaths ++ asmLibPaths
             ∧ normcase os q ∉ normcase os <$> codeObjectFiles) →
     reconcile os generateSourcesAndExit codeObjectFiles sourceLibPaths asmLibPaths
     = Raise (AssertionError "Missing expected code object files"))
  ∧ ((∀ p, p ∈ codeObjectFiles →
           normcase os p ∈ normcase os <$> (sourceLibPaths ++ asmLibPaths)) →
     (generateSourcesAndExit = true
      ∨ ∀ q, q ∈ sourceLibPaths ++ asmLibPaths →
             normcase os q ∈ normcase os <$> codeObjectFiles) →
     reconcile os generateSourcesAndExit codeObjectFiles sourceLibPaths asmLibPaths
     = Ok tt)
  ∧ (nt os = false → ∀ p, normcase os p = p)
  ∧ (nt os = true → ∀ p, normcase os (PyStr.lower p) = normcase os p).
Proof.
  assert (Hsub0 : setA os codeObjectFiles ⊆ setB os sourceLibPaths asmLibPaths
                  ↔ ∀ p, p ∈ codeObjectFiles →
                         normcase os p ∈ normcase os <$> (sourceLibPaths ++ asmLibPaths)).
  { apply subset_normcase. }
  assert (Hsub1 : setB os sourceLibPaths asmLibPaths ⊆ setA os codeObjectFiles
                  ↔ ∀ q, q ∈ sourceLibPaths ++ asmLibPaths →
                         normcase os q ∈ normcase os <$> codeObjectFiles).
  { apply subset_normcase. }
  unfold reconcile.
  split; [|split; [|split; [|split]]].
  - intros (p & Hp & Hnot). rewrite decide_False; [done|].
    rewrite size_difference_0, Hsub0. intros Hall. by apply Hnot, Hall.
  - intros Hall [-> (q & Hq & Hnot)].
    rewrite decide_True by (by rewrite size_difference_0, Hsub0). simpl.
    rewrite decide_False; [done|].
    rewrite size_difference_0, Hsub1. intros Hall1. by apply Hnot, Hall1.
  - intros Hall Hcase.
    rewrite decide_True by (by rewrite size_difference_0, Hsub0).
    destruct Hcase as [->|Hall1]; [done|].
    destruct generateSourcesAndExit; simpl; [done|].
    by rewrite decide_True by (by rewrite size_difference_0, Hsub1).
  - intros Hnt p. by apply normcase_posix.
  - intros Hnt p. by apply normcase_nt_lower.
Qed.

(** ** The library merge engine *)

Lemma filter_all {X} (P : X → Prop) `{∀ x, Decision (P x)} (l : list X) :
  (∀ x, x ∈ l → P x) → filter P l = l.
Proof.
  induction l as [|x l IH]; intros Hall; [done|].
  rewrite filter_cons, decide_True by (apply Hall; left).
  f_equal. apply IH. intros y Hy. apply Hall. by right.
Qed.

Module DictFacts.
Import Dict.

Section DictFacts.

Context {V : Type}.
Implicit Types (d : list (string * V)) (k : string) (v : V).

Lemma get_Some_keys d k : is_Some (get k d) ↔ k ∈ keys d.
Proof.
  unfold keys. induction d as [|[k' v'] d IH]; simpl.
  - rewrite elem_of_nil. split; [by intros [? ?]|done].
  - rewrite elem_of_cons. destruct (decide (k = k')); [|tauto].
    split; [by left|eauto].
Qed.

Lemma keys_set_present d k v : k ∈ keys d → keys (set k v d) = keys d.
Proof.
  unfold keys. induction d as [|[k' v'] d IH]; simpl.
  - by intros ?%elem_of_nil.
  - destruct (decide (k = k')) as [->|Hne]; [done|].
    intros [?|Hin]%elem_of_cons; [done|]. simpl. f_equal. by apply IH.
Qed.

Lemma keys_set_absent d k v : k ∉ keys d → keys (set k v d) = keys d ++ [k].
Proof.
  unfold keys. induction d as [|[k' v'] d IH]; simpl; [done|].
  intros Hnot. apply not_elem_of_cons in Hnot as [Hne Hnot].
  rewrite decide_False by done. simpl. f_equal. by apply IH.
Qed.

Lemma NoDup_keys_set d k v : NoDup (keys d) → NoDup (keys (set k v d)).
Proof.
  intros Hnd. destruct (decide (k ∈ keys d)).
  - by rewrite keys_set_present.
  - rewrite keys_set_absent by done. apply NoDup_app. split; [done|].
    split; [|apply NoDup_singleton]. intros x Hx ->%list_elem_of_singleton. done.
Qed.

Lemma get_set_eq d k v : get k (set k v d) = Some v.
Proof.
  induction d as [|[k' v'] d IH]; simpl; [by rewrite decide_True|].
  destruct (decide (k = k')) as [->|Hne]; simpl.
  - by rewrite decide_True.
  - by rewrite decide_False.
Qed.

Lemma get_set_ne d k k' v : k ≠ k' → get k (set k' v d) = get k d.
Proof.
  intros Hne. induction d as [|[k0 v0] d IH]; simpl; [by rewrite decide_False|].
  destruct (decide (k' = k0)) as [->|Hne0]; simpl.
  - by rewrite !decide_False.
  - destruct (decide (k = k0)); [done|apply IH].
Qed.

Lemma get_pop_ne d k k' : k ≠ k' → get k (pop k' d) = get k d.
Proof.
  intros Hne. induction d as [|[k0 v0] d IH]; simpl; [done|].
  destruct (decide (k' = k0)) as [->|Hne0]; simpl.
  - by rewrite decide_False.
  - destruct (decide (k = k0)); [done|apply IH].
Qed.

Lemma keys_pop d k : NoDup (keys d) → keys (pop k d) = filter (λ k', k' ≠ k) (keys d).
Proof.
  unfold keys. induction d as [|[k0 v0] d IH]; simpl; [done|].
  intros [Hk0 Hnd]%NoDup_cons. rewrite filter_cons.
  destruct (decide (k = k0)) as [->|Hne].
  - rewrite decide_False by tauto. symmetry. apply filter_all.
    intros x Hx ->. done.
  - rewrite decide_True by done. simpl. f_equal. by apply IH.
Qed.

End DictFacts.

End DictFacts.

Section MergeFacts.

Context {Lib : Type}.
Variable gp : GlobalParameters.
Variable merge : Lib → Lib → option Z → Lib * Lib * Z.
Variable setVersion : string → Lib → Lib.

Local Abbreviation step := (fallbackStep merge).

(** No architecture is entered twice. *)
Lemma loadStep_NoDup (version : string) (st : MergeState Lib) (library : ParsedLogic Lib) :
  NoDup (Dict.keys (masterLibraries st)) →
  NoDup (Dict.keys (masterLibraries (loadStep gp merge setVersion version st library))).
Proof.
  intros Hnd. unfold loadStep.
  destruct (decide (architectureName library = "")); [done|].
  destruct (SeparateArchitectures gp || LazyLibraryLoading gp).
  - destruct (Dict.get _ _); simpl; by apply DictFacts.NoDup_keys_set.
  - by destruct (fullMasterLibrary st).
Qed.

Lemma load_NoDup (version : string) (libraries : list (ParsedLogic Lib))
    (st : MergeState Lib) :
  NoDup (Dict.keys (masterLibraries st)) →
  NoDup (Dict.keys (masterLibraries
                      (foldl (loadStep gp merge setVersion version) st libraries))).
Proof.
  revert st. induction libraries as [|library libraries IH]; intros st Hnd; [done|].
  simpl. by apply IH, loadStep_NoDup.
Qed.

Lemma fallbackStep_keys (libs : list (string * Lib)) (key : string) :
  Dict.keys (step libs key) = Dict.keys libs.
Proof.
  unfold fallbackStep. destruct (decide (key = "fallback")); [done|].
  destruct (Dict.get key libs) as [value|] eqn:Hkey; [|done].
  destruct (Dict.get "fallback" libs) as [fallback|] eqn:Hfallback; [|done].
  assert (key ∈ Dict.keys libs) by (apply DictFacts.get_Some_keys; eauto).
  assert ("fallback" ∈ Dict.keys libs) by (apply DictFacts.get_Some_keys; eauto).
  rewrite DictFacts.keys_set_present; rewrite DictFacts.keys_set_present; done.
Qed.

Lemma fallback_fold_keys (l : list string) (libs : list (string * Lib)) :
  Dict.keys (foldl step libs l) = Dict.keys libs.
Proof.
  revert libs. induction l as [|key l IH]; intros libs; [done|].
  simpl. by rewrite IH, fallbackStep_keys.
Qed.

(** A step leaves the libraries of the other architectures alone. *)
Lemma fallbackStep_get_other (libs : list (string * Lib)) (key k : string) :
  k ≠ key → k ≠ "fallback" → Dict.get k (step libs key) = Dict.get k libs.
Proof.
  intros Hkey Hfallback. unfold fallbackStep.
  destruct (decide (key = "fallback")); [done|].
  destruct (Dict.get key libs); [|done]. destruct (Dict.get "fallback" libs); [|done].
  by rewrite !DictFacts.get_set_ne.
Qed.

Lemma fallback_fold_get_other (l : list string) (libs : list (string * Lib)) (k : string) :
  k ∉ l → k ≠ "fallback" → Dict.get k (foldl step libs l) = Dict.get k libs.
Proof.
  revert libs. induction l as [|key l IH]; intros libs Hk Hfallback; [done|].
  apply not_elem_of_cons in Hk as [Hne Hk]. simpl.
  by rewrite IH, fallbackStep_get_other.
Qed.

Lemma fallbackStep_get_self (libs : list (string * Lib)) (key : string)
    (value fallback : Lib) :
  key ≠ "fallback" → Dict.get key libs = Some value →
  Dict.get "fallback" libs = Some fallback →
  Dict.get key (step libs key) = Some (merge value fallback None).1.1.
Proof.
  intros Hne Hkey Hfallback. unfold fallbackStep.
  rewrite decide_False, Hkey, Hfallback by done.
  by rewrite DictFacts.get_set_ne, DictFacts.get_set_eq.
Qed.

(** C1. With separate architectures or lazy loading the libraries are
    returned, and none is keyed [fallback]: the keys are those loaded,
    less [fallback], in their order. When a [fallback] library was loaded,
    the library of every other architecture is the result of merging into
    it the [fallback] library as the merges before it left it; when none
    was, the libraries are returned as loaded. *)
Theorem fallback_merged_and_removed (libraries : list (ParsedLogic Lib))
    (version : string) (loaded : list (string * Lib)) :
  (SeparateArchitectures gp || LazyLibraryLoading gp) = true →
  loaded = masterLibraries
             (foldl (loadStep gp merge setVersion version)
                {| masterLibraries := []; fullMasterLibrary := None; nextSolIndex := 0 |}
                libraries) →
  ∃ libs full,
    generateLogicDataAndSolutions gp merge setVersion libraries version
    = Ok (libs, full)
    ∧ ("fallback" ∉ Dict.keys libs)
    ∧ Dict.keys libs = filter (λ key, key ≠ "fallback") (Dict.keys loaded)
    ∧ ("fallback" ∈ Dict.keys loaded →
       ∀ before key after value,
         Dict.keys loaded = before ++ key :: after →
         key ≠ "fallback" →
         Dict.get key loaded = Some value →
         ∃ fallback,
           Dict.get "fallback" (foldl step loaded before) = Some fallback
           ∧ Dict.get key libs = Some (merge value fallback None).1.1)
    ∧ ("fallback" ∉ Dict.keys loaded → libs = loaded).
Proof.
  intros Hmode Hloaded.
  assert (Hnd : NoDup (Dict.keys loaded)).
  { rewrite Hloaded. apply load_NoDup. constructor. }
  unfold generateLogicDataAndSolutions. rewrite Hmode, <- Hloaded.
  eexists _, _. split; [done|]. unfold mergeFallback.
  destruct (decide ("fallback" ∈ Dict.keys loaded)) as [Hin|Hnot].
  - assert (Hkeys : Dict.keys (Dict.pop "fallback" (foldl step loaded (Dict.keys loaded)))
                    = filter (λ key, key ≠ "fallback") (Dict.keys loaded)).
    { rewrite DictFacts.keys_pop, fallback_fold_keys; [done|].
      by rewrite fallback_fold_keys. }
    split; [|split; [done|split; [|done]]].
    + rewrite Hkeys. intros [Hne _]%list_elem_of_filter. done.
    + intros _ before key after value Hsplit Hne Hvalue.
      rewrite Hsplit in Hnd. apply NoDup_app in Hnd as (_ & Hbefore & Hafter).
      apply NoDup_cons in Hafter as [Hafter _].
      destruct (DictFacts.get_Some_keys (foldl step loaded before) "fallback")
        as [_ [fallback Hfallback]].
      { by rewrite fallback_fold_keys. }
      exists fallback. split; [done|].
      rewrite DictFacts.get_pop_ne, Hsplit, foldl_app by done. simpl.
      rewrite fallback_fold_get_other by done.
      apply fallbackStep_get_self; [done| |done].
      rewrite fallback_fold_get_other; [done| |done].
      intros Hkey. by apply (Hbefore key Hkey); left.
  - split; [done|]. split; [|split; [done|done]].
    symmetry. apply filter_all. intros key Hkey ->. done.
Qed.

End MergeFacts.

(** ** Instances of the theorems *)

Lemma fallback_merged_and_removed_witness :
  (SeparateArchitectures lazyParameters || LazyLibraryLoading lazyParameters) = true
  ∧ ∃ libs full,
      generateLogicDataAndSolutions lazyParameters demoMerge (λ _ lib, lib)
        [demoLogic "gfx900" [1%nat]; demoLogic "fallback" [9%nat];
         demoLogic "gfx90a" [2%nat]; demoLogic "gfx900" [3%nat]] "4.33.0"
      = Ok (libs, full)
      ∧ ("fallback" ∉ Dict.keys libs)
      ∧ Dict.keys libs = ["gfx900"; "gfx90a"].
Proof.
  split; [reflexivity|].
  destruct (fallback_merged_and_removed lazyParameters demoMerge (λ _ lib, lib)
              [demoLogic "gfx900" [1%nat]; demoLogic "fallback" [9%nat];
               demoLogic "gfx90a" [2%nat]; demoLogic "gfx900" [3%nat]] "4.33.0"
              _ eq_refl eq_refl)
    as (libs & full & Hrun & Hkey & Hkeys & _).
  exists libs, full. split; [exact Hrun|]. split; [exact Hkey|]. exact Hkeys.
Defined.


Lemma blank_source_writes_no_file_witness :
  PyStr.all_space (src (demoResult 3 0 "  ")) = true
  ∧ buildKernelSourceAndHeaderFiles lazyParameters posix
      ([demoResult 1 0 "kernel text"] ++ demoResult 3 0 "  "
         :: [demoResult 2 0 "kernel text"]) "/out" ∅ []
    = buildKernelSourceAndHeaderFiles lazyParameters posix
        ([demoResult 1 0 "kernel text"] ++ [demoResult 2 0 "kernel text"]) "/out" ∅ [].
Proof.
  split; [reflexivity|].
  exact (proj2 (proj2 (proj2
           (blank_source_writes_no_file lazyParameters posix "/out"
              [demoResult 1 0 "kernel text"] [demoResult 2 0 "kernel text"]
              (demoResult 3 0 "  ") ∅ [] eq_refl))) eq_refl).
Defined.

Lemma retained_solutions_results_witness :
  writeSolutionsAndKernels lazyParameters posix plainOps (λ s : list nat, s)
    demoWriter demoHelpers demoToolchain "/out" "amdclang++"
    [[1%nat]; [1%nat; 2%nat]] [1%nat; 2%nat] ["Conversion"] false true []
  = (Ok ([], [[1%nat]; [1%nat; 2%nat]], [1%nat; 2%nat]),
     [EvPushWorkingPath "build_tmp"; EvPushWorkingPath "OUT";
      EvEnsurePath "/out/Kernels";
      EvEnsurePath "/work/build_tmp/OUT/assembly";
      EvOpen ModeW "/work/build_tmp/OUT/assembly/asm-new.sh";
      EvOpen ModeW "/out/Kernels.h"; EvOpen ModeW "/out/Kernels.cpp";
      EvOpen ModeA "/out/Kernels.cpp"; EvOpen ModeA "/out/Kernels.h";
      EvBuildSourceCodeObjects ["/out/Kernels.cpp"];
      EvBuildAssemblyCodeObjects ["Cijk_1"; "Cijk_2"];
      EvPopWorkingPath; EvPopWorkingPath])
  ∧ ∃ results,
      mapO (processKernelSource plainOps demoWriter) [1%nat; 2%nat] = Ok results
      ∧ (∀ s k i kernel res,
           s ∈ [[1%nat]; [1%nat; 2%nat]] → k ∈ s →
           [1%nat; 2%nat] !! i = Some kernel → results !! i = Some res →
           kernel = k →
           err res ≠ -2 ∧ (false = false → err res = 0))
      ∧ (∀ s,
           s ∈ [[1%nat]; [1%nat; 2%nat]]
           ↔ s ∈ [[1%nat]; [1%nat; 2%nat]]
             ∧ ∀ k kr, k ∈ s → kr ∈ failing [1%nat; 2%nat] results → k ≠ kr.1).
Proof.
  assert (Hrun :
    writeSolutionsAndKernels lazyParameters posix plainOps (λ s : list nat, s)
      demoWriter demoHelpers demoToolchain "/out" "amdclang++"
      [[1%nat]; [1%nat; 2%nat]] [1%nat; 2%nat] ["Conversion"] false true []
    = (Ok ([], [[1%nat]; [1%nat; 2%nat]], [1%nat; 2%nat]),
       [EvPushWorkingPath "build_tmp"; EvPushWorkingPath "OUT";
        EvEnsurePath "/out/Kernels";
        EvEnsurePath "/work/build_tmp/OUT/assembly";
        EvOpen ModeW "/work/build_tmp/OUT/assembly/asm-new.sh";
        EvOpen ModeW "/out/Kernels.h"; EvOpen ModeW "/out/Kernels.cpp";
        EvOpen ModeA "/out/Kernels.cpp"; EvOpen ModeA "/out/Kernels.h";
        EvBuildSourceCodeObjects ["/out/Kernels.cpp"];
        EvBuildAssemblyCodeObjects ["Cijk_1"; "Cijk_2"];
        EvPopWorkingPath; EvPopWorkingPath]))
    by (vm_compute; reflexivity).
  split; [exact Hrun|].
  exact (retained_solutions_results lazyParameters posix plainOps (λ s : list nat, s)
           demoWriter demoHelpers demoToolchain _ _ _ _ _ _ _ _ _ _ _ _ Hrun).
Defined.

(** C2 as stated fails: with error tolerance a kernel whose result
    carries error code 1 stays, and so does the solution that owns it. *)
Lemma tolerant_run_keeps_solution_with_error :
  ¬ (∀ codeObjectFiles solutions' kernels' log',
       writeSolutionsAndKernels lazyParameters posix plainOps (λ s : list nat, s)
         demoWriter demoHelpers demoToolchain "/out" "amdclang++"
         [[5%nat]] [5%nat] [] true true []
       = (Ok (codeObjectFiles, solutions', kernels'), log') →
       ∀ s k res,
         s ∈ solutions' → k ∈ s →
         processKernelSource plainOps demoWriter k = Ok res → err res = 0).
Proof.
  intros Hclaim.
  assert (Hrun :
    writeSolutionsAndKernels lazyParameters posix plainOps (λ s : list nat, s)
      demoWriter demoHelpers demoToolchain "/out" "amdclang++"
      [[5%nat]] [5%nat] [] true true []
    = (Ok ([], [[5%nat]], [5%nat]),
       [EvPushWorkingPath "build_tmp"; EvPushWorkingPath "OUT";
        EvEnsurePath "/out/Kernels";
        EvEnsurePath "/work/build_tmp/OUT/assembly";
        EvOpen ModeW "/work/build_tmp/OUT/assembly/asm-new.sh";
        EvOpen ModeW "/out/Kernels.h"; EvOpen ModeW "/out/Kernels.cpp";
        EvOpen ModeA "/out/Kernels.cpp"; EvOpen ModeA "/out/Kernels.h";
        EvBuildSourceCodeObjects ["/out/Kernels.cpp"];
        EvBuildAssemblyCodeObjects [];
        EvPopWorkingPath; EvPopWorkingPath]))
    by (vm_compute; reflexivity).
  specialize (Hclaim _ _ _ _ Hrun [5%nat] 5%nat (demoResult 5 1 "kernel text")).
  assert (err (demoResult 5 1 "kernel text") = 0) as Herr; [|discriminate Herr].
  apply Hclaim; [repeat constructor..|vm_compute; reflexivity].
Qed.

Lemma fail_fast_abort_witness :
  GenerateManifestAndExit lazyParameters = false
  ∧ markDuplicates plainOps demoWriter [1%nat; 7%nat]
    = Ok [(1%nat, Some false); (7%nat, Some false)]
  ∧ mapO (processKernelSource plainOps demoWriter) [1%nat; 7%nat]
    = Ok [demoResult 1 0 "kernel text"; demoResult 7 (-2) ""]
  ∧ (TensileCreateLibrary lazyParameters posix plainOps (λ s : list nat, s)
       demoWriter demoHelpers demoToolchain (λ lib : list nat, [])
       "/out" "amdclang++" [[1%nat]; [7%nat]] [1%nat; 7%nat] []
       [("gfx900", [1%nat; 7%nat])] None
       ["/out/library/Kernels.so-000-gfx900.hsaco"]
       ["/out/library/TensileLibrary_gfx900.co"]
       ["/out/library/TensileLibrary_lazy_gfx900.dat"] ["gfx900"] true []).1
    = Raise (SystemExit "** kernel generation failure **").
Proof.
  assert (Hmarks : markDuplicates plainOps demoWriter [1%nat; 7%nat]
                   = Ok [(1%nat, Some false); (7%nat, Some false)])
    by (vm_compute; reflexivity).
  assert (Hresults : mapO (processKernelSource plainOps demoWriter) [1%nat; 7%nat]
                     = Ok [demoResult 1 0 "kernel text"; demoResult 7 (-2) ""])
    by (vm_compute; reflexivity).
  split; [reflexivity|]. split; [exact Hmarks|]. split; [exact Hresults|].
  destruct (fail_fast_abort lazyParameters posix plainOps (λ s : list nat, s)
              demoWriter demoHelpers demoToolchain (λ lib : list nat, [])
              "/out" "amdclang++" [[1%nat]; [7%nat]] [1%nat; 7%nat] []
              [("gfx900", [1%nat; 7%nat])] None
              ["/out/library/Kernels.so-000-gfx900.hsaco"]
              ["/out/library/TensileLibrary_gfx900.co"]
              ["/out/library/TensileLibrary_lazy_gfx900.dat"] ["gfx900"] true
              _ _ [] eq_refl Hmarks Hresults
              (ex_intro _ (demoResult 7 (-2) "")
                 (conj (list_elem_of_further _ _ _ (list_elem_of_here _ _)) eq_refl)))
    as (before & Hrun & _).
  by rewrite Hrun.
Defined.

(** The whole of a build that stops on a fatal result. *)
Lemma fail_fast_log :
  (TensileCreateLibrary lazyParameters posix plainOps (λ s : list nat, s)
     demoWriter demoHelpers demoToolchain (λ lib : list nat, [])
     "/out" "amdclang++" [[1%nat]; [7%nat]] [1%nat; 7%nat] []
     [("gfx900", [1%nat; 7%nat])] None
     ["/out/library/Kernels.so-000-gfx900.hsaco"]
     ["/out/library/TensileLibrary_gfx900.co"]
     ["/out/library/TensileLibrary_lazy_gfx900.dat"] ["gfx900"] true [])
  = (Raise (SystemExit "** kernel generation failure **"),
     [EvCopy "/src/TensileTypes.h" "/out";
      EvCopy "/src/tensile_bfloat16.h" "/out";
      EvCopy "/src/tensile_float8_bfloat8.h" "/out";
      EvCopy "/src/hip_f8_impl.h" "/out";
      EvCopy "/src/KernelHeader.h" "/out";
      EvCopy "/src/ReductionTemplate.h" "/out";
      EvCopy "/src/memory_gfx.h" "/out";
      EvEnsurePath "/out/library";
      EvOpen ModeW "/out/library/TensileManifest.txt";
      EvCopy "/src/TensileTypes.h" "/out";
      EvCopy "/src/tensile_bfloat16.h" "/out";
      EvCopy "/src/tensile_float8_bfloat8.h" "/out";
      EvCopy "/src/hip_f8_impl.h" "/out";
      EvCopy "/src/KernelHeader.h" "/out";
      EvCopy "/src/ReductionTemplate.h" "/out";
      EvCopy "/src/memory_gfx.h" "/out";
      EvPushWorkingPath "build_tmp"; EvPushWorkingPath "OUT";
      EvEnsurePath "/out/Kernels";
      EvEnsurePath "/work/build_tmp/OUT/assembly";
      EvOpen ModeW "/work/build_tmp/OUT/assembly/asm-new.sh";
      EvPrint (String PyStr.newline "Kernel generation failed for kernel: 7");
      EvPrint "Cijk"]).
Proof. vm_compute. reflexivity. Qed.

(** C4 as stated fails: the build exits on the fatal result, but it has
    by then copied the static files and written the manifest and the
    assembler script. *)
Lemma fail_fast_leaves_files :
  ¬ (∀ outcome log,
       TensileCreateLibrary lazyParameters posix plainOps (λ s : list nat, s)
         demoWriter demoHelpers demoToolchain (λ lib : list nat, [])
         "/out" "amdclang++" [[1%nat]; [7%nat]] [1%nat; 7%nat] []
         [("gfx900", [1%nat; 7%nat])] None
         ["/out/library/Kernels.so-000-gfx900.hsaco"]
         ["/out/library/TensileLibrary_gfx900.co"]
         ["/out/library/TensileLibrary_lazy_gfx900.dat"] ["gfx900"] true []
       = (outcome, log) →
       outcome = Raise (SystemExit "** kernel generation failure **")
       ∧ ∀ e, e ∈ log → ¬ producesOutput e).
Proof.
  intros Hclaim. destruct (Hclaim _ _ fail_fast_log) as [_ Hnone].
  apply (Hnone (EvOpen ModeW "/out/library/TensileManifest.txt")); [|exact I].
  repeat constructor.
Qed.

(** C5 as stated fails: on POSIX two paths that differ only in case are
    different paths, and a produced path that is planned up to case is
    reported as unexpected. *)
Lemma reconcile_posix_case_sensitive :
  ¬ ((∀ p, p ∈ ["/out/library/TensileLibrary_GFX900.co"] →
           PyStr.lower p
           ∈ PyStr.lower <$> ([] ++ ["/out/library/TensileLibrary_gfx900.co"])) →
     reconcile posix false ["/out/library/TensileLibrary_GFX900.co"] []
       ["/out/library/TensileLibrary_gfx900.co"]
     = Ok tt).
Proof.
  intros Hclaim.
  assert (reconcile posix false ["/out/library/TensileLibrary_GFX900.co"] []
            ["/out/library/TensileLibrary_gfx900.co"]
          = Raise (AssertionError "Unexpected code object files")) as Hrun
    by (vm_compute; reflexivity).
  rewrite Hclaim in Hrun; [discriminate|].
  intros p ->%list_elem_of_singleton. vm_compute. repeat constructor.
Qed.

(** * Further properties *)

(** ** Selecting architectures *)

Module PySplitFacts.
Import PySplit.

Lemma split_cons (sep : ascii) (s : string) : ∃ piece pieces, split sep s = piece :: pieces.
Proof.
  induction s as [|c s IH]; simpl; [eauto|].
  destruct (Ascii.eqb c sep); [eauto|]. destruct IH as (p & ps & ->). eauto.
Qed.

Lemma join_cons_cons (sep : ascii) (p q : string) (rest : list string) :
  join sep (p :: q :: rest) = p +:+ String sep (join sep (q :: rest)).
Proof. reflexivity. Qed.

Lemma join_head (sep c : ascii) (p : string) (rest : list string) :
  join sep (String c p :: rest) = String c (join sep (p :: rest)).
Proof. by destruct rest. Qed.

Lemma join_split (sep : ascii) (s : string) : join sep (split sep s) = s.
Proof.
  induction s as [|c s IH]; [done|]. cbn [split].
  destruct (Ascii.eqb_spec c sep) as [->|Hne].
  - destruct (split_cons sep s) as (p & ps & Hs). rewrite Hs in *.
    by rewrite join_cons_cons, IH.
  - destruct (split_cons sep s) as (p & ps & Hs). rewrite Hs in *.
    by rewrite join_head, IH.
Qed.

(** A piece has no character that the text does not have, and never the
    separator. *)
Lemma split_pieces (sep c : ascii) (s piece : string) :
  piece ∈ split sep s →
  has_char sep piece = false ∧ (has_char c s = false → has_char c piece = false).
Proof.
  revert piece. induction s as [|d s IH]; intros piece; cbn [split].
  - by intros ->%list_elem_of_singleton.
  - cbn [has_char]. destruct (Ascii.eqb_spec d sep) as [->|Hne].
    + intros [->|Hin]%elem_of_cons; [split; [done|by intros _]|].
      destruct (IH piece Hin) as [Hsep Hc]. split; [done|].
      intros [_ ?]%orb_false_elim. auto.
    + destruct (split_cons sep s) as (p & ps & Hs). rewrite Hs in *.
      intros [->|Hin]%elem_of_cons.
      * destruct (IH p) as [Hsep Hc]; [left|]. cbn [has_char]. split.
        -- rewrite Hsep. by apply Ascii.eqb_neq in Hne as ->.
        -- intros [-> ?]%orb_false_elim. auto.
      * destruct (IH piece) as [Hsep Hc]; [by right|]. split; [done|].
        intros [_ ?]%orb_false_elim. auto.
Qed.

Lemma contains_char (c : ascii) (s : string) :
  PyStr.contains (String c "") s = has_char c s.
Proof.
  induction s as [|d s IH]; [done|]. cbn [PyStr.contains has_char]. rewrite IH.
  f_equal. simpl. destruct (ascii_dec c d) as [->|Hne].
  - rewrite Ascii.eqb_refl. by destruct s.
  - symmetry. apply Ascii.eqb_neq. congruence.
Qed.

End PySplitFacts.

(** X1. The architecture list is split at [;] when the text has one and
    at [_] otherwise. Joining the pieces with that separator gives the
    text back; no piece has a [;], and when the text is split at [_] no
    piece has a [_] either. *)
Theorem splitArchitecture_round_trip (architecture : string) :
  PySplit.join (if PySplit.has_char ";" architecture then ";" else "_")%char
               (splitArchitecture architecture)
  = architecture
  ∧ ∀ piece, piece ∈ splitArchitecture architecture →
      PySplit.has_char ";" piece = false
      ∧ (PySplit.has_char ";" architecture = false →
         PySplit.has_char "_" piece = false).
Proof.
  unfold splitArchitecture. rewrite PySplitFacts.contains_char.
  destruct (PySplit.has_char ";" architecture) eqn:Hsemi.
  - split; [apply PySplitFacts.join_split|]. intros piece Hin.
    split; [|done]. by destruct (PySplitFacts.split_pieces ";" ";" architecture piece Hin).
  - split; [apply PySplitFacts.join_split|]. intros piece Hin.
    destruct (PySplitFacts.split_pieces "_" ";" architecture piece Hin) as [Hu Hs].
    auto.
Qed.

(** X2. [archMatch] holds exactly when some listed architecture starts
    with the given one: the membership test adds nothing, and the empty
    architecture matches every list that is not empty. *)
Theorem archMatch_prefix (arch : string) (archs : list string) :
  (archMatch arch archs = true ↔ ∃ a tail, a ∈ archs ∧ a = arch +:+ tail)
  ∧ (archs ≠ [] → archMatch "" archs = true).
Proof.
  assert (Hiff : ∀ x, archMatch x archs = true ↔ ∃ a tail, a ∈ archs ∧ a = x +:+ tail).
  { intros x. unfold archMatch. rewrite orb_true_iff, bool_decide_eq_true, existsb_exists.
    split.
    - intros [Hin|(a & Hin%list_elem_of_In & [tail ->]%PyStrFacts.prefix_spec)].
      + exists x, "". by rewrite PyStrFacts.app_nil_r.
      + eauto.
    - intros (a & tail & Hin & ->). right. exists (x +:+ tail).
      split; [by apply list_elem_of_In|]. apply PyStrFacts.prefix_spec. eauto. }
  split; [apply Hiff|]. intros Hne. apply Hiff.
  destruct archs as [|a archs]; [done|]. exists a, a. split; [left|done].
Qed.

(** X3. The check of the architectures fails on the first one that is not
    in [architectureMap], naming it, whatever the other options; when all
    are known it fails if lazy loading comes without merged files and
    separate architectures, and otherwise gives the set of their images. *)
Theorem checkArchitectures_outcome (gp : GlobalParameters)
    (architectureMap : gmap string string) (architecture : string) :
  (∀ known bad rest,
     splitArchitecture architecture = known ++ bad :: rest →
     (∀ arch, arch ∈ known → is_Some (architectureMap !! arch)) →
     architectureMap !! bad = None →
     checkArchitectures gp architectureMap architecture
     = Raise (SystemExit ("Architecture " +:+ bad +:+ " not supported")))
  ∧ ((∀ arch, arch ∈ splitArchitecture architecture →
              is_Some (architectureMap !! arch)) →
     if LazyLibraryLoading gp && negb (MergeFiles gp && SeparateArchitectures gp)
     then checkArchitectures gp architectureMap architecture
          = Raise (SystemExit
              "--lazy-library-loading requires --merge-files and --separate-architectures enabled")
     else ∃ logicArchs,
            checkArchitectures gp architectureMap architecture = Ok logicArchs
            ∧ ∀ x, x ∈ logicArchs
                   ↔ ∃ arch, arch ∈ splitArchitecture architecture
                             ∧ architectureMap !! arch = Some x).
Proof.
  unfold checkArchitectures.
  set (body := λ (logicArchs : gset string) (arch : string),
         match architectureMap !! arch with
         | Some logicArch => Ok (logicArchs ∪ {[logicArch]})
         | None => Raise (SystemExit ("Architecture " +:+ arch +:+ " not supported"))
         end).
  assert (Hknown : ∀ l acc,
    (∀ arch, arch ∈ l → is_Some (architectureMap !! arch)) →
    ∃ s, foldO body l acc = Ok s
         ∧ ∀ x, x ∈ s ↔ x ∈ acc ∨ ∃ arch, arch ∈ l ∧ architectureMap !! arch = Some x).
  { induction l as [|arch l IH]; intros acc Hall; simpl.
    - exists acc. split; [done|]. intros x. split; [auto|].
      intros [?|(? & ?%elem_of_nil & _)]; done.
    - destruct (Hall arch) as [v Hv]; [left|]. unfold body at 1. rewrite Hv. simpl.
      destruct (IH (acc ∪ {[v]})) as (s & -> & Hs).
      { intros a Ha. apply Hall. by right. }
      exists s. split; [done|]. intros x. rewrite Hs, elem_of_union, elem_of_singleton.
      split.
      + intros [[?| ->]|(a & Ha & Hx)]; [by left|right; exists arch|right; exists a].
        * split; [left|done].
        * split; [by right|done].
      + intros [?|(a & [-> |Ha]%elem_of_cons & Hx)]; [tauto| |right; eauto].
        left. right. congruence. }
  split.
  - intros known bad rest -> Hall Hbad. rewrite foldO_app.
    destruct (Hknown known ∅ Hall) as (s & -> & _). simpl. unfold body at 1.
    by rewrite Hbad.
  - intros Hall. destruct (Hknown _ ∅ Hall) as (s & -> & Hs). simpl.
    destruct (LazyLibraryLoading gp && negb (MergeFiles gp && SeparateArchitectures gp));
      [done|].
    exists s. split; [done|]. intros x. rewrite Hs. split; [|auto].
    intros [?%not_elem_of_empty|?]; done.
Qed.

(** ** The output planner *)






(** X5. When the architecture of a name is not itself a supported
    target, every target that extends it by a tail gives the variant made
    of the name, that tail and the extension; every variant is the name
    followed by something and the extension, and there are no more
    variants than targets. *)
Theorem addxnack_variants (sourceArchs : list string) (name ext arch : string)
    (variants : list string) :
  PyStr.re_search_gfx name = Some arch →
  arch ∉ sourceArchs →
  Planner.addxnack sourceArchs name ext = Ok variants →
  (∀ tail, arch +:+ tail ∈ sourceArchs → name +:+ tail +:+ ext ∈ variants)
  ∧ (∀ v, v ∈ variants → ∃ tail, v = name +:+ tail +:+ ext)
  ∧ (length variants ≤ length sourceArchs)%nat.
Proof.
  intros Harch Hnot. unfold Planner.addxnack.
  rewrite Harch, bool_decide_eq_false_2 by done. intros [= <-].
  split; [|split].
  - intros tail Hin. apply list_elem_of_fmap. exists (arch +:+ tail).
    split; [by rewrite PyStrFacts.drop_app|].
    apply list_elem_of_filter. split; [|done].
    apply PyStrFacts.contains_spec. exists "", tail. done.
  - intros v (x & -> & _)%list_elem_of_fmap. eauto.
  - rewrite length_fmap. apply length_filter.
Qed.

Lemma addxnack_variants_witness :
  PyStr.re_search_gfx "Kernel_gfx90a" = Some "gfx90a"
  ∧ ("gfx90a" ∉ ["gfx90a:xnack+"; "gfx90a:xnack-"])
  ∧ ("Kernel_gfx90a" +:+ ":xnack-" +:+ ".hsaco"
     ∈ ["Kernel_gfx90a:xnack+.hsaco"; "Kernel_gfx90a:xnack-.hsaco"]).
Proof.
  assert (Hnot : "gfx90a" ∉ ["gfx90a:xnack+"; "gfx90a:xnack-"]).
  { intros Hin. repeat (apply elem_of_cons in Hin as [Hin|Hin]; [discriminate|]).
    by apply elem_of_nil in Hin. }
  split; [reflexivity|]. split; [exact Hnot|].
  apply (proj1 (addxnack_variants ["gfx90a:xnack+"; "gfx90a:xnack-"] "Kernel_gfx90a"
                  ".hsaco" "gfx90a" _ eq_refl Hnot eq_refl) ":xnack-").
  right. left.
Defined.

Lemma elem_of_list_of_set (l : list string) (x : string) : x ∈ list_of_set l ↔ x ∈ l.
Proof.
  unfold list_of_set. rewrite elem_of_elements.
  apply (elem_of_list_to_set (C := gset string)).
Qed.

Lemma NoDup_list_of_set (l : list string) : NoDup (list_of_set l).
Proof. unfold list_of_set. apply (NoDup_elements (C := gset string)). Qed.

Lemma mapO_Ok {X Y} (f : X → Outcome Y) (l : list X) (ys : list Y) :
  mapO f l = Ok ys → Forall2 (λ x y, f x = Ok y) l ys.
Proof.
  revert ys. induction l as [|x l IH]; intros ys; simpl.
  - intros [= <-]. constructor.
  - destruct (f x) as [y|] eqn:Hx; simpl; [|done].
    destruct (mapO f l) as [ys'|]; simpl; [|done].
    intros [= <-]. constructor; [done|]. by apply IH.
Qed.

(** A map over a list fails when it fails on an element, with the
    exception in question if the function raises no other. *)
Lemma mapO_Raise {X Y} (f : X → Outcome Y) (l : list X) (x : X) (e : exn) :
  x ∈ l → f x = Raise e → (∀ x' e', f x' = Raise e' → e' = e) →
  mapO f l = Raise e.
Proof.
  intros Hin Hx Honly. induction l as [|z l IH]; [by apply elem_of_nil in Hin|].
  simpl. destruct (f z) as [y|e'] eqn:Hz; simpl.
  - apply elem_of_cons in Hin as [->|Hin]; [congruence|]. by rewrite IH.
  - by rewrite (Honly _ _ Hz).
Qed.

Lemma elem_of_omap_iff {X Y} (f : X → option Y) (l : list X) (y : Y) :
  y ∈ omap f l ↔ ∃ x, x ∈ l ∧ f x = Some y.
Proof. apply list_elem_of_omap. Qed.

Lemma listed_cons {X} (k : string) (l : list X) (d : list (string * list X)) :
  listed ((k, l) :: d) = ((λ x, (k, x)) <$> l) ++ listed d.
Proof. reflexivity. Qed.

Lemma listed_set {X} (d : list (string * list X)) (k : string) (l : list X) (x : X)
    (p : string * X) :
  Dict.get k d = Some l →
  p ∈ listed (Dict.set k (l ++ [x]) d) ↔ p = (k, x) ∨ p ∈ listed d.
Proof.
  induction d as [|[k' l'] d IH]; simpl; [done|].
  destruct (decide (k = k')) as [->|Hne].
  - intros [= ->]. rewrite !listed_cons, !elem_of_app, fmap_app, elem_of_app.
    simpl. rewrite list_elem_of_singleton. tauto.
  - intros Hget. rewrite !listed_cons, !elem_of_app, (IH Hget). tauto.
Qed.

Lemma listed_set_new {X} (d : list (string * list X)) (k : string) (x : X)
    (p : string * X) :
  Dict.get k d = None →
  p ∈ listed (Dict.set k [x] d) ↔ p = (k, x) ∨ p ∈ listed d.
Proof.
  induction d as [|[k' l'] d IH]; simpl.
  - intros _. unfold listed. simpl. rewrite elem_of_cons, elem_of_nil. tauto.
  - destruct (decide (k = k')) as [->|Hne]; [done|].
    intros Hget. rewrite !listed_cons, !elem_of_app, (IH Hget). tauto.
Qed.

Lemma listed_append {X} (d : list (string * list X)) (k : string) (x : X)
    (p : string * X) :
  p ∈ listed (Dict.append k x d) ↔ p = (k, x) ∨ p ∈ listed d.
Proof.
  unfold Dict.append. destruct (Dict.get k d) eqn:Hget.
  - by apply listed_set.
  - by apply listed_set_new.
Qed.

Lemma listed_elem {X} (d : list (string * list X)) (k : string) (x : X) :
  (k, x) ∈ listed d ↔ ∃ l, (k, l) ∈ d ∧ x ∈ l.
Proof.
  unfold listed. rewrite list_elem_of_bind. split.
  - intros ([k' l] & Hin & Hd). apply list_elem_of_fmap in Hin as (y & [= -> ->] & Hy).
    eauto.
  - intros (l & Hd & Hx). exists (k, l). split; [|done].
    apply list_elem_of_fmap. eauto.
Qed.

Lemma listed_values {X} (d : list (string * list X)) (x : X) :
  x ∈ concat (snd <$> d) ↔ ∃ k, (k, x) ∈ listed d.
Proof.
  induction d as [|[k l] d IH].
  - simpl. rewrite elem_of_nil. split; [done|]. by intros (k & ?%elem_of_nil).
  - change (concat (snd <$> (k, l) :: d)) with (l ++ concat (snd <$> d)).
    rewrite elem_of_app, IH. split.
    + intros [Hx|(k' & Hk')]; [exists k|exists k']; rewrite listed_cons, elem_of_app.
      * left. apply list_elem_of_fmap. eauto.
      * by right.
    + intros (k' & Hk'). rewrite listed_cons, elem_of_app in Hk'.
      destruct Hk' as [(y & [= -> ->] & Hy)%list_elem_of_fmap|Hd]; eauto.
Qed.

Section PlanFacts.

Context {Kernel Helper Key Lib : Type}.
Variable gp : GlobalParameters.
Variable os : Platform.
Variable ops : KernelOps Kernel Key.
Variable kernelWriterAssembly : KernelWriter Kernel.
Variable helperOps : HelperOps Helper.
Variable gfxName : Kernel → string.
Variable supportedCompiler : string → bool.
Variable sourceArchs : list string.
Variable lazyLibraryNames : Lib → list string.

Local Abbreviation plan :=
  (buildObjectFileNames gp ops kernelWriterAssembly helperOps gfxName
     supportedCompiler sourceArchs).
Local Abbreviation assembly kernels :=
  (filter (λ k, KernelLanguage ops k = "Assembly") kernels).
Local Abbreviation fileBase := (getKernelFileBase kernelWriterAssembly).

Lemma asmStep_fold (l : list Kernel) (st st' : list string * list (string * list string)) :
  foldO (asmStep kernelWriterAssembly gfxName) l st = Ok st' →
  ∃ bases, mapO fileBase l = Ok bases
    ∧ st'.1 = st.1 ++ bases
    ∧ ∀ p, p ∈ listed st'.2 ↔ p ∈ listed st.2 ∨ p ∈ zip bases (gfxName <$> l).
Proof.
  revert st. induction l as [|k l IH]; intros st; simpl.
  - intros [= <-]. exists []. rewrite app_nil_r. split; [done|split; [done|]].
    intros p. simpl. rewrite elem_of_nil. tauto.
  - unfold asmStep at 1. destruct (fileBase k) as [b|] eqn:Hb; simpl; [|done].
    intros Hfold. destruct (IH _ Hfold) as (bases & Hmap & H1 & H2). simpl in *.
    exists (b :: bases). rewrite Hmap. simpl. split; [done|]. split.
    + rewrite H1. by rewrite <- app_assoc.
    + intros p. rewrite H2, listed_append, elem_of_cons. tauto.
Qed.

Lemma asmStep_total (l : list Kernel) (bases : list string)
    (st : list string * list (string * list string)) :
  mapO fileBase l = Ok bases →
  ∃ st', foldO (asmStep kernelWriterAssembly gfxName) l st = Ok st'.
Proof.
  revert bases st. induction l as [|k l IH]; intros bases st; simpl; [by eauto|].
  unfold asmStep at 1. destruct (fileBase k) as [b|]; simpl; [|done].
  destruct (mapO fileBase l) as [bs|] eqn:Hmap; simpl; [|done].
  intros _. by eapply IH.
Qed.

Lemma asmStep_raise (l : list Kernel) (e : exn)
    (st : list string * list (string * list string)) :
  mapO fileBase l = Raise e →
  foldO (asmStep kernelWriterAssembly gfxName) l st = Raise e.
Proof.
  revert st. induction l as [|k l IH]; intros st; simpl; [done|].
  unfold asmStep at 1. destruct (fileBase k) as [b|]; simpl; [|by intros [= <-]].
  destruct (mapO fileBase l) as [bs|] eqn:Hmap; simpl; [done|].
  intros [= <-]. by apply IH.
Qed.

Lemma zip_bases (l : list Kernel) (bases : list string) (b g : string) :
  Forall2 (λ k base, fileBase k = Ok base) l bases →
  (b, g) ∈ zip bases (gfxName <$> l) ↔ ∃ k, k ∈ l ∧ fileBase k = Ok b ∧ g = gfxName k.
Proof.
  induction 1 as [|k base l bases Hk _ IH]; simpl.
  - rewrite elem_of_nil. split; [done|]. intros (k & Hin & _). by apply elem_of_nil in Hin.
  - rewrite elem_of_cons, IH. split.
    + intros [[= -> ->]|(k' & Hin & Hb)].
      * exists k. rewrite elem_of_cons. eauto.
      * exists k'. rewrite elem_of_cons. tauto.
    + intros (k' & [->|Hin]%elem_of_cons & Hb & ->).
      * left. congruence.
      * right. eauto.
Qed.

(** X6. Without lazy loading the planner expects one assembly library
    for every assembly kernel: the library of the kernel's architecture
    when files are merged, a library named after the kernel's file and
    its architecture otherwise. It expects no other assembly library. *)
Theorem eager_asm_libraries (CxxCompiler : string) (kernels : list Kernel)
    (kernelHelperObjs : list Helper) (names : PlannedNames) :
  LazyLibraryLoading gp = false →
  plan CxxCompiler kernels kernelHelperObjs = Ok names →
  ∀ f, f ∈ asmLibFiles names ↔
    ∃ k base, k ∈ kernels ∧ KernelLanguage ops k = "Assembly"
      ∧ fileBase k = Ok base
      ∧ f = if MergeFiles gp
            then "TensileLibrary_" +:+ gfxName k +:+ ".co"
            else base +:+ "_" +:+ gfxName k +:+ ".co".
Proof.
  intros Hlazy. unfold buildObjectFileNames.
  destruct (foldO _ _ _) as [[asmNames asmArchs]|] eqn:Hfold; simpl; [|done].
  destruct (supportedCompiler CxxCompiler); simpl; [|done]. rewrite Hlazy.
  apply asmStep_fold in Hfold as (bases & Hmap & _ & Hpairs). simpl in Hpairs.
  pose proof (mapO_Ok _ _ _ Hmap) as Hall.
  assert (Hlisted : ∀ b g, (b, g) ∈ listed asmArchs ↔
            ∃ k, k ∈ kernels ∧ KernelLanguage ops k = "Assembly"
                 ∧ fileBase k = Ok b ∧ g = gfxName k).
  { intros b g. rewrite Hpairs, (zip_bases _ _ _ _ Hall).
    rewrite elem_of_nil. split.
    - intros [[]|(k & [Hasm Hin]%list_elem_of_filter & Hb & ->)]. eauto.
    - intros (k & Hin & Hasm & Hb & ->). right. exists k.
      rewrite list_elem_of_filter. eauto. }
  destruct (MergeFiles gp); intros [= <-] f; simpl.
  - rewrite list_elem_of_fmap. split.
    + intros (arch & -> & Harch). apply elem_of_list_of_set, listed_values in Harch.
      destruct Harch as (b & (k & Hin & Hasm & Hb & ->)%Hlisted). eauto 6.
    + intros (k & base & Hin & Hasm & Hb & ->). exists (gfxName k). split; [done|].
      apply elem_of_list_of_set, listed_values. exists base. apply Hlisted. eauto.
  - rewrite list_elem_of_bind. split.
    + intros ([b archs] & (g & -> & Hg)%list_elem_of_fmap & Hd).
      assert ((b, g) ∈ listed asmArchs) as (k & ? & ? & ? & ->)%Hlisted
        by (apply listed_elem; eauto).
      eauto 6.
    + intros (k & base & Hin & Hasm & Hb & ->).
      assert ((base, gfxName k) ∈ listed asmArchs) as (archs & Hd & Hg)%listed_elem
        by (apply Hlisted; eauto).
      exists (base, archs). split; [|done]. apply list_elem_of_fmap. eauto.
Qed.

Lemma archLib_spec (language : string) (k : Kernel) (c : string) :
  archLib ops language k = Some c ↔
  codeObjectFile ops k = Some c ∧ PyStr.contains "fallback" c = false
  ∧ KernelLanguage ops k = language.
Proof.
  unfold archLib. destruct (codeObjectFile ops k) as [c'|]; [|by intuition].
  destruct (PyStr.contains "fallback" c') eqn:Hc; simpl.
  - split; [done|]. intros ([= ->] & ? & _). congruence.
  - case_bool_decide; split; try done.
    + intros [= ->]. done.
    + by intros ([= ->] & _).
    + by intros (_ & _ & ?).
Qed.

Lemma fallbackLib_spec (k : Kernel) (c : string) :
  fallbackLib ops k = Some c ↔
  codeObjectFile ops k = Some c ∧ PyStr.contains "fallback" c = true.
Proof.
  unfold fallbackLib. destruct (codeObjectFile ops k) as [c'|]; [|by intuition].
  destruct (PyStr.contains "fallback" c') eqn:Hc.
  - split; [by intros [= ->]|by intros [[= ->] _]].
  - split; [done|]. intros [[= ->] ?]. congruence.
Qed.

Lemma concat_outcomes {X Y} (g : X → Outcome (list Y)) (l : list X) (ys : list (list Y))
    (y : Y) :
  Forall2 (λ x v, g x = Ok v) l ys →
  y ∈ concat ys ↔ ∃ x v, x ∈ l ∧ g x = Ok v ∧ y ∈ v.
Proof.
  induction 1 as [|x v l ys Hx _ IH]; simpl.
  - rewrite elem_of_nil. split; [done|]. intros (x & v & Hin & _).
    by apply elem_of_nil in Hin.
  - rewrite elem_of_app, IH. split.
    + intros [Hy|(x' & v' & Hin & Hg & Hy)].
      * exists x, v. rewrite elem_of_cons. eauto.
      * exists x', v'. rewrite elem_of_cons. eauto.
    + intros (x' & v' & [->|Hin]%elem_of_cons & Hg & Hy).
      * left. congruence.
      * right. eauto.
Qed.

(** X7. With lazy loading the planner expects, for every assembly kernel
    with a code object file that is not a fallback library, that file
    with the extension [.co]; it expects each of them once and no other
    assembly library. *)
Theorem lazy_asm_libraries (CxxCompiler : string) (kernels : list Kernel)
    (kernelHelperObjs : list Helper) (names : PlannedNames) :
  LazyLibraryLoading gp = true →
  plan CxxCompiler kernels kernelHelperObjs = Ok names →
  NoDup (asmLibFiles names)
  ∧ ∀ f, f ∈ asmLibFiles names ↔
      ∃ k c, k ∈ kernels ∧ codeObjectFile ops k = Some c
        ∧ PyStr.contains "fallback" c = false
        ∧ KernelLanguage ops k = "Assembly" ∧ f = c +:+ ".co".
Proof.
  intros Hlazy. unfold buildObjectFileNames.
  destruct (foldO _ _ _) as [[asmNames asmArchs]|]; simpl; [|done].
  destruct (supportedCompiler CxxCompiler); simpl; [|done]. rewrite Hlazy.
  destruct (mapO _ _) as [variants|]; simpl; [|done].
  intros [= <-]. simpl. split; [apply NoDup_list_of_set|].
  intros f. rewrite elem_of_list_of_set, list_elem_of_fmap. split.
  - intros (c & -> & (k & Hin & Hk)%list_elem_of_omap).
    apply archLib_spec in Hk as (? & ? & ?). eauto 8.
  - intros (k & c & Hin & Hc & Hfb & Hasm & ->). exists c. split; [done|].
    apply list_elem_of_omap. exists k. split; [done|]. by apply archLib_spec.
Qed.

(** X8. With lazy loading and one merged file the source libraries the
    planner expects are: [Kernels.so-000-<arch>.hsaco] for every source
    architecture; [<library>_<arch>.hsaco] for every fallback library of
    a kernel, whatever the kernel's language, and every source
    architecture; and the xnack variants of the code object file of every
    source kernel that is not in a fallback library. *)
Theorem lazy_source_libraries (CxxCompiler : string) (kernels : list Kernel)
    (kernelHelperObjs : list Helper) (names : PlannedNames) :
  LazyLibraryLoading gp = true →
  MergeFiles gp = true →
  NumMergedFiles gp ≤ 1 →
  plan CxxCompiler kernels kernelHelperObjs = Ok names →
  ∀ f, f ∈ sourceLibFiles names ↔
    (∃ arch, arch ∈ sourceArchs ∧ f = "Kernels.so-000-" +:+ arch +:+ ".hsaco")
    ∨ (∃ k c arch, k ∈ kernels ∧ codeObjectFile ops k = Some c
         ∧ PyStr.contains "fallback" c = true ∧ arch ∈ sourceArchs
         ∧ f = c +:+ "_" +:+ arch +:+ ".hsaco")
    ∨ (∃ k c variants, k ∈ kernels ∧ codeObjectFile ops k = Some c
         ∧ PyStr.contains "fallback" c = false
         ∧ KernelLanguage ops k = "Source"
         ∧ Planner.addxnack sourceArchs c ".hsaco" = Ok variants
         ∧ f ∈ variants).
Proof.
  intros Hlazy Hmerge Hone. unfold buildObjectFileNames.
  destruct (foldO _ _ _) as [[asmNames asmArchs]|]; simpl; [|done].
  destruct (supportedCompiler CxxCompiler); simpl; [|done]. rewrite Hlazy, Hmerge. simpl.
  destruct (decide (NumMergedFiles gp > 1)); [lia|].
  destruct (mapO _ _) as [variants|] eqn:Hmap; simpl; [|done].
  apply mapO_Ok in Hmap.
  intros [= <-] f. simpl. rewrite !elem_of_app, elem_of_list_of_set.
  rewrite (concat_outcomes _ _ _ _ Hmap), list_elem_of_bind, list_elem_of_fmap.
  split.
  - intros [[(c & (arch & -> & Harch)%list_elem_of_fmap & Hc)|(arch & -> & Harch)]
           |(c & v & (k & Hin & Hk)%list_elem_of_omap & Hv & Hf)].
    + apply elem_of_list_of_set, list_elem_of_omap in Hc as (k & Hin & Hk).
      apply fallbackLib_spec in Hk as [? ?]. right. left. eauto 10.
    + left. eauto.
    + apply archLib_spec in Hk as (? & ? & ?). right. right. eauto 10.
  - intros [(arch & Harch & ->)
           |[(k & c & arch & Hin & Hc & Hfb & Harch & ->)
            |(k & c & v & Hin & Hc & Hfb & Hsrc & Hv & Hf)]].
    + left. right. eauto.
    + left. left. exists c. split; [apply list_elem_of_fmap; eauto|].
      apply elem_of_list_of_set, list_elem_of_omap. exists k. split; [done|].
      by apply fallbackLib_spec.
    + right. exists c, v. split; [|done].
      apply list_elem_of_omap. exists k. split; [done|]. by apply archLib_spec.
Qed.

Lemma addxnack_outcome (name ext : string) :
  match Planner.addxnack sourceArchs name ext with
  | Ok _ => PyStr.re_search_gfx name ≠ None
  | Raise e => e = AttributeError ∧ PyStr.re_search_gfx name = None
  end.
Proof.
  unfold Planner.addxnack. destruct (PyStr.re_search_gfx name); [|done].
  by destruct (bool_decide _).
Qed.

(** X9. When the planner returns or raises. It returns when the
    assembly writer names every assembly kernel, the compiler is a
    supported one and, with lazy loading, the code object file of every
    source kernel outside the fallback libraries has an architecture in
    its name. It raises the writer's exception first, [RuntimeError] for
    an unknown compiler next, and [AttributeError] for a code object file
    without an architecture last. *)
Theorem planner_outcome (CxxCompiler : string) (kernels : list Kernel)
    (kernelHelperObjs : list Helper) :
  match plan CxxCompiler kernels kernelHelperObjs with
  | Ok _ =>
      (∃ bases, mapO fileBase (assembly kernels) = Ok bases)
      ∧ supportedCompiler CxxCompiler = true
      ∧ (LazyLibraryLoading gp = true →
         ∀ k c, k ∈ kernels → archLib ops "Source" k = Some c →
                PyStr.re_search_gfx c ≠ None)
  | Raise e =>
      mapO fileBase (assembly kernels) = Raise e
      ∨ ((∃ bases, mapO fileBase (assembly kernels) = Ok bases)
         ∧ ((supportedCompiler CxxCompiler = false ∧ e = RuntimeError)
            ∨ (supportedCompiler CxxCompiler = true
               ∧ LazyLibraryLoading gp = true ∧ e = AttributeError
               ∧ ∃ k c, k ∈ kernels ∧ archLib ops "Source" k = Some c
                        ∧ PyStr.re_search_gfx c = None)))
  end.
Proof.
  unfold buildObjectFileNames.
  destruct (mapO fileBase (assembly kernels)) as [bases|e] eqn:Hbases.
  2: { by rewrite (asmStep_raise _ _ _ Hbases); left. }
  destruct (asmStep_total _ _ ([], []) Hbases) as [[asmNames asmArchs] ->]. simpl.
  destruct (supportedCompiler CxxCompiler); simpl; [|right; eauto].
  destruct (LazyLibraryLoading gp) eqn:Hlazy.
  2: { destruct (MergeFiles gp); (split; [eauto|split; [done|done]]). }
  destruct (mapO _ (omap _ kernels)) as [variants|e] eqn:Hmap; simpl.
  - split; [eauto|]. split; [done|]. intros _ k c Hin Hk.
    apply mapO_Ok in Hmap.
    assert (Hc : c ∈ omap (archLib ops "Source") kernels)
      by (apply list_elem_of_omap; eauto).
    apply list_elem_of_lookup in Hc as [i Hi].
    destruct (Forall2_lookup_l _ _ _ _ _ Hmap Hi) as (v & _ & Hv).
    pose proof (addxnack_outcome c ".hsaco") as Hout. by rewrite Hv in Hout.
  - right. split; [eauto|]. right. split; [done|]. split; [done|].
    assert (Hsome : ∃ c, c ∈ omap (archLib ops "Source") kernels
              ∧ Planner.addxnack sourceArchs c ".hsaco" = Raise e).
    { clear -Hmap. induction (omap _ kernels) as [|c l IH]; [done|].
      simpl in Hmap. destruct (Planner.addxnack sourceArchs c ".hsaco") eqn:Hc; simpl in Hmap.
      - destruct (mapO _ l); simpl in Hmap; [done|]. injection Hmap as ->.
        destruct IH as (c' & ? & ?); [done|]. exists c'. rewrite elem_of_cons. eauto.
      - injection Hmap as ->. exists c. rewrite elem_of_cons. eauto. }
    destruct Hsome as (c & (k & Hin & Hk)%list_elem_of_omap & Hc).
    pose proof (addxnack_outcome c ".hsaco") as Hout. rewrite Hc in Hout.
    destruct Hout as [-> Hnone]. eauto 8.
Qed.

(** X10. The metadata files the planner expects: the one library file
    [TensileLibrary] when the architectures are neither separate nor
    loaded lazily, and for every master library its own file (with the
    prefix [TensileLibrary_lazy_] under lazy loading) and one file for
    each of its lazy libraries, all in the [library] directory and each
    of these at most once. *)
Theorem metadata_paths (libraryFormat prefixDir : string) (names : PlannedNames)
    (masterLibraries : list (string * Lib)) :
  let libDir := path_join os prefixDir "library" in
  let ext := if decide (libraryFormat = "yaml") then ".yaml" else ".dat" in
  let paths :=
    libMetadataPaths
      (buildObjectFilePaths gp os lazyLibraryNames libraryFormat prefixDir names
         masterLibraries) in
  (∀ p, p ∈ paths ↔
     (SeparateArchitectures gp = false ∧ LazyLibraryLoading gp = false
      ∧ p = path_join os libDir ("TensileLibrary" +:+ ext))
     ∨ ∃ arch lib, (arch, lib) ∈ masterLibraries
         ∧ (p = path_join os libDir
                  ((if LazyLibraryLoading gp then "TensileLibrary_lazy_"
                    else "TensileLibrary_") +:+ arch +:+ ext)
            ∨ ∃ name, name ∈ lazyLibraryNames lib
                      ∧ p = path_join os libDir (name +:+ ext)))
  ∧ (SeparateArchitectures gp = true ∨ LazyLibraryLoading gp = true → NoDup paths).
Proof.
  intros libDir ext paths. subst paths. unfold buildObjectFilePaths. simpl.
  fold libDir. fold ext. split.
  - intros p. rewrite elem_of_app, elem_of_list_of_set, list_elem_of_bind. split.
    + intros [Hglobal|([arch lib] & Hp & Hin)].
      * left. destruct (SeparateArchitectures gp), (LazyLibraryLoading gp);
          simpl in Hglobal; try by apply elem_of_nil in Hglobal.
        by apply list_elem_of_singleton in Hglobal.
      * right. exists arch, lib. split; [done|].
        apply elem_of_cons in Hp as [->|(name & -> & Hname)%list_elem_of_fmap]; eauto.
    + intros [(-> & -> & ->)|(arch & lib & Hin & Hp)].
      * left. simpl. by apply list_elem_of_singleton.
      * right. exists (arch, lib). split; [|done]. rewrite elem_of_cons, list_elem_of_fmap.
        destruct Hp as [->|(name & Hname & ->)]; eauto.
  - intros Hmode.
    assert (negb (SeparateArchitectures gp) && negb (LazyLibraryLoading gp) = false) as ->
      by (destruct Hmode as [-> | ->]; [done|by rewrite andb_false_r]).
    apply NoDup_list_of_set.
Qed.

End PlanFacts.

(** ** Validating the lazy libraries *)

Section GroupBy.

Context {A : Type}.
Variable key : A → string.

Lemma groupby_cons (x : A) (l : list A) :
  groupby key (x :: l) =
  match groupby key l with
  | (k, g) :: rest =>
      if decide (key x = k) then (k, x :: g) :: rest
      else (key x, [x]) :: (k, g) :: rest
  | [] => [(key x, [x])]
  end.
Proof. reflexivity. Qed.

Lemma groupby_head (x : A) (l : list A) :
  ∃ g rest, groupby key (x :: l) = (key x, x :: g) :: rest.
Proof.
  rewrite groupby_cons. destruct (groupby key l) as [|[k g] rest]; [by eauto|].
  destruct (decide (key x = k)) as [<-|]; eauto.
Qed.

Lemma groupby_run (name : string) (run : list A) :
  run ≠ [] → Forall (λ x, key x = name) run → groupby key run = [(name, run)].
Proof.
  induction run as [|x run IH]; [done|]. intros _ Hall.
  apply Forall_cons in Hall as [Hx Hall]. rewrite groupby_cons.
  destruct run as [|y run]; [by rewrite <- Hx|].
  rewrite IH by done. by rewrite decide_True.
Qed.

Lemma groupby_app (l1 l2 : list A) :
  (∀ x y, last l1 = Some x → head l2 = Some y → key x ≠ key y) →
  groupby key (l1 ++ l2) = groupby key l1 ++ groupby key l2.
Proof.
  induction l1 as [|x l1 IH]; [done|]. intros Hb.
  rewrite <- app_comm_cons, !groupby_cons. destruct l1 as [|y l1].
  - simpl. destruct l2 as [|z l2]; [done|].
    destruct (groupby_head z l2) as (g & rest & ->).
    by rewrite decide_False by (by apply Hb).
  - rewrite IH by (intros x' y' Hx'; by apply Hb).
    destruct (groupby_head y l1) as (g & rest & ->). simpl.
    by destruct (decide _).
Qed.

Lemma groupby_keys (l : list A) (k : string) :
  k ∈ (groupby key l).*1 ↔ ∃ x, x ∈ l ∧ key x = k.
Proof.
  induction l as [|x l IH].
  - simpl. rewrite elem_of_nil. split; [done|]. intros (x & Hx & _).
    by apply elem_of_nil in Hx.
  - assert (Hcons : k ∈ (groupby key (x :: l)).*1 ↔ k = key x ∨ k ∈ (groupby key l).*1).
    { rewrite groupby_cons. destruct (groupby key l) as [|[k' g] rest].
      - simpl. by rewrite !elem_of_cons.
      - destruct (decide (key x = k')) as [<-|Hx]; simpl; rewrite !elem_of_cons; tauto. }
    rewrite Hcons, IH. split.
    + intros [->|(y & Hy & Hk)]; [exists x|exists y]; rewrite elem_of_cons; eauto.
    + intros (y & [->|Hy]%elem_of_cons & Hk); eauto.
Qed.

End GroupBy.

Section DictOfPairs.

Context {V : Type}.
Implicit Types (ps : list (string * V)) (d : list (string * V)).

Lemma fold_set_keys ps d (k : string) :
  k ∈ Dict.keys (foldl (λ d '(k, v), Dict.set k v d) d ps) ↔ k ∈ Dict.keys d ∨ k ∈ ps.*1.
Proof.
  revert d. induction ps as [|[k' v'] ps IH]; intros d; simpl.
  - rewrite elem_of_nil. tauto.
  - rewrite IH, elem_of_cons.
    assert (k ∈ Dict.keys (Dict.set k' v' d) ↔ k = k' ∨ k ∈ Dict.keys d) as ->; [|tauto].
    destruct (decide (k' ∈ Dict.keys d)) as [Hin|Hnot].
    + rewrite DictFacts.keys_set_present by done. split; [tauto|]. by intros [->|].
    + rewrite DictFacts.keys_set_absent, elem_of_app, list_elem_of_singleton by done. tauto.
Qed.

Lemma fold_set_get_other ps d (k : string) :
  k ∉ ps.*1 →
  Dict.get k (foldl (λ d '(k, v), Dict.set k v d) d ps) = Dict.get k d.
Proof.
  revert d. induction ps as [|[k' v'] ps IH]; intros d; simpl; [done|].
  intros [Hne Hnot]%not_elem_of_cons. rewrite IH by done.
  by apply DictFacts.get_set_ne.
Qed.

(** A dictionary built from pairs holds, under a key, the value of the
    last pair with that key. *)
Lemma get_dict_of_pairs_last (a b : list (string * V)) (k : string) (v : V) :
  k ∉ b.*1 → Dict.get k (dict_of_pairs (a ++ (k, v) :: b)) = Some v.
Proof.
  intros Hnot. unfold dict_of_pairs. rewrite foldl_app. simpl.
  rewrite fold_set_get_other by done. apply DictFacts.get_set_eq.
Qed.

Lemma get_dict_of_pairs_Some ps (k : string) :
  is_Some (Dict.get k (dict_of_pairs ps)) ↔ k ∈ ps.*1.
Proof.
  rewrite DictFacts.get_Some_keys. unfold dict_of_pairs. rewrite fold_set_keys.
  unfold Dict.keys. simpl. rewrite elem_of_nil. tauto.
Qed.

End DictOfPairs.

Section ValidateFacts.

Context {Kernel Key Lib : Type}.
Variable ops : KernelOps Kernel Key.
Variable kernelWriterAssembly : KernelWriter Kernel.
Variable lazyLibraries : Lib → list (string * list Kernel).

(** [len(uniqueKernelsInLib)] *)
Local Abbreviation namesIn solutions :=
  (size (list_to_set (getKernelName kernelWriterAssembly <$> solutions) : gset string)).
Local Abbreviation check :=
  (checkLazyLibraries kernelWriterAssembly).

Lemma keyedKernels_cons (k : Kernel) (kernels : list Kernel) :
  keyedKernels ops (k :: kernels) =
  match codeObjectFile ops k, keyedKernels ops kernels with
  | Some c, Some keyed => Some ((c, k) :: keyed)
  | _, _ => None
  end.
Proof. reflexivity. Qed.

Lemma keyedKernels_None (kernels : list Kernel) :
  keyedKernels ops kernels = None ↔ ∃ k, k ∈ kernels ∧ codeObjectFile ops k = None.
Proof.
  induction kernels as [|k kernels IH].
  - split; [done|]. intros (k & Hk & _). by apply elem_of_nil in Hk.
  - rewrite keyedKernels_cons. setoid_rewrite elem_of_cons.
    destruct (codeObjectFile ops k) as [c|] eqn:Hc.
    + destruct (keyedKernels ops kernels) as [ks|].
      * split; [done|]. intros (k' & [->|Hin] & Hk'); [congruence|].
        assert (Some ks = None); [|done]. apply IH. eauto.
      * split; [|done]. intros _. destruct (proj1 IH eq_refl) as (k' & ? & ?). eauto.
    + split; [|done]. eauto.
Qed.

Lemma keyedKernels_app (a b : list Kernel) :
  keyedKernels ops (a ++ b) =
  match keyedKernels ops a, keyedKernels ops b with
  | Some ka, Some kb => Some (ka ++ kb)
  | _, _ => None
  end.
Proof.
  induction a as [|k a IH]; simpl.
  - by destruct (keyedKernels ops b).
  - rewrite IH. destruct (codeObjectFile ops k); [|done].
    by destruct (keyedKernels ops a), (keyedKernels ops b).
Qed.

Lemma keyedKernels_elem (kernels : list Kernel) (ks : list (string * Kernel))
    (c : string) (k : Kernel) :
  keyedKernels ops kernels = Some ks →
  (c, k) ∈ ks ↔ k ∈ kernels ∧ codeObjectFile ops k = Some c.
Proof.
  revert ks. induction kernels as [|k' kernels IH]; intros ks.
  - intros [= <-]. rewrite !elem_of_nil. tauto.
  - rewrite keyedKernels_cons. destruct (codeObjectFile ops k') as [c'|] eqn:Hc'; [|done].
    destruct (keyedKernels ops kernels) as [ks'|]; [|done]. intros [= <-].
    rewrite !elem_of_cons, (IH ks' eq_refl). split.
    + intros [[= -> ->]|[? ?]]; eauto.
    + intros [[->|?] Hc]; [left; congruence|eauto].
Qed.

Lemma keyedKernels_last (kernels : list Kernel) (ks : list (string * Kernel))
    (p : string * Kernel) :
  keyedKernels ops kernels = Some ks → last ks = Some p →
  last kernels = Some p.2 ∧ codeObjectFile ops p.2 = Some p.1.
Proof.
  revert ks. induction kernels as [|k kernels IH]; intros ks.
  - by intros [= <-].
  - rewrite keyedKernels_cons. destruct (codeObjectFile ops k) as [c|] eqn:Hc; [|done].
    destruct (keyedKernels ops kernels) as [ks'|] eqn:Hks; [|done]. intros [= <-].
    destruct kernels as [|k' kernels].
    + injection Hks as <-. by intros [= <-].
    + rewrite keyedKernels_cons in Hks.
      destruct (codeObjectFile ops k'); [|done].
      destruct (keyedKernels ops kernels); [|done]. injection Hks as <-.
      intros Hlast. by apply (IH _ eq_refl).
Qed.

Lemma keyedKernels_run (name : string) (run : list Kernel) :
  Forall (λ k, codeObjectFile ops k = Some name) run →
  keyedKernels ops run = Some ((λ k, (name, k)) <$> run).
Proof.
  induction 1 as [|k run Hk _ IH]; [done|].
  by rewrite keyedKernels_cons, Hk, IH.
Qed.

(** X11. The kernels listed under a code object file are those of its
    last run only: when the kernels of a file do not stand together, the
    earlier ones are forgotten. [run] is a maximal stretch of kernels of
    the file [name], and no kernel after it belongs to that file. *)
Theorem last_run_counts (pre run post : list Kernel) (name : string) :
  (∀ k, k ∈ pre ++ run ++ post → is_Some (codeObjectFile ops k)) →
  run ≠ [] →
  Forall (λ k, codeObjectFile ops k = Some name) run →
  Forall (λ k, codeObjectFile ops k ≠ Some name) post →
  (∀ k, last pre = Some k → codeObjectFile ops k ≠ Some name) →
  ∃ keyed, keyedKernels ops (pre ++ run ++ post) = Some keyed
    ∧ Dict.get name (kernelsByCodeObjectFiles keyed) = Some run.
Proof.
  intros Hall Hrun Hname Hpost Hpre.
  assert (Hsome : ∀ l, l ⊆ pre ++ run ++ post → ∃ ks, keyedKernels ops l = Some ks).
  { intros l Hl. destruct (keyedKernels ops l) as [ks|] eqn:Hks; [by eauto|].
    apply keyedKernels_None in Hks as (k & Hk & Hnone).
    destruct (Hall k (Hl _ Hk)) as [c Hc]. congruence. }
  destruct (Hsome pre) as [kp Hkp]; [set_solver|].
  destruct (Hsome post) as [kq Hkq]; [set_solver|].
  pose proof (keyedKernels_run name run Hname) as Hkr.
  set (kr := (λ k, (name, k)) <$> run) in *.
  exists (kp ++ kr ++ kq). split.
  { by rewrite !keyedKernels_app, Hkp, Hkr, Hkq. }
  assert (Hkq_name : ∀ q, q ∈ kq → q.1 ≠ name).
  { intros [c k] Hq Hc. simpl in Hc. subst c.
    apply (keyedKernels_elem _ _ _ _ Hkq) in Hq as [Hin Hk].
    rewrite Forall_forall in Hpost. by apply (Hpost k). }
  assert (Hkr_name : Forall (λ p, p.1 = name) kr).
  { subst kr. apply Forall_fmap. by apply Forall_true. }
  assert (Hkr_ne : kr ≠ []).
  { subst kr. by destruct run. }
  unfold kernelsByCodeObjectFiles.
  rewrite (groupby_app fst kp).
  2: { intros p q Hp Hq. destruct (keyedKernels_last _ _ _ Hkp Hp) as [Hlast Hc].
       assert (q.1 = name) as ->.
       { destruct kr as [|r kr']; [done|]. simpl in Hq. injection Hq as <-.
         by apply Forall_cons in Hkr_name as [? _]. }
       intros Heq. apply (Hpre _ Hlast). by rewrite Hc, Heq. }
  rewrite (groupby_app fst kr).
  2: { intros p q Hp Hq.
       assert (p.1 = name) as ->.
       { rewrite Forall_forall in Hkr_name. apply Hkr_name.
         rewrite last_lookup in Hp. by eapply list_elem_of_lookup_2. }
       intros Heq. apply (Hkq_name q); [|done].
       destruct kq; [done|]. injection Hq as <-. by left. }
  rewrite (groupby_run fst name kr) by done.
  rewrite !fmap_app. simpl.
  rewrite get_dict_of_pairs_last.
  - f_equal. subst kr. rewrite <- list_fmap_compose. apply list_fmap_id.
  - rewrite <- list_fmap_compose. intros Hin.
    change (name ∈ (groupby fst kq).*1) in Hin.
    apply groupby_keys in Hin as (q & Hq & Hc). by apply (Hkq_name q).
Qed.

Lemma check_spec (d : list (string * list Kernel)) (libs : list (string * list Kernel))
    (ok : bool) (printed : list string) :
  ∃ new, (check d libs ok printed).1 = printed ++ new
    ∧ (∀ line, line ∈ new →
         ∃ name sols inFile, (name, sols) ∈ libs ∧ Dict.get name d = Some inFile
           ∧ namesIn sols ≠ length inFile
           ∧ line = sizeMessage name (namesIn sols) (length inFile))
    ∧ match (check d libs ok printed).2 with
      | None =>
          ok = true ∧ new = []
          ∧ ∀ name sols, (name, sols) ∈ libs →
              ∃ inFile, Dict.get name d = Some inFile ∧ namesIn sols = length inFile
      | Some InconsistentSizes =>
          (ok = false ∨ new ≠ [])
          ∧ ∀ name sols, (name, sols) ∈ libs →
              ∃ inFile, Dict.get name d = Some inFile
                ∧ (namesIn sols ≠ length inFile →
                   sizeMessage name (namesIn sols) (length inFile) ∈ new)
      | Some (KeyError key) => ∃ sols, (key, sols) ∈ libs ∧ Dict.get key d = None
      end.
Proof.
  revert ok printed. induction libs as [|[name sols] libs IH]; intros ok printed.
  - exists []. simpl. rewrite app_nil_r. split; [done|]. split.
    { by intros line ?%elem_of_nil. }
    destruct ok.
    + split; [done|]. split; [done|]. by intros ? ? ?%elem_of_nil.
    + split; [by left|]. by intros ? ? ?%elem_of_nil.
  - cbn [checkLazyLibraries]. destruct (Dict.get name d) as [inFile|] eqn:Hget.
    2: { exists []. simpl. rewrite app_nil_r. split; [done|]. split.
         { by intros line ?%elem_of_nil. }
         exists sols. split; [by left|done]. }
    destruct (decide (namesIn sols ≠ length inFile)) as [Hbad|Hgood].
    + destruct (IH false (printed ++ [sizeMessage name (namesIn sols) (length inFile)]))
        as (new & Hnew & Hlines & Hres).
      exists (sizeMessage name (namesIn sols) (length inFile) :: new).
      split; [by rewrite Hnew, <- app_assoc|]. split.
      { intros line [->|Hline]%elem_of_cons.
        - exists name, sols, inFile. split; [by left|done].
        - destruct (Hlines _ Hline) as (n & s & f & Hin & ?).
          exists n, s, f. split; [by right|done]. }
      destruct (check d libs false _).2 as [[key|]|].
      * destruct Hres as (s & Hin & ?). exists s. split; [by right|done].
      * destruct Hres as [_ Hall]. split; [by right|].
        intros n s [[= -> ->]|Hin]%elem_of_cons.
        -- exists inFile. split; [done|]. intros _. by left.
        -- destruct (Hall _ _ Hin) as (f & ? & Hmsg). exists f. split; [done|].
           intros ?. right. by apply Hmsg.
      * by destruct Hres as [? _].
    + destruct (IH ok printed) as (new & Hnew & Hlines & Hres).
      exists new. split; [done|]. split.
      { intros line Hline. destruct (Hlines _ Hline) as (n & s & f & Hin & ?).
        exists n, s, f. split; [by right|done]. }
      destruct (check d libs ok printed).2 as [[key|]|].
      * destruct Hres as (s & Hin & ?). exists s. split; [by right|done].
      * destruct Hres as [Hor Hall]. split; [done|].
        intros n s [[= -> ->]|Hin]%elem_of_cons; [|by apply Hall].
        exists inFile. split; [done|]. intros ?. done.
      * destruct Hres as (-> & -> & Hall). split; [done|]. split; [done|].
        intros n s [[= -> ->]|Hin]%elem_of_cons; [|by apply Hall].
        exists inFile. split; [done|]. by apply dec_stable.
Qed.

Lemma kernelsByCodeObjectFiles_keys (kernels : list Kernel)
    (keyed : list (string * Kernel)) (name : string) :
  keyedKernels ops kernels = Some keyed →
  Dict.get name (kernelsByCodeObjectFiles keyed) = None ↔
  ∀ k, k ∈ kernels → codeObjectFile ops k ≠ Some name.
Proof.
  intros Hks. rewrite eq_None_not_Some. unfold kernelsByCodeObjectFiles.
  rewrite get_dict_of_pairs_Some, <- list_fmap_compose.
  change (fst ∘ _) with (fst : string * list (string * Kernel) → string).
  rewrite groupby_keys. split.
  - intros Hno k Hin Hc. apply Hno. exists (name, k). split; [|done].
    by apply (keyedKernels_elem _ _ _ _ Hks).
  - intros Hno ([c k] & Hin & Hc). simpl in Hc. subst c.
    apply (keyedKernels_elem _ _ _ _ Hks) in Hin as [Hin Hc]. by apply (Hno k).
Qed.

(** X12. How validating the lazy libraries ends. It returns only when it
    has printed nothing, every kernel has a code object file and every
    lazy library has as many distinct kernel names as kernels are listed
    under its name. Its assertion fails only after a line was printed for
    every library whose numbers differ. It raises [KeyError] for a kernel
    without code object file, before anything is printed, and for a lazy
    library that is the code object file of no kernel. Every line printed
    reports a library whose numbers differ. *)
Theorem validateLibrary_outcome (masterLibraries : list (string * Lib))
    (kernels : list Kernel) :
  let libs := masterLibraries ≫= (λ '(_, lib), lazyLibraries lib) in
  let result :=
    validateLibrary ops kernelWriterAssembly lazyLibraries masterLibraries kernels in
  let listedUnder name :=
    match keyedKernels ops kernels with
    | Some keyed => Dict.get name (kernelsByCodeObjectFiles keyed)
    | None => None
    end in
  match result.2 with
  | None =>
      result.1 = []
      ∧ (∀ k, k ∈ kernels → is_Some (codeObjectFile ops k))
      ∧ ∀ name sols, (name, sols) ∈ libs →
          ∃ inFile, listedUnder name = Some inFile ∧ namesIn sols = length inFile
  | Some InconsistentSizes =>
      result.1 ≠ []
      ∧ ∀ name sols, (name, sols) ∈ libs →
          ∃ inFile, listedUnder name = Some inFile
            ∧ (namesIn sols ≠ length inFile →
               sizeMessage name (namesIn sols) (length inFile) ∈ result.1)
  | Some (KeyError key) =>
      (key = "codeObjectFile" ∧ result.1 = []
       ∧ ∃ k, k ∈ kernels ∧ codeObjectFile ops k = None)
      ∨ (∃ sols, (key, sols) ∈ libs
           ∧ ∀ k, k ∈ kernels → codeObjectFile ops k ≠ Some key)
  end
  ∧ ∀ line, line ∈ result.1 →
      ∃ name sols inFile, (name, sols) ∈ libs ∧ listedUnder name = Some inFile
        ∧ namesIn sols ≠ length inFile
        ∧ line = sizeMessage name (namesIn sols) (length inFile).
Proof.
  intros libs result listedUnder. subst result listedUnder. unfold validateLibrary.
  destruct (keyedKernels ops kernels) as [keyed|] eqn:Hks.
  2: { simpl. split; [|by intros line ?%elem_of_nil].
       left. split; [done|]. split; [done|]. by apply keyedKernels_None. }
  fold libs.
  destruct (check_spec (kernelsByCodeObjectFiles keyed) libs true [])
    as (new & Hnew & Hlines & Hres).
  simpl in Hnew. rewrite Hnew. split; [|done].
  destruct (check _ libs true []).2 as [[key|]|].
  - right. destruct Hres as (sols & Hin & Hget). exists sols. split; [done|].
    by apply (kernelsByCodeObjectFiles_keys kernels keyed).
  - destruct Hres as [[?|Hne] Hall]; [done|]. done.
  - destruct Hres as (_ & -> & Hall). split; [done|]. split; [|done].
    intros k Hin. destruct (codeObjectFile ops k) eqn:Hc; [done|].
    assert (keyedKernels ops kernels = None) by (apply keyedKernels_None; eauto).
    congruence.
Qed.

End ValidateFacts.

(** ** More on the kernel extraction *)

Lemma fromkeys_nothing {A K} (f : A → K) (eqb : A → A → bool)
    (eqb_key : ∀ a b, eqb a b = true ↔ f a = f b) (seen l : list A) :
  (∀ x, x ∈ l → f x ∈ f <$> seen) → dict_fromkeys_from eqb seen l = [].
Proof.
  induction l as [|x l IH]; intros Hseen; simpl; [done|].
  assert (existsb (λ k, eqb k x) seen = true) as ->.
  { apply (stored_key f eqb eqb_key). apply Hseen. by left. }
  apply IH. intros y Hy. apply Hseen. by right.
Qed.

Section ExtractionMore.

Context {Solution Kernel Helper Key : Type} `{Countable Key}.
Variable getKernels : Solution → list Kernel.
Variable getHelperKernelObjects : Solution → list Helper.
Variable getKeyNoInternalArgs : Kernel → Key.
Variable helper_eqb : Helper → Helper → bool.
Variable getKernelName : Helper → string.

Local Abbreviation extract :=
  (generateKernelObjectsFromSolutions getKernels getHelperKernelObjects
     getKeyNoInternalArgs helper_eqb getKernelName).
Local Abbreviation key := getKeyNoInternalArgs.

Lemma helper_names_fold (l : list Helper) (names : gset string) (n : string) :
  n ∈ foldl (λ names ko, names ∪ {[getKernelName ko]}) names l
  ↔ n ∈ names ∨ ∃ h, h ∈ l ∧ getKernelName h = n.
Proof.
  revert names. induction l as [|x l IH]; intros names; simpl.
  - split; [auto|]. intros [?|(h & Hh & _)]; [done|]. by apply elem_of_nil in Hh.
  - rewrite IH, elem_of_union, elem_of_singleton. split.
    + intros [[?| ->]|(h & ? & ?)]; [by left| |].
      * right. exists x. split; [by left|done].
      * right. exists h. split; [by right|done].
    + intros [?|(h & [-> |?]%elem_of_cons & ?)]; eauto.
Qed.

Lemma extract_names_fold (solutions : list Solution) (st : ExtractState) (n : string) :
  n ∈ st_kernelHelperNames
        (foldl (extractStep getKernels getHelperKernelObjects key getKernelName)
               st solutions)
  ↔ n ∈ st_kernelHelperNames st
    ∨ ∃ h, h ∈ solutions ≫= getHelperKernelObjects ∧ getKernelName h = n.
Proof.
  revert st. induction solutions as [|s solutions IH]; intros st.
  - simpl. split; [auto|]. intros [?|(h & Hh & _)]; [done|]. by apply elem_of_nil in Hh.
  - cbn [foldl]. rewrite IH. unfold extractStep at 1.
    destruct (addKernels _ _ _) as [kernels names].
    cbn [st_kernelHelperNames]. rewrite helper_names_fold, bind_cons.
    setoid_rewrite elem_of_app. split.
    + intros [[?|(h & ? & ?)]|(h & ? & ?)]; eauto.
    + intros [?|(h & [?|?] & ?)]; eauto.
Qed.

Lemma extracted_names (solutions : list Solution) (n : string) :
  n ∈ (extract solutions).2
  ↔ ∃ h, h ∈ solutions ≫= getHelperKernelObjects ∧ getKernelName h = n.
Proof.
  unfold generateKernelObjectsFromSolutions. cbn [snd].
  rewrite extract_names_fold. cbn [st_kernelHelperNames].
  split; [|by right]. intros [?%not_elem_of_empty|?]; done.
Qed.

(** X13. The set of helper names returned by the extraction holds the
    name of every helper object of every solution, and nothing else; in
    particular it holds the name of every helper object that is kept. *)
Theorem helper_names_cover (solutions : list Solution) :
  let extracted :=
    generateKernelObjectsFromSolutions getKernels getHelperKernelObjects
      getKeyNoInternalArgs helper_eqb getKernelName solutions in
  (∀ n, n ∈ extracted.2
        ↔ ∃ h, h ∈ solutions ≫= getHelperKernelObjects ∧ getKernelName h = n)
  ∧ (∀ h, h ∈ extracted.1.2 → getKernelName h ∈ extracted.2).
Proof.
  cbv zeta. split; [apply extracted_names|]. intros h Hh.
  apply extracted_names. exists h. split; [|done].
  rewrite extracted_helpers in Hh.
  eapply elem_of_sublist; [done|]. apply fromkeys_sublist.
Qed.

(** X14. The extraction is incremental: with more solutions at the end,
    the kernels and helper objects extracted before stay at the front, in
    their order, and the helper names stay. Solutions whose kernels all
    have keys met before add no kernel. *)
Theorem extraction_incremental (solutions more : list Solution) :
  let before :=
    generateKernelObjectsFromSolutions getKernels getHelperKernelObjects
      getKeyNoInternalArgs helper_eqb getKernelName solutions in
  let after :=
    generateKernelObjectsFromSolutions getKernels getHelperKernelObjects
      getKeyNoInternalArgs helper_eqb getKernelName (solutions ++ more) in
  before.1.1 `prefix_of` after.1.1
  ∧ before.1.2 `prefix_of` after.1.2
  ∧ before.2 ⊆ after.2
  ∧ ((∀ k, k ∈ more ≫= getKernels →
           ∃ k', k' ∈ solutions ≫= getKernels ∧ key k' = key k) →
     after.1.1 = before.1.1).
Proof.
  cbv zeta. rewrite !extracted_kernels, !extracted_helpers. unfold dict_fromkeys.
  rewrite !bind_app, !fromkeys_app.
  split; [eexists; reflexivity|]. split; [eexists; reflexivity|]. split.
  - intros n. rewrite !extracted_names, bind_app.
    intros (h & Hh & Hn). exists h. rewrite elem_of_app. eauto.
  - intros Hseen.
    rewrite (fromkeys_nothing key _ (sameKey_key key) _ (more ≫= getKernels));
      [by rewrite app_nil_r|].
    intros k Hk. destruct (Hseen k Hk) as (k' & Hk' & <-).
    by apply (fromkeys_cover key _ (sameKey_key key) []).
Qed.

End ExtractionMore.

(** ** More on the library merge engine *)

Section MergeMore.

Context {Lib : Type}.
Variable gp : GlobalParameters.
Variable merge : Lib → Lib → option Z → Lib * Lib * Z.
Variable setVersion : string → Lib → Lib.

Local Abbreviation sameName := (λ a b : string, bool_decide (a = b)).
Local Abbreviation named :=
  (λ libraries : list (ParsedLogic Lib),
     filter (λ a, a ≠ "") (architectureName <$> libraries)).

Lemma seen_name (seen : list string) (x : string) :
  existsb (λ k, sameName k x) seen = true ↔ x ∈ seen.
Proof.
  rewrite (stored_key (λ s : string, s) sameName (λ a b, bool_decide_eq_true (a = b))).
  by rewrite list_fmap_id.
Qed.

Lemma load_keys (version : string) (libraries : list (ParsedLogic Lib))
    (st : MergeState Lib) :
  (SeparateArchitectures gp || LazyLibraryLoading gp) = true →
  let st' := foldl (loadStep gp merge setVersion version) st libraries in
  Dict.keys (masterLibraries st')
  = Dict.keys (masterLibraries st)
      ++ dict_fromkeys_from sameName (Dict.keys (masterLibraries st)) (named libraries)
  ∧ fullMasterLibrary st' = fullMasterLibrary st.
Proof.
  intros Hmode. revert st. induction libraries as [|library libraries IH]; intros st.
  - simpl. by rewrite app_nil_r.
  - cbn [foldl]. rewrite fmap_cons, filter_cons.
    destruct (IH (loadStep gp merge setVersion version st library)) as [-> ->].
    unfold loadStep.
    destruct (decide (architectureName library = "")) as [Hempty|Hname].
    { by rewrite decide_False by (by intros []). }
    rewrite decide_True by done. rewrite Hmode. cbn [dict_fromkeys_from].
    destruct (Dict.get _ _) as [master|] eqn:Hget; cbn [masterLibraries fullMasterLibrary].
    + assert (Hin : architectureName library ∈ Dict.keys (masterLibraries st))
        by (apply DictFacts.get_Some_keys; eauto).
      rewrite DictFacts.keys_set_present by done.
      by rewrite (proj2 (seen_name _ _) Hin).
    + assert (Hnot : architectureName library ∉ Dict.keys (masterLibraries st)).
      { rewrite <- DictFacts.get_Some_keys, Hget. by intros [? ?]. }
      rewrite DictFacts.keys_set_absent by done.
      destruct (existsb _ _) eqn:Hseen; [by apply seen_name in Hseen|].
      by rewrite <- app_assoc.
Qed.

(** X15. With separate architectures or lazy loading, the architectures
    of the libraries returned are the architecture names of the logic
    files in the order in which each is first met, without the empty name
    and without [fallback]; each occurs once, and there is no full master
    library. *)
Theorem separate_library_keys (libraries : list (ParsedLogic Lib)) (version : string) :
  (SeparateArchitectures gp || LazyLibraryLoading gp) = true →
  ∃ libs,
    generateLogicDataAndSolutions gp merge setVersion libraries version = Ok (libs, None)
    ∧ Dict.keys libs
      = filter (λ a, a ≠ "fallback") (dict_fromkeys sameName (named libraries))
    ∧ NoDup (Dict.keys libs).
Proof.
  intros Hmode. unfold generateLogicDataAndSolutions. rewrite Hmode.
  destruct (load_keys version libraries
              {| masterLibraries := []; fullMasterLibrary := None; nextSolIndex := 0 |}
              Hmode) as [Hkeys Hfull].
  cbn [masterLibraries fullMasterLibrary] in Hkeys, Hfull. rewrite Hfull.
  set (loaded := masterLibraries _) in *.
  assert (Hnd : NoDup (Dict.keys loaded)).
  { apply load_NoDup. constructor. }
  eexists. split; [done|].
  assert (Hlibs : Dict.keys (mergeFallback merge loaded)
                  = filter (λ a, a ≠ "fallback") (Dict.keys loaded)).
  { unfold mergeFallback. destruct (decide ("fallback" ∈ Dict.keys loaded)) as [Hin|Hnot].
    - rewrite DictFacts.keys_pop, fallback_fold_keys; [done|].
      by rewrite fallback_fold_keys.
    - symmetry. apply filter_all. by intros a Ha ->. }
  rewrite Hlibs. split; [by rewrite Hkeys|]. by apply NoDup_filter.
Qed.

Lemma load_full (version : string) (libraries : list (ParsedLogic Lib))
    (st : MergeState Lib) :
  (SeparateArchitectures gp || LazyLibraryLoading gp) = false →
  let st' := foldl (loadStep gp merge setVersion version) st libraries in
  let news := newLibrary <$> filter (λ l, architectureName l ≠ "") libraries in
  masterLibraries st' = masterLibraries st
  ∧ fullMasterLibrary st'
    = match fullMasterLibrary st, news with
      | Some full, _ => Some (foldl (λ full lib, (merge full lib None).1.1) full news)
      | None, first :: rest =>
          Some (foldl (λ full lib, (merge full lib None).1.1)
                      (setVersion version first) rest)
      | None, [] => None
      end.
Proof.
  intros Hmode. revert st. induction libraries as [|library libraries IH]; intros st.
  - simpl. by destruct (fullMasterLibrary st).
  - cbn [foldl]. rewrite filter_cons.
    destruct (IH (loadStep gp merge setVersion version st library)) as [-> ->].
    unfold loadStep.
    destruct (decide (architectureName library = "")) as [Hempty|Hname].
    { by rewrite decide_False by (by intros []). }
    rewrite decide_True by done. rewrite Hmode.
    by destruct (fullMasterLibrary st).
Qed.

(** X16. Without separate architectures and without lazy loading, the
    logic files with a non-empty architecture name are merged, in order,
    into the library of the first of them, which takes the version; no
    library is kept per architecture. When there is no such file the
    call raises [AttributeError] where it reads the solutions. *)
Theorem joint_library (libraries : list (ParsedLogic Lib)) (version : string) :
  (SeparateArchitectures gp || LazyLibraryLoading gp) = false →
  generateLogicDataAndSolutions gp merge setVersion libraries version
  = match newLibrary <$> filter (λ l, architectureName l ≠ "") libraries with
    | [] => Raise AttributeError
    | first :: rest =>
        Ok ([], Some (foldl (λ full lib, (merge full lib None).1.1)
                            (setVersion version first) rest))
    end.
Proof.
  intros Hmode. unfold generateLogicDataAndSolutions. rewrite Hmode.
  destruct (load_full version libraries
              {| masterLibraries := []; fullMasterLibrary := None; nextSolIndex := 0 |}
              Hmode) as [-> ->].
  cbn [masterLibraries fullMasterLibrary].
  by destruct (newLibrary <$> _).
Qed.

End MergeMore.

(** ** More on generating and writing the kernels *)

(** X17. Generating one kernel never raises [RuntimeError]: an
    exception it raises is either the [UnboundLocalError] of the handler
    or an exception of another kind raised by the writer. A result it
    returns carries the file name the writer computed, and either what
    the writer returned together with the kernel's code object file, or
    the error code 1 with empty texts and no file. *)
Theorem processKernelSource_outcome {Kernel Key : Type}
    (ops : KernelOps Kernel Key) (writer : KernelWriter Kernel) (kernel : Kernel) :
  match processKernelSource ops writer kernel with
  | Raise e =>
      e ≠ RuntimeError
      ∧ (e = UnboundLocalError "kernelName"
         ∨ setTensileInstructions writer = Raise e
         ∨ getKernelFileBase writer kernel = Raise e
         ∨ getSourceFileString writer kernel = Raise e
         ∨ getHeaderFileString writer kernel = Raise e)
  | Ok r =>
      getKernelFileBase writer kernel = Ok (kernelName r)
      ∧ ((getSourceFileString writer kernel = Ok (err r, src r)
          ∧ getHeaderFileString writer kernel = Ok (header r)
          ∧ filename r = codeObjectFile ops kernel)
         ∨ (err r = 1 ∧ src r = "" ∧ header r = "" ∧ filename r = None))
  end.
Proof.
  unfold processKernelSource, onException.
  destruct (setTensileInstructions writer) as [[]|e] eqn:Hset.
  2: { destruct e; simpl; (split; [done|]); auto. }
  destruct (getKernelFileBase writer kernel) as [name|e] eqn:Hbase.
  2: { destruct e; simpl; (split; [done|]); auto. }
  destruct (getSourceFileString writer kernel) as [[code text]|e] eqn:Hsrc.
  2: { destruct e; simpl; try (split; [done|]); auto 6. }
  destruct (getHeaderFileString writer kernel) as [head|e] eqn:Hhead.
  2: { destruct e; simpl; try (split; [done|]); auto 6. }
  simpl. auto.
Qed.

Lemma foldO_Raise {X S} (body : S → X → Outcome S) (l : list X) (x : X) (e : exn) (s : S) :
  x ∈ l → (∀ s, body s x = Raise e) → (∀ s x' e', body s x' = Raise e' → e' = e) →
  foldO body l s = Raise e.
Proof.
  intros Hin Hx Honly. revert s. induction l as [|z l IH]; intros s.
  { by apply elem_of_nil in Hin. }
  simpl. destruct (body s z) as [s'|e'] eqn:Hz; simpl.
  - apply elem_of_cons in Hin as [->|Hin]; [by rewrite Hx in Hz|]. by apply IH.
  - by rewrite (Honly _ _ _ Hz).
Qed.

Section WriteFacts.

Variable gp : GlobalParameters.
Variable os : Platform.

Local Abbreviation blank r := (String.length (PyStr.strip (src r)) = 0%nat).
(** [not filename] *)
Local Abbreviation unnamed r := (filename r = None ∨ filename r = Some "").

Lemma groupStep_only_TypeError (outputPath : string) (st : FilesState) (r : BuildResult)
    (e : exn) :
  groupStep gp os outputPath st r = Raise e → e = TypeError.
Proof.
  unfold groupStep. destruct (decide (blank r)); [done|].
  destruct (filename r) as [[|c f]|]; simpl.
  2: done.
  all: destruct (MergeFiles gp); simpl; [|done].
  all: destruct (decide (NumMergedFiles gp > 1)); simpl; [|done].
  all: by intros [= <-].
Qed.

(** X18. With more than one merged file, a result with a source text
    and no file name of its own makes the grouping add a number to a
    string: the call raises [TypeError] and opens no file. *)
Theorem numbered_merge_raises (results : list BuildResult) (outputPath : string)
    (kernelsWithBuildErrs0 : gmap string Z) (log : list event) (r : BuildResult) :
  MergeFiles gp = true →
  NumMergedFiles gp > 1 →
  r ∈ results → ¬ blank r → unnamed r →
  buildKernelSourceAndHeaderFiles gp os results outputPath kernelsWithBuildErrs0 log
  = (Raise TypeError, log).
Proof.
  intros Hmerge Hmany Hin Htext Hfile. unfold buildKernelSourceAndHeaderFiles.
  rewrite (foldO_Raise _ results r TypeError); [done|done| |].
  - intros st. unfold groupStep. rewrite decide_False by done.
    rewrite Hmerge, decide_True by done.
    by destruct Hfile as [-> | ->].
  - intros st x e. apply groupStep_only_TypeError.
Qed.

Lemma groupStep_errs_lookup (outputPath : string) (l : list BuildResult)
    (st st' : FilesState) :
  foldO (groupStep gp os outputPath) l st = Ok st' →
  ∀ n e, kernelsWithBuildErrs st' !! n = Some e ↔
    (∃ l1 r l2, l = l1 ++ r :: l2 ∧ kernelName r = n ∧ err r = e ∧ e ≠ 0
       ∧ ∀ r', r' ∈ l2 → kernelName r' = n → err r' = 0)
    ∨ (kernelsWithBuildErrs st !! n = Some e
       ∧ ∀ r', r' ∈ l → kernelName r' = n → err r' = 0).
Proof.
  revert st. induction l as [|r l IH]; intros st.
  - intros [= <-] n e. split.
    + intros Hn. right. split; [done|]. by intros r' ?%elem_of_nil.
    + intros [(l1 & r & l2 & Hl & _)|[Hn _]]; [by destruct l1|done].
  - simpl. destruct (groupStep gp os outputPath st r) as [st1|] eqn:Hstep; simpl; [|done].
    intros Hfold n e. rewrite (IH st1 Hfold n e).
    rewrite (groupStep_errs _ _ _ _ _ _ Hstep). split.
    + intros [(l1 & r0 & l2 & -> & Hr0)|[Hn Hrest]].
      * left. by exists (r :: l1), r0, l2.
      * destruct (decide (err r ≠ 0)) as [Hne|Hz].
        -- destruct (decide (kernelName r = n)) as [<-|Hname].
           ++ rewrite lookup_insert_eq in Hn. injection Hn as <-.
              left. exists [], r, l. repeat split; done.
           ++ rewrite lookup_insert_ne in Hn by done. right. split; [done|].
              intros r' [->|Hr']%elem_of_cons; [done|by apply Hrest].
        -- right. split; [done|].
           intros r' [->|Hr']%elem_of_cons; [|by apply Hrest].
           intros _. by apply dec_stable.
    + intros [(l1 & r0 & l2 & Hl & Hn & He & Hne & Hlast)|[Hn Hrest]].
      * destruct l1 as [|r1 l1]; simplify_eq/=.
        -- right. rewrite decide_True by done. rewrite lookup_insert_eq. done.
        -- left. by exists l1, r0, l2.
      * right. split; [|intros r' Hr'; apply Hrest; by right].
        destruct (decide (err r ≠ 0)) as [Hne|Hz]; [|done].
        rewrite lookup_insert_ne; [done|]. intros Hname.
        apply Hne, Hrest; [by left|done].
Qed.

(** X19. The build errors recorded when the files are written: under a
    kernel name stands the error code of the last result with that name
    and a non-zero code, whether its source text is blank or not; a name
    without such a result keeps what was recorded before the call. *)
Theorem build_errors_recorded (results : list BuildResult) (outputPath : string)
    (kernelsWithBuildErrs0 : gmap string Z) (log log' : list event)
    (built : list string * gmap string Z) :
  buildKernelSourceAndHeaderFiles gp os results outputPath kernelsWithBuildErrs0 log
  = (Ok built, log') →
  ∀ n e, built.2 !! n = Some e ↔
    (∃ l1 r l2, results = l1 ++ r :: l2 ∧ kernelName r = n ∧ err r = e ∧ e ≠ 0
       ∧ ∀ r', r' ∈ l2 → kernelName r' = n → err r' = 0)
    ∨ (kernelsWithBuildErrs0 !! n = Some e
       ∧ ∀ r', r' ∈ results → kernelName r' = n → err r' = 0).
Proof.
  unfold buildKernelSourceAndHeaderFiles.
  intros (st & log1 & Hfold & Hrest)%bind_Ok.
  apply bind_Ok in Hrest as (? & log2 & _ & Hret).
  unfold ret in Hret. injection Hret as <- _.
  unfold lift in Hfold. injection Hfold as Hfold _.
  intros n e. by rewrite (groupStep_errs_lookup _ _ _ _ Hfold n e).
Qed.

Lemma single_file_fold (outputPath : string) (l : list BuildResult) (st : FilesState) :
  MergeFiles gp = true → ¬ NumMergedFiles gp > 1 →
  (∀ r, r ∈ l → unnamed r) →
  let K := path_join os (normcase os outputPath) "Kernels" in
  (kernelsToWrite st = [] ∧ filesToWrite st = []
   ∨ kernelsToWrite st ≠ [] ∧ Dict.keys (filesToWrite st) = [K]) →
  ∃ st', foldO (groupStep gp os outputPath) l st = Ok st'
    ∧ (kernelsToWrite st' = [] ∧ filesToWrite st' = []
       ∨ kernelsToWrite st' ≠ [] ∧ Dict.keys (filesToWrite st') = [K]).
Proof.
  intros Hmerge Hone Hfiles K. revert st.
  induction l as [|r l IH]; intros st Hinv; [by exists st|].
  simpl. unfold groupStep at 1.
  assert (Hl : ∀ r', r' ∈ l → unnamed r') by (intros r' Hr'; apply Hfiles; by right).
  destruct (decide (blank r)).
  { simpl. apply IH; [done|]. by destruct st. }
  assert (Hname : str_add "Kernels" (PyString "") = Ok "Kernels") by done.
  assert (Hfile : unnamed r) by (apply Hfiles; by left).
  rewrite Hmerge, decide_False by done.
  assert (∀ k : string → Outcome FilesState,
            obind match filename r with
                  | Some (String c f) => Ok (path_join os (normcase os outputPath) (String c f))
                  | _ => obind (str_add "Kernels" (PyString ""))
                           (λ n, Ok (path_join os (normcase os outputPath) n))
                  end k = k K) as ->.
  { intros k. by destruct Hfile as [-> | ->]. }
  simpl. apply IH; [done|]. right. simpl. split; [by destruct (kernelsToWrite st)|].
  unfold Dict.append. destruct Hinv as [[_ ->]|[_ Hkeys]]; [done|].
  destruct (Dict.get K (filesToWrite st)) eqn:Hget.
  - rewrite DictFacts.keys_set_present; [done|]. rewrite Hkeys. by left.
  - exfalso. assert (is_Some (Dict.get K (filesToWrite st))) as [? ?]; [|congruence].
    apply DictFacts.get_Some_keys. rewrite Hkeys. by left.
Qed.

(** X20. With one merged file and results that name no file of their
    own, the call writes exactly one header and one source file,
    [Kernels.h] and [Kernels.cpp] in the output directory, whatever the
    results: also when there is none, or when every source text is
    blank. *)
Theorem single_merged_file (results : list BuildResult) (outputPath : string)
    (kernelsWithBuildErrs0 : gmap string Z) (log : list event) :
  MergeFiles gp = true →
  ¬ NumMergedFiles gp > 1 →
  (∀ r, r ∈ results → unnamed r) →
  let K := path_join os (normcase os outputPath) "Kernels" in
  ∃ errs,
    buildKernelSourceAndHeaderFiles gp os results outputPath kernelsWithBuildErrs0 log
    = (Ok ([K +:+ ".cpp"], errs),
       log ++ [EvOpen ModeW (K +:+ ".h"); EvOpen ModeW (K +:+ ".cpp")]).
Proof.
  intros Hmerge Hone Hfiles K. unfold buildKernelSourceAndHeaderFiles.
  destruct (single_file_fold outputPath results
              {| kernelsToWrite := []; filesToWrite := []; validKernelCount := 0;
                 kernelsWithBuildErrs := kernelsWithBuildErrs0 |}
              Hmerge Hone Hfiles) as (st & Hfold & Hinv); [by left|].
  rewrite Hfold, bind_lift.
  assert (Hkeys : Dict.keys (ensureHelperFile gp os outputPath st) = [K]).
  { unfold ensureHelperFile. rewrite Hmerge, decide_False by done.
    rewrite PyStrFacts.app_nil_r. fold K.
    destruct Hinv as [[-> ->]|[Hne Hkeys]].
    - by rewrite orb_true_r.
    - rewrite (bool_decide_eq_false_2 _ Hne), orb_false_r.
      destruct (LazyLibraryLoading gp); [|done].
      rewrite DictFacts.keys_set_present; [done|]. rewrite Hkeys. by left. }
  rewrite Hkeys. exists (kernelsWithBuildErrs st). simpl.
  unfold bind, emit, ret. by rewrite <- app_assoc.
Qed.

End WriteFacts.

(** ** More on the build pipeline coordinator *)

Section MarkFacts.

Context {Solution Kernel Helper Key : Type}.
Context `{EqDecision Solution, EqDecision Kernel, EqDecision Key}.
Variable gp : GlobalParameters.
Variable os : Platform.
Variable ops : KernelOps Kernel Key.
Variable getKernels : Solution → list Kernel.
Variable kernelWriterAssembly : KernelWriter Kernel.
Variable helperOps : HelperOps Helper.
Variable toolchain : Toolchain Kernel.

Local Abbreviation fileBase := (getKernelFileBase kernelWriterAssembly).
Local Abbreviation isAssembly k := (KernelLanguage ops k = "Assembly").
Local Abbreviation markStep :=
  (λ '((marks, objFilenames) : list (Kernel * option bool) * gset string)
     (kernel : Kernel),
     if decide (KernelLanguage ops kernel = "Assembly") then
       obind (getKernelFileBase kernelWriterAssembly kernel) (λ base,
         if decide (base ∈ (objFilenames : gset string))
         then Ok (marks ++ [(kernel, Some true)], objFilenames)
         else Ok (marks ++ [(kernel, Some false)], objFilenames ∪ {[base]}))
     else Ok (marks ++ [(kernel, None)], objFilenames)).

(** What the marks say of the kernel that stands after [before], when
    the names in [names0] were met before the list. *)
Local Abbreviation marked names0 before k m :=
  ((¬ isAssembly k → m = None)
   ∧ (isAssembly k →
      ∃ base b, fileBase k = Ok base ∧ m = Some b
        ∧ (b = true ↔ base ∈ (names0 : gset string)
                       ∨ ∃ k', k' ∈ before ∧ isAssembly k' ∧ fileBase k' = Ok base))).

Lemma marked_later (names0 : gset string) (x : Kernel) (names1 : gset string)
    (before : list Kernel) (k : Kernel) (m : option bool) :
  (∀ base, base ∈ names1 ↔ base ∈ names0 ∨ (isAssembly x ∧ fileBase x = Ok base)) →
  marked names1 before k m → marked names0 (x :: before) k m.
Proof.
  intros Hnames [Hnon Hasm]. split; [done|]. intros Hk.
  destruct (Hasm Hk) as (base & b & Hb & -> & Hiff). exists base, b.
  split; [done|]. split; [done|]. rewrite Hiff, Hnames. split.
  - intros [[?|[? ?]]|(k' & Hin & ? & ?)]; [by left| |].
    + right. exists x. split; [by left|done].
    + right. exists k'. split; [by right|done].
  - intros [?|(k' & [->|Hin]%elem_of_cons & Hk' & Hbk')]; [by left; left| |].
    + left. by right.
    + right. eauto.
Qed.

Lemma mark_fold (l : list Kernel) (marks0 : list (Kernel * option bool))
    (names0 : gset string) (st : list (Kernel * option bool) * gset string) :
  foldO markStep l (marks0, names0) = Ok st →
  ∃ new, st.1 = marks0 ++ new ∧ new.*1 = l
    ∧ ∀ before k after, l = before ++ k :: after →
        ∃ m, new !! length before = Some (k, m) ∧ marked names0 before k m.
Proof.
  revert marks0 names0. induction l as [|x l IH]; intros marks0 names0.
  - simpl. intros [= <-]. exists []. split; [by rewrite app_nil_r|]. split; [done|].
    intros before k after Hl. by destruct before.
  - cbn [foldO].
    assert (Hstep : ∀ mx names1,
      (∀ base, base ∈ names1 ↔ base ∈ names0 ∨ (isAssembly x ∧ fileBase x = Ok base)) →
      marked names0 [] x mx →
      foldO markStep l (marks0 ++ [(x, mx)], names1) = Ok st →
      ∃ new, st.1 = marks0 ++ new ∧ new.*1 = x :: l
        ∧ ∀ before k after, x :: l = before ++ k :: after →
            ∃ m, new !! length before = Some (k, m) ∧ marked names0 before k m).
    { intros mx names1 Hnames Hmx Hfold.
      destruct (IH _ _ Hfold) as (new & Hst & Hfst & Hmarks).
      exists ((x, mx) :: new). split; [by rewrite Hst, <- app_assoc|].
      split; [by rewrite fmap_cons, Hfst|].
      intros before k after Hl. destruct before as [|y before].
      - injection Hl as <- _. by exists mx.
      - injection Hl as <- Hl.
        destruct (Hmarks before k after Hl) as (m & Hm & Hmarked).
        exists m. split; [done|]. by eapply marked_later. }
    destruct (decide (isAssembly x)) as [Hx|Hx].
    + destruct (fileBase x) as [bx|] eqn:Hbx; simpl; [|done].
      destruct (decide (bx ∈ names0)) as [Hdup|Hnew]; apply Hstep.
      * intros base. split; [by left|]. intros [?|[_ [= <-]]]; done.
      * split; [done|]. intros _. exists bx, true. split; [done|]. split; [done|].
        split; [by left|done].
      * intros base. rewrite elem_of_union, elem_of_singleton. split.
        -- intros [?| ->]; [by left|by right].
        -- intros [?|[_ [= <-]]]; [by left|by right].
      * split; [done|]. intros _. exists bx, false. split; [done|]. split; [done|].
        split; [done|]. intros [?|(k' & Hk' & _)]; [done|]. by apply elem_of_nil in Hk'.
    + apply Hstep.
      * intros base. split; [by left|]. intros [?|[? _]]; done.
      * split; [done|]. done.
Qed.

(** X21. The duplicate marks. Every kernel gets one mark, in the order
    of the kernels; a kernel that is not an assembly kernel gets none,
    and an assembly kernel is marked as a duplicate exactly when an
    assembly kernel before it has the same object file name. *)
Theorem markDuplicates_marks (kernels : list Kernel)
    (marks : list (Kernel * option bool)) :
  markDuplicates ops kernelWriterAssembly kernels = Ok marks →
  marks.*1 = kernels
  ∧ ∀ before k after, kernels = before ++ k :: after →
      ∃ m, marks !! length before = Some (k, m)
        ∧ (¬ isAssembly k → m = None)
        ∧ (isAssembly k →
           ∃ base b, fileBase k = Ok base ∧ m = Some b
             ∧ (b = true ↔ ∃ k', k' ∈ before ∧ isAssembly k' ∧ fileBase k' = Ok base)).
Proof.
  unfold markDuplicates. destruct (foldO _ kernels _) as [st|] eqn:Hfold; simpl; [|done].
  intros [= <-]. destruct (mark_fold _ _ _ _ Hfold) as (new & -> & Hfst & Hmarks).
  simpl. split; [done|]. intros before k after Hl.
  destruct (Hmarks before k after Hl) as (m & Hm & Hnon & Hasm).
  exists m. split; [done|]. split; [done|]. intros Hk.
  destruct (Hasm Hk) as (base & b & Hb & -> & Hiff). exists base, b.
  split; [done|]. split; [done|]. rewrite Hiff. split; [|by right].
  intros [?%not_elem_of_empty|?]; done.
Qed.

Lemma mark_raise (before : list Kernel) (kernel : Kernel) (after : list Kernel)
    (e : exn) (st : list (Kernel * option bool) * gset string) :
  isAssembly kernel → fileBase kernel = Raise e →
  (∀ k, k ∈ before → isAssembly k → ∃ base, fileBase k = Ok base) →
  foldO markStep (before ++ kernel :: after) st = Raise e.
Proof.
  intros Hk He. revert st. induction before as [|x before IH]; intros [marks names] Hok.
  - simpl. rewrite decide_True by done. by rewrite He.
  - assert (Hrest : ∀ k, k ∈ before → isAssembly k → ∃ base, fileBase k = Ok base).
    { intros k Hin. apply Hok. by right. }
    rewrite <- app_comm_cons. cbn [foldO].
    destruct (decide (isAssembly x)) as [Hx|Hx]; [|by apply IH].
    destruct (Hok x) as [bx ->]; [by left|done|]. simpl.
    destruct (decide (bx ∈ names)); by apply IH.
Qed.

(** X22. The object file names are computed for the duplicate marks
    before any kernel is generated, and outside the handler that turns
    [RuntimeError] into an error code. So an exception of the writer
    while it names an assembly kernel ends the call, in error tolerant
    mode as well: it is raised as it is, after the working directory and
    the assembler script were set up and before anything else. *)
Theorem naming_failure_escapes (outputPath CxxCompiler : string)
    (solutions : list Solution) (before : list Kernel) (kernel : Kernel)
    (after : list Kernel) (kernelHelperObjs : list Helper)
    (errorTolerant compress : bool) (e : exn) (log : list event) :
  isAssembly kernel →
  fileBase kernel = Raise e →
  (∀ k, k ∈ before → isAssembly k → ∃ base, fileBase k = Ok base) →
  writeSolutionsAndKernels gp os ops getKernels kernelWriterAssembly helperOps
    toolchain outputPath CxxCompiler solutions (before ++ kernel :: after)
    kernelHelperObjs errorTolerant compress log
  = (Raise e, log ++ setupEvents gp os outputPath).
Proof.
  intros Hk He Hok.
  assert (Hmarks : markDuplicates ops kernelWriterAssembly (before ++ kernel :: after)
                   = Raise e).
  { unfold markDuplicates. by rewrite (mark_raise before kernel after e). }
  unfold writeSolutionsAndKernels, prepAsm, setupEvents.
  rewrite !bind_emit, bind_if_emit, !bind_assoc, !bind_emit, Hmarks.
  unfold bind, lift. by rewrite <- !app_assoc.
Qed.

End MarkFacts.

(** ** More on the build *)

Lemma checkFileExistence_Ok (os : Platform) (files : list string)
    (log log' : list event) :
  checkFileExistence os files log = (Ok tt, log') →
  ∀ p, p ∈ files → path_exists os p = true.
Proof.
  unfold checkFileExistence. induction files as [|q files IH].
  - by intros _ p ?%elem_of_nil.
  - cbn [forM]. destruct (path_exists os q) eqn:Hq; [|done].
    rewrite bind_ret. intros Hrest p [->|Hp]%elem_of_cons; [done|]. by apply IH.
Qed.

(** X23. Checking the expected files: the check passes when every file
    exists, and otherwise exits with a message that names the first
    missing file, in the order of the list. It leaves no trace. *)
Theorem checkFileExistence_outcome (os : Platform) (files : list string)
    (log : list event) :
  checkFileExistence os files log
  = match filter (λ p, path_exists os p = false) files with
    | [] => (Ok tt, log)
    | missing :: _ =>
        (Raise (SystemExit ("File " +:+ missing +:+ " is missing.")), log)
    end.
Proof.
  unfold checkFileExistence. induction files as [|p files IH]; [done|].
  cbn [forM]. rewrite filter_cons. destruct (path_exists os p) eqn:Hp.
  - rewrite bind_ret, IH. by rewrite decide_False.
  - by rewrite decide_True.
Qed.

Section BuildMore.

Context {Solution Kernel Helper Key Lib : Type}.
Context `{EqDecision Solution, EqDecision Kernel, EqDecision Key}.
Variable gp : GlobalParameters.
Variable os : Platform.
Variable ops : KernelOps Kernel Key.
Variable getKernels : Solution → list Kernel.
Variable kernelWriterAssembly : KernelWriter Kernel.
Variable helperOps : HelperOps Helper.
Variable toolchain : Toolchain Kernel.
Variable lazyLibraryNames : Lib → list string.

Local Abbreviation build :=
  (TensileCreateLibrary gp os ops getKernels kernelWriterAssembly helperOps toolchain
     lazyLibraryNames).


(** X25. What holds when a full build returns: the kernels were written
    and built, every code object file produced is an expected one and,
    unless only sources were asked for, every expected one was produced
    (up to [normcase]); with separate architectures there is at least
    one master library, and without them and without lazy loading there
    is the full master library; and every expected metadata, source
    library and assembly library file exists. *)
Theorem build_postcondition (outputPath CxxCompiler : string)
    (solutions : list Solution) (kernels : list Kernel) (kernelHelperObjs : list Helper)
    (masterLibraries : list (string * Lib)) (fullMasterLibrary : option Lib)
    (sourceLibPaths asmLibPaths libMetadataPaths archs : list string)
    (useCompression : bool) (log log' : list event) :
  GenerateManifestAndExit gp = false →
  build outputPath CxxCompiler solutions kernels kernelHelperObjs masterLibraries
    fullMasterLibrary sourceLibPaths asmLibPaths libMetadataPaths archs useCompression log
  = (Ok tt, log') →
  (∃ codeObjectFiles solutions' kernels' log0 log1,
     writeSolutionsAndKernels gp os ops getKernels kernelWriterAssembly helperOps
       toolchain outputPath CxxCompiler solutions kernels kernelHelperObjs false
       useCompression log0
     = (Ok (codeObjectFiles, solutions', kernels'), log1)
     ∧ setA os codeObjectFiles ⊆ setB os sourceLibPaths asmLibPaths
     ∧ (GenerateSourcesAndExit gp = false →
        setB os sourceLibPaths asmLibPaths ⊆ setA os codeObjectFiles))
  ∧ (SeparateArchitectures gp = true → masterLibraries ≠ [])
  ∧ (SeparateArchitectures gp || LazyLibraryLoading gp = false →
     is_Some fullMasterLibrary)
  ∧ (∀ p, p ∈ libMetadataPaths ++ sourceLibPaths ++ asmLibPaths →
          path_exists os p = true).
Proof.
  intros Hmanifest. unfold TensileCreateLibrary. rewrite Hmanifest.
  intros (staticFiles & l1 & _ & Hrun)%bind_Ok.
  apply bind_Ok in Hrun as ([] & l2 & _ & Hrun).
  apply bind_Ok in Hrun as ([] & l3 & _ & Hrun).
  apply bind_Ok in Hrun as ([[codeObjectFiles solutions'] kernels'] & l4 & Hwrite & Hrun).
  cbn [fst] in Hrun.
  apply bind_Ok in Hrun as ([] & l5 & _ & Hrun).
  apply bind_Ok in Hrun as ([] & l6 & Hrec & Hrun).
  apply bind_Ok in Hrun as ([] & l7 & _ & Hrun).
  apply bind_Ok in Hrun as ([] & l8 & Hlibs & Hrun).
  apply bind_Ok in Hrun as ([] & l9 & Hsep & Hrun).
  apply bind_Ok in Hrun as ([] & l10 & Hcheck & _).
  split; [|split; [|split]].
  - exists codeObjectFiles, solutions', kernels', l3, l4. split; [done|].
    unfold lift in Hrec. injection Hrec as Hrec _. unfold reconcile in Hrec.
    destruct (decide (size (setA os codeObjectFiles ∖ setB os sourceLibPaths asmLibPaths)
                      = 0%nat)) as [H0|]; [|done].
    split; [by apply size_difference_0|]. intros Hsources. rewrite Hsources in Hrec.
    simpl in Hrec.
    destruct (decide (size (setB os sourceLibPaths asmLibPaths ∖ setA os codeObjectFiles)
                      = 0%nat)) as [H1|]; [|done].
    by apply size_difference_0.
  - intros Hmode -> . by rewrite Hmode in Hsep.
  - intros Hmode. unfold writeMasterLibraries in Hlibs. rewrite Hmode in Hlibs.
    by destruct fullMasterLibrary.
  - by eapply checkFileExistence_Ok.
Qed.

End BuildMore.

Section LibraryWrites.

Context {Lib : Type}.
Variable gp : GlobalParameters.
Variable os : Platform.
Variable lazyLibraryNames : Lib → list string.

(** What writing one master library and its lazy libraries logs. *)
Local Abbreviation libraryEvents newLibraryDir :=
  (λ al : string * Lib,
     EvLibraryWrite
       (path_join os newLibraryDir
          ((if LazyLibraryLoading gp then "TensileLibrary_lazy_" else "TensileLibrary_")
             +:+ al.1))
     :: ((λ name, EvLibraryWrite (path_join os newLibraryDir name))
           <$> lazyLibraryNames al.2)).

(** X26. With separate architectures or lazy loading, the libraries
    written are those of the master libraries whose architecture is a
    supported one, each followed by its lazy libraries, in the order of
    the master libraries; a master library of another architecture is
    passed over without a word. *)
Theorem library_writes (newLibraryDir : string) (archs : list string)
    (masterLibraries : list (string * Lib)) (fullMasterLibrary : option Lib)
    (log : list event) :
  (SeparateArchitectures gp || LazyLibraryLoading gp) = true →
  writeMasterLibraries gp os lazyLibraryNames newLibraryDir archs masterLibraries
    fullMasterLibrary log
  = (Ok tt,
     log ++ (filter (λ al, al.1 ∈ archs) masterLibraries ≫= libraryEvents newLibraryDir)).
Proof.
  intros Hmode. unfold writeMasterLibraries. rewrite Hmode. revert log.
  induction masterLibraries as [|[archName lib] libs IH]; intros log.
  - simpl. unfold ret. by rewrite app_nil_r.
  - cbn [forM]. rewrite filter_cons. cbn [fst].
    destruct (decide (archName ∈ archs)) as [Hin|Hnot].
    + rewrite bind_assoc, bind_emit. unfold bind at 1.
      rewrite forM_emit_each, IH, bind_cons. cbn [fst snd].
      by rewrite <- !app_assoc.
    + by rewrite bind_ret, IH.
Qed.

End LibraryWrites.

Section PipelineReturns.

Context {Solution Kernel Helper Key : Type}.
Context `{EqDecision Solution, EqDecision Kernel, EqDecision Key}.
Variable gp : GlobalParameters.
Variable os : Platform.
Variable ops : KernelOps Kernel Key.
Variable getKernels : Solution → list Kernel.
Variable kernelWriterAssembly : KernelWriter Kernel.
Variable helperOps : HelperOps Helper.
Variable toolchain : Toolchain Kernel.

Lemma groupStep_errs_domain (outputPath : string) (l : list BuildResult)
    (st st' : FilesState) (n : string) :
  foldO (groupStep gp os outputPath) l st = Ok st' →
  is_Some (kernelsWithBuildErrs st' !! n)
  ↔ is_Some (kernelsWithBuildErrs st !! n)
    ∨ ∃ r, r ∈ l ∧ kernelName r = n ∧ err r ≠ 0.
Proof.
  revert st. induction l as [|r l IH]; intros st.
  - intros [= <-]. split; [by left|]. intros [?|(r & Hr & _)]; [done|].
    by apply elem_of_nil in Hr.
  - simpl. destruct (groupStep gp os outputPath st r) as [st1|] eqn:Hstep; simpl; [|done].
    intros Hfold. rewrite (IH st1 Hfold), (groupStep_errs _ _ _ _ _ _ Hstep).
    destruct (decide (err r ≠ 0)) as [Hne|Hz].
    + rewrite lookup_insert_is_Some. split.
      * intros [[<-|[_ ?]]|(r' & Hr' & ? & ?)]; [|by left|].
        -- right. exists r. split; [by left|done].
        -- right. exists r'. split; [by right|done].
      * intros [?|(r' & [->|Hr']%elem_of_cons & Hn & ?)].
        -- destruct (decide (kernelName r = n)); [by left; left|by left; right].
        -- by left; left.
        -- right. eauto.
    + split.
      * intros [?|(r' & Hr' & ? & ?)]; [by left|].
        right. exists r'. split; [by right|done].
      * intros [?|(r' & [->|Hr']%elem_of_cons & Hn & ?)]; [by left|done|].
        right. eauto.
Qed.

Lemma helperStep_Ok (outputPath : string) (helpers : list Helper)
    (kernelFiles kernelFiles' : list string) (log log' : list event) :
  forM (helperStep gp os helperOps outputPath) helpers kernelFiles log
  = (Ok kernelFiles', log') →
  ∀ ko, ko ∈ helpers → (helperSourceFileString helperOps ko).1 = 0.
Proof.
  revert kernelFiles log. induction helpers as [|x helpers IH]; intros kernelFiles log.
  - by intros _ ko ?%elem_of_nil.
  - cbn [forM]. intros (files1 & log1 & Hstep & Hrest)%bind_Ok.
    intros ko [->|Hko]%elem_of_cons; [|by eapply IH].
    unfold helperStep in Hstep.
    apply bind_Ok in Hstep as (files2 & log2 & _ & Hstep).
    apply bind_Ok in Hstep as ([] & log3 & Herr & _).
    destruct (decide ((helperSourceFileString helperOps x).1 ≠ 0)); [done|].
    by apply dec_stable.
Qed.

(** X27. What holds when the pipeline returns. No helper kernel
    reported an error with its source, since the warning for one cannot
    be formatted. With [GenerateSourcesAndExit] no code object file is
    returned; otherwise they are the ones the compiler returned followed
    by the ones the assembler returned. The kernels handed to the
    assembler are the kernels left, all of them without error tolerance;
    with it, those whose name is not the file name of a result that is
    left and has an error code. *)
Theorem pipeline_returns (outputPath CxxCompiler : string)
    (solutions : list Solution) (kernels : list Kernel) (kernelHelperObjs : list Helper)
    (errorTolerant compress : bool) (log log' : list event)
    (codeObjectFiles : list string) (solutions' : list Solution)
    (kernels' : list Kernel) :
  writeSolutionsAndKernels gp os ops getKernels kernelWriterAssembly helperOps
    toolchain outputPath CxxCompiler solutions kernels kernelHelperObjs
    errorTolerant compress log
  = (Ok (codeObjectFiles, solutions', kernels'), log') →
  (∀ ko, ko ∈ kernelHelperObjs → (helperSourceFileString helperOps ko).1 = 0)
  ∧ (GenerateSourcesAndExit gp = true → codeObjectFiles = [])
  ∧ (GenerateSourcesAndExit gp = false →
     ∃ results marks kernelFiles kernelsToBuild fromSource fromAssembly,
       mapO (processKernelSource ops kernelWriterAssembly) kernels = Ok results
       ∧ markDuplicates ops kernelWriterAssembly kernels = Ok marks
       ∧ buildSourceCodeObjectFiles toolchain CxxCompiler kernelFiles outputPath
         = Ok fromSource
       ∧ buildAssemblyCodeObjectFiles toolchain kernelsToBuild marks outputPath compress
         = Ok fromAssembly
       ∧ codeObjectFiles = fromSource ++ fromAssembly
       ∧ (errorTolerant = false → kernelsToBuild = kernels')
       ∧ (errorTolerant = true →
          ∀ k, k ∈ kernelsToBuild ↔
               k ∈ kernels'
               ∧ ∀ r, r ∈ results → err r ≠ -2 →
                      kernelName r = getKernelName kernelWriterAssembly k → err r = 0)).
Proof.
  intros Hrun. unfold writeSolutionsAndKernels, prepAsm in Hrun.
  rewrite !bind_emit, bind_if_emit, !bind_assoc, !bind_emit in Hrun.
  apply bind_Ok in Hrun as (marks & log1 & Hmarks & Hrun).
  unfold lift in Hmarks. injection Hmarks as Hmarks _.
  apply bind_Ok in Hrun as (results & log2 & Hresults & Hrun).
  unfold lift in Hresults. injection Hresults as Hresults _.
  pose proof (mapO_length _ _ _ Hresults) as Hlen.
  apply bind_Ok in Hrun as (rm & log3 & Hscan & Hrun).
  destruct (cascade_spec ops getKernels errorTolerant kernels solutions results log2 Hlen)
    as (rm' & Hscan' & Hrk & Hsolutions & Hsurvive & _).
  rewrite Hscan in Hscan'. injection Hscan' as <- _.
  apply bind_Ok in Hrun as ([] & log4 & Hgate & Hrun).
  destruct (cascade ops getKernels rm kernels solutions results)
    as [[kernels1 solutions1] results1] eqn:Hcascade.
  cbn [fst snd] in Hsurvive.
  apply bind_Ok in Hrun as (built & log5 & Hbuilt & Hrun).
  apply bind_Ok in Hrun as (kernelsToBuild & log6 & Hbuild & Hrun).
  apply bind_Ok in Hrun as ([] & log7 & _ & Hrun).
  apply bind_Ok in Hrun as (kernelFiles & log8 & Hhelpers & Hrun).
  apply bind_Ok in Hrun as (cof & log9 & Hcof & Hrun).
  rewrite !bind_emit in Hrun. unfold ret in Hrun. injection Hrun as <- <- <- _.
  split; [by eapply helperStep_Ok|]. split.
  - intros Hsources. rewrite Hsources in Hcof. unfold ret in Hcof. by injection Hcof as <- _.
  - intros Hsources. rewrite Hsources in Hcof. rewrite bind_emit in Hcof.
    apply bind_Ok in Hcof as (fromSource & log10 & Hsource & Hcof).
    unfold lift in Hsource. injection Hsource as Hsource _.
    rewrite bind_emit in Hcof.
    apply bind_Ok in Hcof as (fromAssembly & log11 & Hasm & Hcof).
    unfold lift in Hasm. injection Hasm as Hasm _.
    unfold ret in Hcof. injection Hcof as <- _.
    exists results, marks, kernelFiles, kernelsToBuild, fromSource, fromAssembly.
    repeat (split; [done|]). split.
    + intros ->. destruct (bool_decide _) in Hbuild.
      * rewrite bind_emit in Hbuild. discriminate.
      * unfold ret in Hbuild. by injection Hbuild as <- _.
    + intros ->. unfold ret in Hbuild. injection Hbuild as <- _.
      intros k. rewrite list_elem_of_filter.
      unfold buildKernelSourceAndHeaderFiles in Hbuilt.
      apply bind_Ok in Hbuilt as (st & log12 & Hfold & Hrest).
      apply bind_Ok in Hrest as (? & log13 & _ & Hret).
      unfold ret in Hret. injection Hret as <- _. cbn [snd].
      unfold lift in Hfold. injection Hfold as Hfold _.
      rewrite eq_None_not_Some, (groupStep_errs_domain _ _ _ _ _ Hfold).
      cbn [kernelsWithBuildErrs]. rewrite lookup_empty, Hsurvive.
      split.
      * intros [Hnone Hk]. split; [done|].
        intros r Hr Hfatal Hname. apply dec_stable. intros Hne. apply Hnone. right.
        exists r. rewrite list_elem_of_filter. done.
      * intros [Hk Hnone]. split; [|done].
        intros [[? [=]]|(r & [Hfatal Hr]%list_elem_of_filter & Hname & Hne)].
        by apply Hne, Hnone.
Qed.

End PipelineReturns.

(** ** Instances of the further properties *)

Lemma eager_asm_libraries_witness :
  ∃ names,
    buildObjectFileNames mergeParameters plannerOps demoWriter demoHelpers
      (λ _, "gfx90a") (λ _, true) ["gfx90a"] "hipcc" [0; 1; 2; 4]%nat ["Helper"]
    = Ok names
    ∧ asmLibFiles names = ["TensileLibrary_gfx90a.co"]
    ∧ ∀ f, f ∈ asmLibFiles names ↔
        ∃ k base, k ∈ [0; 1; 2; 4]%nat ∧ KernelLanguage plannerOps k = "Assembly"
          ∧ getKernelFileBase demoWriter k = Ok base
          ∧ f = "TensileLibrary_" +:+ "gfx90a" +:+ ".co".
Proof.
  eexists. split; [vm_compute; reflexivity|]. split; [reflexivity|].
  apply (eager_asm_libraries mergeParameters plannerOps demoWriter demoHelpers
           (λ _, "gfx90a") (λ _, true) ["gfx90a"] "hipcc" [0; 1; 2; 4]%nat ["Helper"]);
    [reflexivity|vm_compute; reflexivity].
Defined.

Lemma lazy_asm_libraries_witness :
  ∃ names,
    buildObjectFileNames lazyParameters plannerOps demoWriter demoHelpers
      (λ _, "gfx90a") (λ _, true) ["gfx90a:xnack+"; "gfx90a:xnack-"] "hipcc"
      [0; 1; 2; 4]%nat ["Helper"]
    = Ok names
    ∧ asmLibFiles names = ["TensileLibrary_Type_HH_gfx90a.co"]
    ∧ NoDup (asmLibFiles names).
Proof.
  eexists. split; [vm_compute; reflexivity|]. split; [reflexivity|].
  refine (proj1 (lazy_asm_libraries lazyParameters plannerOps demoWriter demoHelpers
                   (λ _, "gfx90a") (λ _, true) ["gfx90a:xnack+"; "gfx90a:xnack-"] "hipcc"
                   [0; 1; 2; 4]%nat ["Helper"] _ eq_refl _)).
  vm_compute. reflexivity.
Defined.

Lemma lazy_source_libraries_witness :
  ∃ names,
    buildObjectFileNames lazyParameters plannerOps demoWriter demoHelpers
      (λ _, "gfx90a") (λ _, true) ["gfx90a:xnack+"; "gfx90a:xnack-"] "hipcc"
      [0; 1; 2; 4]%nat ["Helper"]
    = Ok names
    ∧ "TensileLibrary_Type_HH_fallback_gfx90a:xnack-.hsaco" ∈ sourceLibFiles names.
Proof.
  eexists. split; [vm_compute; reflexivity|].
  apply (lazy_source_libraries lazyParameters plannerOps demoWriter demoHelpers
           (λ _, "gfx90a") (λ _, true) ["gfx90a:xnack+"; "gfx90a:xnack-"] "hipcc"
           [0; 1; 2; 4]%nat ["Helper"] _ eq_refl eq_refl);
    [discriminate|vm_compute; reflexivity|].
  right. left. exists 2%nat, "TensileLibrary_Type_HH_fallback", "gfx90a:xnack-".
  split; [set_solver|]. split; [reflexivity|]. split; [reflexivity|].
  split; [set_solver|reflexivity].
Defined.

Lemma last_run_counts_witness :
  ∃ keyed,
    keyedKernels plannerOps ([0; 2] ++ [1] ++ [])%nat = Some keyed
    ∧ Dict.get "TensileLibrary_Type_HH_gfx90a" (kernelsByCodeObjectFiles keyed)
      = Some [1%nat].
Proof.
  apply (last_run_counts plannerOps [0; 2]%nat [1%nat] [] "TensileLibrary_Type_HH_gfx90a").
  - intros k Hk. repeat (apply elem_of_cons in Hk as [->|Hk]; [by eexists|]).
    by apply elem_of_nil in Hk.
  - discriminate.
  - by repeat constructor.
  - constructor.
  - intros k [= <-]. discriminate.
Defined.

Lemma separate_library_keys_witness :
  ∃ libs,
    generateLogicDataAndSolutions lazyParameters demoMerge (λ _ lib, lib)
      [demoLogic "gfx90a" [1%nat]; demoLogic "" [2%nat]; demoLogic "fallback" [3%nat];
       demoLogic "gfx942" [4%nat]; demoLogic "gfx90a" [5%nat]] "1"
    = Ok (libs, None)
    ∧ Dict.keys libs
      = filter (λ a, a ≠ "fallback")
          (dict_fromkeys (λ a b : string, bool_decide (a = b))
             (filter (λ a, a ≠ "")
                (architectureName
                   <$> [demoLogic "gfx90a" [1%nat]; demoLogic "" [2%nat];
                        demoLogic "fallback" [3%nat]; demoLogic "gfx942" [4%nat];
                        demoLogic "gfx90a" [5%nat]])))
    ∧ NoDup (Dict.keys libs).
Proof.
  exact (separate_library_keys lazyParameters demoMerge (λ _ lib, lib)
           [demoLogic "gfx90a" [1%nat]; demoLogic "" [2%nat];
            demoLogic "fallback" [3%nat]; demoLogic "gfx942" [4%nat];
            demoLogic "gfx90a" [5%nat]] "1" eq_refl).
Defined.

Lemma joint_library_witness :
  generateLogicDataAndSolutions mergeParameters demoMerge (λ _ lib, lib)
    [demoLogic "gfx90a" [1%nat]; demoLogic "" [2%nat]; demoLogic "gfx942" [4%nat]] "1"
  = Ok ([], Some [1%nat; 4%nat]).
Proof.
  exact (joint_library mergeParameters demoMerge (λ _ lib, lib)
           [demoLogic "gfx90a" [1%nat]; demoLogic "" [2%nat]; demoLogic "gfx942" [4%nat]]
           "1" eq_refl).
Defined.

Lemma numbered_merge_raises_witness :
  buildKernelSourceAndHeaderFiles numberedParameters posix
    [demoResult 3 0 "  "; demoResult 1 0 "kernel text"] "/out" ∅ []
  = (Raise TypeError, []).
Proof.
  apply (numbered_merge_raises numberedParameters posix
           [demoResult 3 0 "  "; demoResult 1 0 "kernel text"] "/out" ∅ []
           (demoResult 1 0 "kernel text")).
  - reflexivity.
  - reflexivity.
  - set_solver.
  - vm_compute. discriminate.
  - left. reflexivity.
Defined.

Lemma build_errors_recorded_witness :
  ∃ built log',
    buildKernelSourceAndHeaderFiles mergeParameters posix
      [demoResult 5 1 "kernel text"; demoResult 3 4 "  "] "/out" ∅ []
    = (Ok built, log')
    ∧ built.2 !! "Cijk_3" = Some 4.
Proof.
  eexists _, _. split; [vm_compute; reflexivity|].
  eapply (build_errors_recorded mergeParameters posix
            [demoResult 5 1 "kernel text"; demoResult 3 4 "  "] "/out" ∅ []);
    [vm_compute; reflexivity|].
  left. exists [demoResult 5 1 "kernel text"], (demoResult 3 4 "  "), [].
  split; [reflexivity|]. split; [reflexivity|]. split; [reflexivity|]. split; [done|].
  by intros r ?%elem_of_nil.
Defined.

Lemma single_merged_file_witness :
  ∃ errs,
    buildKernelSourceAndHeaderFiles mergeParameters posix
      [demoResult 3 0 "  "] "/out" ∅ []
    = (Ok (["/out/Kernels.cpp"], errs),
       [EvOpen ModeW "/out/Kernels.h"; EvOpen ModeW "/out/Kernels.cpp"]).
Proof.
  apply (single_merged_file mergeParameters posix [demoResult 3 0 "  "] "/out" ∅ []).
  - reflexivity.
  - discriminate.
  - intros r Hr. left. apply elem_of_cons in Hr as [->|Hr]; [reflexivity|].
    by apply elem_of_nil in Hr.
Defined.

Lemma markDuplicates_marks_witness :
  markDuplicates plainOps demoWriter [1; 2; 1]%nat
  = Ok [(1%nat, Some false); (2%nat, Some false); (1%nat, Some true)]
  ∧ [(1%nat, Some false); (2%nat, Some false); (1%nat, Some true)].*1 = [1; 2; 1]%nat.
Proof.
  split; [vm_compute; reflexivity|].
  refine (proj1 (markDuplicates_marks plainOps demoWriter [1; 2; 1]%nat
                   [(1%nat, Some false); (2%nat, Some false); (1%nat, Some true)] _)).
  vm_compute. reflexivity.
Defined.

Lemma naming_failure_escapes_witness :
  writeSolutionsAndKernels lazyParameters posix plainOps (λ s : list nat, s)
    failingWriter demoHelpers demoToolchain "/out" "amdclang++" [[1%nat]]
    ([] ++ [1%nat]) [] true true []
  = (Raise RuntimeError, [] ++ setupEvents lazyParameters posix "/out").
Proof.
  apply (naming_failure_escapes lazyParameters posix plainOps (λ s : list nat, s)
           failingWriter demoHelpers demoToolchain "/out" "amdclang++" [[1%nat]]
           [] 1%nat [] [] true true RuntimeError []).
  - reflexivity.
  - reflexivity.
  - by intros k ?%elem_of_nil.
Defined.


Lemma build_postcondition_witness :
  ∃ log',
    TensileCreateLibrary lazyParameters posix plainOps (λ s : list nat, s)
      demoWriter demoHelpers demoToolchain (λ lib : list nat, [])
      "/out" "amdclang++" [[1%nat]; [2%nat]] [1%nat; 2%nat] []
      [("gfx900", [1%nat; 2%nat])] None [] []
      ["/out/library/TensileLibrary_lazy_gfx900.dat"] ["gfx900"] true []
    = (Ok tt, log')
    ∧ ∀ p, p ∈ ["/out/library/TensileLibrary_lazy_gfx900.dat"] ++ [] ++ [] →
           path_exists posix p = true.
Proof.
  eexists. split; [vm_compute; reflexivity|].
  refine (proj2 (proj2 (proj2
            (build_postcondition lazyParameters posix plainOps (λ s : list nat, s)
               demoWriter demoHelpers demoToolchain (λ lib : list nat, [])
               "/out" "amdclang++" [[1%nat]; [2%nat]] [1%nat; 2%nat] []
               [("gfx900", [1%nat; 2%nat])] None [] []
               ["/out/library/TensileLibrary_lazy_gfx900.dat"] ["gfx900"] true [] _
               eq_refl _)))).
  vm_compute. reflexivity.
Defined.

Lemma library_writes_witness :
  writeMasterLibraries lazyParameters posix (λ lib : list string, lib) "/out/library"
    ["gfx900"] [("gfx900", ["TensileLibrary_Type_HH_gfx900"]); ("gfx906", [])] None []
  = (Ok tt,
     [EvLibraryWrite "/out/library/TensileLibrary_lazy_gfx900";
      EvLibraryWrite "/out/library/TensileLibrary_Type_HH_gfx900"]).
Proof.
  rewrite (library_writes lazyParameters posix (λ lib : list string, lib) "/out/library"
             ["gfx900"] [("gfx900", ["TensileLibrary_Type_HH_gfx900"]); ("gfx906", [])]
             None [] eq_refl).
  vm_compute. reflexivity.
Defined.

Lemma pipeline_returns_witness :
  ∃ log',
    writeSolutionsAndKernels lazyParameters posix plainOps (λ s : list nat, s)
      demoWriter demoHelpers demoToolchain "/out" "amdclang++" [[1%nat]; [2%nat]]
      [1%nat; 2%nat] ["Helper"] false true []
    = (Ok ([], [[1%nat]; [2%nat]], [1%nat; 2%nat]), log')
    ∧ ∀ ko, ko ∈ ["Helper"] → (helperSourceFileString demoHelpers ko).1 = 0.
Proof.
  eexists. split; [vm_compute; reflexivity|].
  refine (proj1
            (pipeline_returns lazyParameters posix plainOps (λ s : list nat, s)
               demoWriter demoHelpers demoToolchain "/out" "amdclang++"
               [[1%nat]; [2%nat]] [1%nat; 2%nat] ["Helper"] false true [] _ _ _ _ _)).
  vm_compute. reflexivity.
Defined.
